(** * web-printer: the web-to-png converter (skills/web-to-png/converter.js)

    A shallow embedding of the converter script: the viewport resolver, the
    script-tag sanitizer, the command-line parser, the render driver and the
    [toPng] pipeline, with the file system and the browser engine as an
    explicit world that is threaded through the effectful functions. *)

From Stdlib Require Import QArith Qround Strings.Ascii.
From stdpp Require Import gmap strings list.

Local Open Scope string_scope.
Local Open Scope list_scope.

(** ** JavaScript values used by the converter *)

Module Js.

(** A JavaScript number.  A finite double is represented by the rational it
    denotes (the converter only tests numbers for truthiness and rounds them
    up, both of which are exact on doubles); [-0] and [0] coincide. *)
Inductive num : Type :=
| Fin (q : Q)
| NaN
| Inf (negative : bool).

Definition of_Z (z : Z) : num := Fin (inject_Z z).

(** [ToBoolean] on a number: [0], [-0] and [NaN] are falsy. *)
Definition num_truthy (n : num) : bool :=
  match n with
  | Fin q => negb (Qeq_bool q (inject_Z 0))
  | NaN => false
  | Inf _ => true
  end.

(** [Math.ceil]. *)
Definition ceil (n : num) : num :=
  match n with
  | Fin q => Fin (inject_Z (Qceiling q))
  | NaN => NaN
  | Inf b => Inf b
  end.

Definition is_nan (n : num) : bool :=
  match n with NaN => true | _ => false end.

(** [lo <= n <= hi] for integer bounds, as a boolean; false on [NaN]. *)
Definition between (lo hi : Z) (n : num) : bool :=
  match n with
  | Fin q => Qle_bool (inject_Z lo) q && Qle_bool q (inject_Z hi)
  | NaN => false
  | Inf _ => false
  end.

Definition positive (n : num) : bool :=
  match n with
  | Fin q => negb (Qle_bool q (inject_Z 0))
  | NaN => false
  | Inf negative => negb negative
  end.

(** [ToBoolean] on a string: only the empty string is falsy. *)
Definition str_truthy (s : string) : bool :=
  negb (String.eqb s "").

(** [ToBoolean] on a value that may be [undefined] or [null] ([None]). *)
Definition truthy_num (v : option num) : bool :=
  match v with Some n => num_truthy n | None => false end.

Definition truthy_str (v : option string) : bool :=
  match v with Some s => str_truthy s | None => false end.

(** [v || d] on strings. *)
Definition or_str (v : option string) (d : string) : string :=
  match v with
  | Some s => if str_truthy s then s else d
  | None => d
  end.

(** A value given where a number is meant: a number, a text or a boolean.
    Objects, arrays and the like are not represented. *)
Inductive value : Type :=
| VNum (n : num)
| VStr (s : string)
| VBool (b : bool).

(** [ToBoolean] on such a value. *)
Definition value_truthy (v : value) : bool :=
  match v with
  | VNum n => num_truthy n
  | VStr s => str_truthy s
  | VBool b => b
  end.

(** [v ?? d]: only [undefined] and [null] take the default. *)
Definition nullish {A : Type} (v : option A) (d : A) : A :=
  match v with Some a => a | None => d end.

(** ASCII case folding, as the [i] flag applies it to the letters of the
    converter's patterns. *)
Definition lower (c : ascii) : ascii :=
  let n := nat_of_ascii c in
  if (65 <=? n)%nat && (n <=? 90)%nat then ascii_of_nat (n + 32) else c.

Definition ascii_eqb_ci (a b : ascii) : bool :=
  Ascii.eqb (lower a) (lower b).

(** [p] is a prefix of [s], letters compared case-insensitively. *)
Fixpoint prefix_ci (p s : string) : bool :=
  match p, s with
  | EmptyString, _ => true
  | String a p', String b s' => ascii_eqb_ci a b && prefix_ci p' s'
  | String _ _, EmptyString => false
  end.

(** [p] is a prefix of [s]. *)
Fixpoint has_prefix (p s : string) : bool :=
  match p, s with
  | EmptyString, _ => true
  | String a p', String b s' => Ascii.eqb a b && has_prefix p' s'
  | String _ _, EmptyString => false
  end.

(** [s.startsWith(p)]. *)
Definition startsWith (s p : string) : bool := has_prefix p s.

(** [n] characters dropped from the front. *)
Fixpoint drop (n : nat) (s : string) : string :=
  match n, s with
  | O, _ => s
  | S n', String _ s' => drop n' s'
  | S _, EmptyString => EmptyString
  end.

(** [s.includes(p)]. *)
Fixpoint includes (p s : string) : bool :=
  has_prefix p s ||
  match s with
  | EmptyString => false
  | String _ s' => includes p s'
  end.

End Js.

(** ** Presets and the viewport resolver *)

Record Viewport : Type := mkViewport {
  vp_width : option Js.num;
  vp_height : option Js.num
}.

Record Clip : Type := mkClip {
  clip_x : Js.num;
  clip_y : Js.num;
  clip_width : Js.num;
  clip_height : Js.num
}.

Record Preset : Type := mkPreset {
  preset_width : Z;
  preset_height : Z
}.

(** The [PRESETS] table, in source order. *)
Definition PRESETS : list (string * Preset) :=
  [ ("og", mkPreset 1200 630);
    ("square", mkPreset 1080 1080);
    ("story", mkPreset 1080 1920);
    ("portrait", mkPreset 1200 1500);
    ("banner", mkPreset 1600 900) ].

Definition PRESETS_og : Preset := mkPreset 1200 630.

(** [PRESETS] is an object literal, so [PRESETS[name]] also reaches the
    properties it inherits from [Object.prototype]. *)
Definition Object_prototype_names : list string :=
  [ "constructor"; "__defineGetter__"; "__defineSetter__"; "hasOwnProperty";
    "__lookupGetter__"; "__lookupSetter__"; "isPrototypeOf";
    "propertyIsEnumerable"; "toString"; "valueOf"; "__proto__";
    "toLocaleString" ].

Inductive Property : Type :=
| Own (p : Preset)      (* an entry of the table *)
| Inherited             (* a function or object of the prototype: truthy,
                           without [width] or [height] *)
| Absent.               (* [undefined] *)

Fixpoint own_lookup (name : string) (table : list (string * Preset))
  : option Preset :=
  match table with
  | [] => None
  | (k, p) :: rest => if String.eqb k name then Some p else own_lookup name rest
  end.

Definition PRESETS_get (name : string) : Property :=
  match own_lookup name PRESETS with
  | Some p => Own p
  | None =>
      if existsb (String.eqb name) Object_prototype_names then Inherited
      else Absent
  end.

Definition viewport_of_preset (p : Preset) : Viewport :=
  mkViewport (Some (Js.of_Z (preset_width p))) (Some (Js.of_Z (preset_height p))).

(** [clip && clip.width && clip.height]. *)
Definition clip_truthy (clip : option Clip) : bool :=
  match clip with
  | Some c => Js.num_truthy (clip_width c) && Js.num_truthy (clip_height c)
  | None => false
  end.

(** [PRESETS[preset] || PRESETS.og], then its [width] and [height]. *)
Definition preset_viewport (preset : string) : Viewport :=
  match PRESETS_get preset with
  | Own p => viewport_of_preset p
  | Inherited => mkViewport None None
  | Absent => viewport_of_preset PRESETS_og
  end.

(** [resolveViewport({ preset, width, height, clip })]. *)
Definition resolveViewport (preset : string) (width height : option Js.num)
    (clip : option Clip) : Viewport :=
  if Js.truthy_num width && Js.truthy_num height then mkViewport width height
  else
    match clip with
    | Some c =>
        if clip_truthy clip then
          mkViewport (Some (Js.ceil (clip_width c))) (Some (Js.ceil (clip_height c)))
        else preset_viewport preset
    | None => preset_viewport preset
    end.

(** ** The script-tag sanitizer *)

Module Sanitize.

(** The rest of [s] after the first [>]. *)
Fixpoint after_gt (s : string) : option string :=
  match s with
  | EmptyString => None
  | String c s' => if Ascii.eqb c ">" then Some s' else after_gt s'
  end.

(** The rest of [s] after the first closing tag, in any letter case. *)
Fixpoint after_close (s : string) : option string :=
  if Js.prefix_ci "</script>" s then Some (Js.drop 9 s)
  else
    match s with
    | EmptyString => None
    | String _ s' => after_close s'
    end.

(** One attempt of [<script[\s\S]*?>[\s\S]*?<\/script>] (flag [i]) at the
    start of [s]: the rest of [s] after the match.  Both quantifiers are
    lazy, so the match takes the first [>] behind the opening name and then
    the first closing tag behind that. *)
Definition match_here (s : string) : option string :=
  if Js.prefix_ci "<script" s then
    match after_gt (Js.drop 7 s) with
    | Some r => after_close r
    | None => None
    end
  else None.

(** [s.replace(re, "")] with the [g] flag: matches are searched left to
    right, each search resuming behind the previous match. *)
Fixpoint replace_all (fuel : nat) (s : string) : string :=
  match fuel with
  | O => s
  | S fuel' =>
      match match_here s with
      | Some rest => replace_all fuel' rest
      | None =>
          match s with
          | EmptyString => EmptyString
          | String c s' => String c (replace_all fuel' s')
          end
      end
  end.

(** Some position of [s] starts a match of the pattern. *)
Fixpoint has_match (s : string) : bool :=
  match match_here s with
  | Some _ => true
  | None =>
      match s with
      | EmptyString => false
      | String _ s' => has_match s'
      end
  end.

End Sanitize.

(** [sanitizeHtml(html, allowScripts = false)]. *)
Definition sanitizeHtml (html : string) (allowScripts : bool) : string :=
  if allowScripts then html
  else Sanitize.replace_all (String.length html) html.

(** ** The metadata *)

(** The [mode] reported by the driver. *)
Inductive ScreenshotMode : Type :=
| ModeClip
| ModeFullPage
| ModeCard
| ModeContainer.

Definition mode_name (m : ScreenshotMode) : string :=
  match m with
  | ModeClip => "clip"
  | ModeFullPage => "fullPage"
  | ModeCard => "card"
  | ModeContainer => "container"
  end.

(** The [meta] object of [toPng]. *)
Record Meta : Type := mkMeta {
  meta_engine : string;
  meta_generatedAt : string;
  meta_preset : string;
  meta_width : option Js.num;
  meta_height : option Js.num;
  meta_deviceScaleFactor : Js.num;
  meta_style : string;
  meta_screenshotMode : option ScreenshotMode;
  meta_inputHash : string
}.

(** ** The platform: built-ins of JavaScript and Node, and the libraries *)

(** What the converter takes from the language, from Node and from its
    imports; the development is parametric in all of it. *)
Record Platform : Type := mkPlatform {
  (** [Number(s)] on a string. *)
  Number_of_string : string -> Js.num;
  (** [s.trim()]. *)
  String_trim : string -> string;
  (** [s.replace(/pat/g, repl)] for the patterns of [renderTemplate], which
      match their text literally: pattern, replacement, subject. *)
  String_replace_global : string -> string -> string -> string;
  (** [s.replace("pat", repl)]: the first occurrence only; same order. *)
  String_replace_first : string -> string -> string -> string;
  (** [mdIt.render(md)] of the configured markdown-it instance. *)
  markdown_render : string -> string;
  (** [crypto.createHash("sha256").update(text, "utf-8").digest("hex")]. *)
  sha256_hex : string -> string;
  (** [path.resolve(p)] and [path.join(a, b)]. *)
  path_resolve : string -> string;
  path_join : string -> string -> string;
  (** The [templates] directory next to the script. *)
  TEMPLATES : string;
  (** [new Date().toISOString()]. *)
  Date_toISOString : string;
  (** [JSON.stringify(meta, null, 2)]. *)
  JSON_stringify : Meta -> string
}.

(** The browser engine behind [playwright]: what it answers to the driver.
    Of the calls of the driver, the load of the page is the one that is
    modelled as able to reject. *)
Record Browser : Type := mkBrowser {
  (** [import("playwright")] resolves. *)
  playwright_available : bool;
  (** [browser.version()]. *)
  browser_version : string;
  (** [page.goto] or [page.setContent] rejects (a timeout, a bad argument)
      for this target, wait policy and timeout. *)
  navigation_rejects : string -> string -> Js.num -> bool;
  (** The requests the page issues while it loads this target. *)
  outbound_requests : string -> list string;
  (** [page.$(selector)] finds an element. *)
  page_has : string -> bool
}.

(** ** The world: files and the calls made to the engine *)

Inductive Decision : Type :=
| Continued        (* [route.continue()] *)
| Aborted          (* [route.abort()] *)
| Unrouted.        (* no route installed: the request goes out *)

Inductive ShotTarget : Type :=
| OfPage
| OfElement (selector : string).

Inductive Event : Type :=
| EvWriteFile (path content : string)
| EvUnlink (path : string)
| EvLaunch
| EvNewPage (viewport : Viewport) (deviceScaleFactor : Js.num)
| EvRoute (pattern : string)
| EvGoto (url waitUntil : string) (timeout : Js.num)
| EvSetContent (html waitUntil : string) (timeout : Js.num)
| EvRequest (url : string) (d : Decision)
| EvAddScriptTag (content : string)
| EvEvaluate (expression : string)
| EvScreenshot (target : ShotTarget) (path : string) (clip : option Clip)
    (fullPage : bool)
| EvClose.

(** A call to the engine, as opposed to one to the file system. *)
Definition is_engine_call (e : Event) : bool :=
  match e with
  | EvWriteFile _ _ => false
  | EvUnlink _ => false
  | _ => true
  end.

(** Files by path, and the calls so far, oldest first. *)
Record World : Type := mkWorld {
  files : gmap string string;
  trace : list Event
}.

Inductive Error : Type :=
| FileNotFound (path : string)
| MissingInput
| ClipFormat
| MissingOutput
| WidthWithoutHeight
| HeightWithoutWidth
| CannotRender
| EngineRejected.

Inductive Outcome (A : Type) : Type :=
| Ok (a : A)
| Throw (e : Error).

Arguments Ok {A} a.
Arguments Throw {A} e.

(** An effectful computation: it may throw, and the world it leaves behind
    is kept in both cases. *)
Definition M (A : Type) : Type := World -> Outcome A * World.

Definition ret {A : Type} (a : A) : M A := fun w => (Ok a, w).

Definition throw {A : Type} (e : Error) : M A := fun w => (Throw e, w).

Definition bind {A B : Type} (m : M A) (k : A -> M B) : M B :=
  fun w =>
    match m w with
    | (Ok a, w') => k a w'
    | (Throw e, w') => (Throw e, w')
    end.

Notation "x <- m ;; k" := (bind m (fun x => k))
  (at level 100, m at next level, right associativity).
Notation "m ;;; k" := (bind m (fun _ => k))
  (at level 100, right associativity).

(** The world with further calls recorded. *)
Definition record (w : World) (events : list Event) : World :=
  mkWorld (files w) (trace w ++ events).

(** The world after a file was written, and after one was removed. *)
Definition written (path text : string) (w : World) : World :=
  mkWorld (<[path := text]> (files w)) (trace w ++ [EvWriteFile path text]).

Definition unlinked (path : string) (w : World) : World :=
  mkWorld (delete path (files w)) (trace w ++ [EvUnlink path]).

Definition emit (e : Event) : M unit :=
  fun w => (Ok tt, record w [e]).

Definition when_do (b : bool) (m : M unit) : M unit :=
  if b then m else ret tt.

(** [fs.existsSync(path)]. *)
Definition existsSync (path : string) : M bool :=
  fun w =>
    match files w !! path with
    | Some _ => (Ok true, w)
    | None => (Ok false, w)
    end.

(** [fs.writeFileSync(path, text, "utf-8")]: an existing file is replaced.
    The disk is a flat map from paths to the text of regular files; a write
    into a directory that does not exist, which the real call refuses, has
    no counterpart in it. *)
Definition writeFileSync (path text : string) : M unit :=
  fun w => (Ok tt, written path text w).

(** [fs.unlinkSync(path)]: throws when there is no such file. *)
Definition unlinkSync (path : string) : M unit :=
  fun w =>
    match files w !! path with
    | Some _ => (Ok tt, unlinked path w)
    | None => (Throw (FileNotFound path), w)
    end.

(** [readText(filePath)].  Every path of the disk names a regular file, so
    the error the converter raises itself is the only failure of a read
    here; a path that names a directory has no counterpart. *)
Definition readText (filePath : string) : M string :=
  fun w =>
    match files w !! filePath with
    | Some text => (Ok text, w)
    | None => (Throw (FileNotFound filePath), w)
    end.

(** ** Text helpers *)

Definition newline : ascii := ascii_of_nat 10.

(** [s.split(",")]. *)
Fixpoint split_commas (s : string) (cur : string) : list string :=
  match s with
  | EmptyString => [cur]
  | String c s' =>
      if Ascii.eqb c "," then cur :: split_commas s' EmptyString
      else split_commas s' (cur +:+ String c EmptyString)
  end.

(** [s.split(/\n{2,}/)]: a separator is a maximal run of two or more line
    feeds; [skipping] holds while the rest of such a run is passed over. *)
Fixpoint split_blank_lines (s : string) (skipping : bool) (cur : string)
  : list string :=
  match s with
  | EmptyString => [cur]
  | String c s' =>
      if skipping && Ascii.eqb c newline then split_blank_lines s' true cur
      else if Js.has_prefix (String newline (String newline EmptyString)) s
      then cur :: split_blank_lines s' true EmptyString
      else split_blank_lines s' false (cur +:+ String c EmptyString)
  end.

(** [block.replace(/\n/g, " ")]. *)
Fixpoint newlines_to_spaces (s : string) : string :=
  match s with
  | EmptyString => EmptyString
  | String c s' =>
      String (if Ascii.eqb c newline then " "%char else c) (newlines_to_spaces s')
  end.

(** [blocks.join("\n\n")]. *)
Fixpoint join_blank_lines (blocks : list string) : string :=
  match blocks with
  | [] => EmptyString
  | [b] => b
  | b :: rest =>
      b +:+ String newline (String newline EmptyString) +:+ join_blank_lines rest
  end.

(** [s.replace(/\.png$/i, "")]. *)
Fixpoint strip_png (s : string) : string :=
  match s with
  | EmptyString => EmptyString
  | String c s' =>
      if Js.prefix_ci ".png" s && (String.length s =? 4)%nat then EmptyString
      else String c (strip_png s')
  end.

(** [/^https?:\/\//i.test(s)] and [/^file:\/\//i.test(s)]. *)
Definition is_http_url (s : string) : bool :=
  Js.prefix_ci "http://" s || Js.prefix_ci "https://" s.

Definition is_file_url (s : string) : bool :=
  Js.prefix_ci "file://" s.

(** ** Command-line arguments *)

(** The [args] object of [parseArgs]; [None] is [null] or [undefined]. *)
Module Args.

Record t : Type := mk {
  input : option string;
  content : option string;
  url : option string;
  output : option string;
  style : option string;
  format : option string;
  preset : option string;
  width : option Js.num;
  height : option Js.num;
  deviceScaleFactor : Js.num;
  fullPage : bool;
  clip : option Clip;
  noHtml : bool;
  allowScripts : bool;
  customCss : option string;
  title : option string;
  allowNet : list (option string);
  waitUntil : option string;
  timeoutMs : Js.num
}.

Definition set_input (v : option string) (a : t) : t :=
  mk v (content a) (url a) (output a) (style a) (format a) (preset a)
    (width a) (height a) (deviceScaleFactor a) (fullPage a) (clip a) (noHtml
    a) (allowScripts a) (customCss a) (title a) (allowNet a) (waitUntil a)
    (timeoutMs a).

Definition set_content (v : option string) (a : t) : t :=
  mk (input a) v (url a) (output a) (style a) (format a) (preset a)
    (width a) (height a) (deviceScaleFactor a) (fullPage a) (clip a)
    (noHtml a) (allowScripts a) (customCss a) (title a) (allowNet a)
    (waitUntil a) (timeoutMs a).

Definition set_url (v : option string) (a : t) : t :=
  mk (input a) (content a) v (output a) (style a) (format a) (preset a)
    (width a) (height a) (deviceScaleFactor a) (fullPage a) (clip a)
    (noHtml a) (allowScripts a) (customCss a) (title a) (allowNet a)
    (waitUntil a) (timeoutMs a).

Definition set_output (v : option string) (a : t) : t :=
  mk (input a) (content a) (url a) v (style a) (format a) (preset a)
    (width a) (height a) (deviceScaleFactor a) (fullPage a) (clip a)
    (noHtml a) (allowScripts a) (customCss a) (title a) (allowNet a)
    (waitUntil a) (timeoutMs a).

Definition set_style (v : option string) (a : t) : t :=
  mk (input a) (content a) (url a) (output a) v (format a) (preset a)
    (width a) (height a) (deviceScaleFactor a) (fullPage a) (clip a)
    (noHtml a) (allowScripts a) (customCss a) (title a) (allowNet a)
    (waitUntil a) (timeoutMs a).

Definition set_format (v : option string) (a : t) : t :=
  mk (input a) (content a) (url a) (output a) (style a) v (preset a)
    (width a) (height a) (deviceScaleFactor a) (fullPage a) (clip a)
    (noHtml a) (allowScripts a) (customCss a) (title a) (allowNet a)
    (waitUntil a) (timeoutMs a).

Definition set_preset (v : option string) (a : t) : t :=
  mk (input a) (content a) (url a) (output a) (style a) (format a) v
    (width a) (height a) (deviceScaleFactor a) (fullPage a) (clip a)
    (noHtml a) (allowScripts a) (customCss a) (title a) (allowNet a)
    (waitUntil a) (timeoutMs a).

Definition set_width (v : option Js.num) (a : t) : t :=
  mk (input a) (content a) (url a) (output a) (style a) (format a)
    (preset a) v (height a) (deviceScaleFactor a) (fullPage a) (clip a)
    (noHtml a) (allowScripts a) (customCss a) (title a) (allowNet a)
    (waitUntil a) (timeoutMs a).

Definition set_height (v : option Js.num) (a : t) : t :=
  mk (input a) (content a) (url a) (output a) (style a) (format a)
    (preset a) (width a) v (deviceScaleFactor a) (fullPage a) (clip a)
    (noHtml a) (allowScripts a) (customCss a) (title a) (allowNet a)
    (waitUntil a) (timeoutMs a).

Definition set_deviceScaleFactor (v : Js.num) (a : t) : t :=
  mk (input a) (content a) (url a) (output a) (style a) (format a)
    (preset a) (width a) (height a) v (fullPage a) (clip a) (noHtml a)
    (allowScripts a) (customCss a) (title a) (allowNet a) (waitUntil a)
    (timeoutMs a).

Definition set_fullPage (v : bool) (a : t) : t :=
  mk (input a) (content a) (url a) (output a) (style a) (format a)
    (preset a) (width a) (height a) (deviceScaleFactor a) v (clip a)
    (noHtml a) (allowScripts a) (customCss a) (title a) (allowNet a)
    (waitUntil a) (timeoutMs a).

Definition set_clip (v : option Clip) (a : t) : t :=
  mk (input a) (content a) (url a) (output a) (style a) (format a)
    (preset a) (width a) (height a) (deviceScaleFactor a) (fullPage a) v
    (noHtml a) (allowScripts a) (customCss a) (title a) (allowNet a)
    (waitUntil a) (timeoutMs a).

Definition set_noHtml (v : bool) (a : t) : t :=
  mk (input a) (content a) (url a) (output a) (style a) (format a)
    (preset a) (width a) (height a) (deviceScaleFactor a) (fullPage a)
    (clip a) v (allowScripts a) (customCss a) (title a) (allowNet a)
    (waitUntil a) (timeoutMs a).

Definition set_allowScripts (v : bool) (a : t) : t :=
  mk (input a) (content a) (url a) (output a) (style a) (format a)
    (preset a) (width a) (height a) (deviceScaleFactor a) (fullPage a)
    (clip a) (noHtml a) v (customCss a) (title a) (allowNet a) (waitUntil a)
    (timeoutMs a).

Definition set_customCss (v : option string) (a : t) : t :=
  mk (input a) (content a) (url a) (output a) (style a) (format a)
    (preset a) (width a) (height a) (deviceScaleFactor a) (fullPage a)
    (clip a) (noHtml a) (allowScripts a) v (title a) (allowNet a)
    (waitUntil a) (timeoutMs a).

Definition set_title (v : option string) (a : t) : t :=
  mk (input a) (content a) (url a) (output a) (style a) (format a)
    (preset a) (width a) (height a) (deviceScaleFactor a) (fullPage a)
    (clip a) (noHtml a) (allowScripts a) (customCss a) v (allowNet a)
    (waitUntil a) (timeoutMs a).

Definition set_allowNet (v : list (option string)) (a : t) : t :=
  mk (input a) (content a) (url a) (output a) (style a) (format a)
    (preset a) (width a) (height a) (deviceScaleFactor a) (fullPage a)
    (clip a) (noHtml a) (allowScripts a) (customCss a) (title a) v
    (waitUntil a) (timeoutMs a).

Definition set_waitUntil (v : option string) (a : t) : t :=
  mk (input a) (content a) (url a) (output a) (style a) (format a)
    (preset a) (width a) (height a) (deviceScaleFactor a) (fullPage a)
    (clip a) (noHtml a) (allowScripts a) (customCss a) (title a)
    (allowNet a) v (timeoutMs a).

Definition set_timeoutMs (v : Js.num) (a : t) : t :=
  mk (input a) (content a) (url a) (output a) (style a) (format a) (preset
    a) (width a) (height a) (deviceScaleFactor a) (fullPage a) (clip a)
    (noHtml a) (allowScripts a) (customCss a) (title a) (allowNet a)
    (waitUntil a) v.

(** The initial object. *)
Definition defaults : t :=
  mk None None None None (Some "card-clean") (Some "markdown") (Some "og")
     None None (Js.of_Z 2) false None false false None None [] (Some "networkidle")
     (Js.of_Z 30000).

End Args.

(** How [parseArgs] ends: with the arguments, with an exception, or by
    leaving the process after the help text. *)
Inductive Parsed : Type :=
| Done (a : Args.t)
| Thrown (e : Error)
| Exited (code : Z).

(** The elements behind a flag's value: [argv] from index [i + 1] on, after
    [argv[++i]] was read. *)
Definition behind_value (rest : list string) : list string :=
  match rest with
  | [] => rest
  | _ :: rest' => rest'
  end.

(** ** The request of [toPng] *)

(** The [options] bag. *)
Module Opts.

Record t : Type := mk {
  format : option string;
  preset : option string;
  width : option Js.num;
  height : option Js.num;
  device_scale_factor : option Js.num;
  full_page : bool;
  clip : option Clip;
  title : option string;
  wait_until : option string;
  timeout_ms : option Js.value
}.

(** [options = {}]. *)
Definition empty : t :=
  mk None None None None None false None None None None.

End Opts.

(** The argument object of [toPng]; [None] is a property left out. *)
Module Req.

Record t : Type := mk {
  inputPath : option string;
  content : option string;
  url : option string;
  outputPath : option string;
  style : option string;            (* default ["card-clean"] *)
  customCssPath : option string;
  keepHtml : option bool;           (* default [true] *)
  allowScripts : option bool;       (* default [false] *)
  networkWhitelist : option (list (option string));
  options : Opts.t;
  (** A [safe] property on the object, as the snap command has a flag of
      that name: the parameter pattern of [toPng] does not bind it. *)
  safe : bool
}.

Definition with_safe (b : bool) (r : t) : t :=
  mk (inputPath r) (content r) (url r) (outputPath r) (style r)
    (customCssPath r) (keepHtml r) (allowScripts r) (networkWhitelist r)
    (options r) b.

End Req.

(** What [toPng] returns. *)
Record Result : Type := mkResult {
  pngPath : string;
  htmlPath : option string;
  meta : Meta;
  metaPath : string
}.

(** The [options] handed to the render driver. *)
Record ShotOptions : Type := mkShotOptions {
  shot_clip : option Clip;
  shot_fullPage : bool;
  shot_deviceScaleFactor : option Js.num
}.

(** What the render driver resolves to, when the engine is there. *)
Record Rendered : Type := mkRendered {
  rendered_version : string;
  rendered_mode : ScreenshotMode
}.

(** How the process ends. *)
Inductive ProcessEnd : Type :=
| Printed (r : Result)      (* the result on standard output, status 0 *)
| HelpShown                 (* the help text, status 0 *)
| Failed (e : Error).       (* the message on standard error, status 1 *)

Section Converter.

Context (P : Platform) (B : Browser).

(** [Number(v)] where [v] may be [undefined]. *)
Definition Number_of (v : option string) : Js.num :=
  match v with
  | Some s => Number_of_string P s
  | None => Js.NaN
  end.

(** [Number(v)] on a number, a text or a boolean. *)
Definition Number_of_value (v : Js.value) : Js.num :=
  match v with
  | Js.VNum n => n
  | Js.VStr s => Number_of_string P s
  | Js.VBool b => Js.of_Z (if b then 1 else 0)
  end.

(** [textToMarkdown(text)]. *)
Definition textToMarkdown (text : string) : string :=
  join_blank_lines
    (filter (fun block => Js.str_truthy block = true)
       (map (fun block => String_trim P (newlines_to_spaces block))
          (split_blank_lines text false EmptyString))).

(** [markdownToHtml(md)]. *)
Definition markdownToHtml (md : string) : string := markdown_render P md.

(** [renderTemplate(title, bodyHtml, style, customCss)]. *)
Definition renderTemplate (title bodyHtml style : string)
    (customCss : option string) : M string :=
  let templatePath := path_join P (TEMPLATES P) (style +:+ ".html") in
  text <- readText templatePath ;;
  let html :=
    String_replace_global P "{{body}}" bodyHtml
      (String_replace_global P "{{title}}" title text) in
  let customStyleBlock :=
    match customCss with
    | Some css => if Js.str_truthy css then "<style>" +:+ css +:+ "</style>" else ""
    | None => ""
    end in
  if Js.includes "{{styles}}" html then
    ret (String_replace_first P "{{styles}}" customStyleBlock html)
  else if Js.truthy_str customCss then
    ret (String_replace_first P "</head>" (customStyleBlock +:+ "</head>") html)
  else ret html.

(** [parseClip(value)]; the result [None] is [null]. *)
Definition parseClip (value : option string) : Outcome (option Clip) :=
  if negb (Js.truthy_str value) then Ok None
  else
    let parts :=
      map (fun v => Number_of_string P (String_trim P v))
        (split_commas (Js.nullish value "") EmptyString) in
    match parts with
    | [x; y; width; height] =>
        if existsb Js.is_nan parts then Throw ClipFormat
        else Ok (Some (mkClip x y width height))
    | _ => Throw ClipFormat
    end.

(** The loop of [parseArgs] over [argv]. *)
Fixpoint parse_loop (argv : list string) (args : Args.t) : Parsed :=
  match argv with
  | [] => Done args
  | a :: rest =>
      let v := head rest in
      let rest' := behind_value rest in
      if String.eqb a "--input" then parse_loop rest' (Args.set_input v args)
      else if String.eqb a "--content" then parse_loop rest' (Args.set_content v args)
      else if String.eqb a "--url" then parse_loop rest' (Args.set_url v args)
      else if String.eqb a "--output" then parse_loop rest' (Args.set_output v args)
      else if String.eqb a "--style" then parse_loop rest' (Args.set_style v args)
      else if String.eqb a "--format" then parse_loop rest' (Args.set_format v args)
      else if String.eqb a "--preset" then parse_loop rest' (Args.set_preset v args)
      else if String.eqb a "--width" then
        parse_loop rest' (Args.set_width (Some (Number_of v)) args)
      else if String.eqb a "--height" then
        parse_loop rest' (Args.set_height (Some (Number_of v)) args)
      else if String.eqb a "--device-scale-factor" then
        parse_loop rest' (Args.set_deviceScaleFactor (Number_of v) args)
      else if String.eqb a "--full-page" then
        parse_loop rest (Args.set_fullPage true args)
      else if String.eqb a "--clip" then
        match parseClip v with
        | Ok c => parse_loop rest' (Args.set_clip c args)
        | Throw e => Thrown e
        end
      else if String.eqb a "--no-html" then
        parse_loop rest (Args.set_noHtml true args)
      else if String.eqb a "--allow-scripts" then
        parse_loop rest (Args.set_allowScripts true args)
      else if String.eqb a "--css" then parse_loop rest' (Args.set_customCss v args)
      else if String.eqb a "--title" then parse_loop rest' (Args.set_title v args)
      else if String.eqb a "--allow-net" then
        parse_loop rest' (Args.set_allowNet (Args.allowNet args ++ [v]) args)
      else if String.eqb a "--wait-until" then
        parse_loop rest' (Args.set_waitUntil v args)
      else if String.eqb a "--timeout-ms" then
        parse_loop rest' (Args.set_timeoutMs (Number_of v) args)
      else if String.eqb a "--help" || String.eqb a "-h" then Exited 0
      else parse_loop rest args
  end.

(** The checks of [parseArgs] behind the loop. *)
Definition check_args (args : Args.t) : Parsed :=
  if negb (Js.truthy_str (Args.output args)) then Thrown MissingOutput
  else if Js.truthy_num (Args.width args) && negb (Js.truthy_num (Args.height args))
  then Thrown WidthWithoutHeight
  else if negb (Js.truthy_num (Args.width args)) && Js.truthy_num (Args.height args)
  then Thrown HeightWithoutWidth
  else Done args.

(** [parseArgs(argv)]. *)
Definition parseArgs (argv : list string) : Parsed :=
  match parse_loop argv Args.defaults with
  | Done args => check_args args
  | Thrown e => Thrown e
  | Exited code => Exited code
  end.

(** The handler given to [page.route]: a prefix that is [undefined] is
    turned into the text ["undefined"] by [startsWith]. *)
Definition route_handler (networkWhitelist : list (option string))
    (url : string) : Decision :=
  if existsb (fun prefix => Js.startsWith url (Js.nullish prefix "undefined"))
       networkWhitelist
  then Continued else Aborted.

(** [Array.isArray(networkWhitelist) && networkWhitelist.length > 0]. *)
Definition route_installed (networkWhitelist : option (list (option string)))
  : option (string -> Decision) :=
  match networkWhitelist with
  | Some (prefix :: rest) => Some (route_handler (prefix :: rest))
  | Some [] => None
  | None => None
  end.

Definition route_present (handler : option (string -> Decision)) : bool :=
  match handler with
  | Some _ => true
  | None => false
  end.

(** The decision on one request of the page. *)
Definition dispatch (handler : option (string -> Decision)) (url : string)
  : Decision :=
  match handler with
  | Some h => h url
  | None => Unrouted
  end.

(** The engine serving the requests of a page load: each one goes to the
    installed handler, or out when there is none. *)
Fixpoint serve (handler : option (string -> Decision)) (urls : list string)
  : M unit :=
  match urls with
  | [] => ret tt
  | u :: rest =>
      emit (EvRequest u (dispatch handler u)) ;;;
      serve handler rest
  end.

(** The call that loads the page: [page.goto] for a URL, [page.setContent]
    for anything else. *)
Definition navigation_call (htmlOrUrl waitUntil : string) (timeoutMs : Js.num)
  : Event :=
  if is_http_url htmlOrUrl || is_file_url htmlOrUrl
  then EvGoto htmlOrUrl waitUntil timeoutMs
  else EvSetContent htmlOrUrl waitUntil timeoutMs.

(** The load itself, which the engine may reject. *)
Definition navigate (handler : option (string -> Decision))
    (htmlOrUrl waitUntil : string) (timeoutMs : Js.num) : M unit :=
  emit (navigation_call htmlOrUrl waitUntil timeoutMs) ;;;
  if navigation_rejects B htmlOrUrl waitUntil timeoutMs then throw EngineRejected
  else serve handler (outbound_requests B htmlOrUrl).

(** The capture of [renderPngWithPlaywright] and the mode it reports. *)
Definition capture (pngPath : string) (options : ShotOptions)
  : M ScreenshotMode :=
  match shot_clip options with
  | Some c =>
      emit (EvScreenshot OfPage pngPath (Some c) false) ;;;
      ret ModeClip
  | None =>
      if shot_fullPage options then
        emit (EvScreenshot OfPage pngPath None true) ;;;
        ret ModeFullPage
      else if page_has B ".card" then
        emit (EvScreenshot (OfElement ".card") pngPath None false) ;;;
        ret ModeCard
      else if page_has B ".container" then
        emit (EvScreenshot (OfElement ".container") pngPath None false) ;;;
        ret ModeContainer
      else
        emit (EvScreenshot OfPage pngPath None true) ;;;
        ret ModeFullPage
  end.

Definition remove_scripts : string :=
  "document.querySelectorAll('script').forEach(s=>s.remove())".

(** [renderPngWithPlaywright(...)]; the result [None] is [null].  The load
    of the page is the only call that can reject here: a launch of the
    engine that fails has no counterpart. *)
Definition renderPngWithPlaywright (htmlOrUrl pngPath : string)
    (viewport : Viewport) (options : ShotOptions) (waitUntil : string)
    (timeoutMs : Js.num) (allowScripts : bool)
    (networkWhitelist : option (list (option string)))
  : M (option Rendered) :=
  if negb (playwright_available B) then ret None
  else
    emit EvLaunch ;;;
    emit (EvNewPage viewport
            (Js.nullish (shot_deviceScaleFactor options) (Js.of_Z 2))) ;;;
    let handler := route_installed networkWhitelist in
    when_do (route_present handler) (emit (EvRoute "**/*")) ;;;
    navigate handler htmlOrUrl waitUntil timeoutMs ;;;
    when_do (negb allowScripts) (emit (EvAddScriptTag remove_scripts)) ;;;
    emit (EvEvaluate "document.fonts && document.fonts.ready") ;;;
    mode <- capture pngPath options ;;
    let version := browser_version B in
    emit EvClose ;;;
    ret (Some (mkRendered version mode)).

(** The calls up to and including the load of the page. *)
Definition opening_calls (htmlOrUrl : string) (viewport : Viewport)
    (options : ShotOptions) (waitUntil : string) (timeoutMs : Js.num)
    (networkWhitelist : option (list (option string))) : list Event :=
  [EvLaunch;
   EvNewPage viewport (Js.nullish (shot_deviceScaleFactor options) (Js.of_Z 2))]
  ++ (if route_present (route_installed networkWhitelist)
      then [EvRoute "**/*"] else [])
  ++ [navigation_call htmlOrUrl waitUntil timeoutMs].

(** The requests of the load, each with its decision. *)
Definition served (htmlOrUrl : string)
    (networkWhitelist : option (list (option string))) : list Event :=
  map (fun u => EvRequest u (dispatch (route_installed networkWhitelist) u))
    (outbound_requests B htmlOrUrl).

(** [options.format === name]. *)
Definition format_is (format : option string) (name : string) : bool :=
  match format with
  | Some f => String.eqb f name
  | None => false
  end.

(** [options.wait_until || "networkidle"]. *)
Definition waitUntil_of (options : Opts.t) : string :=
  Js.or_str (Opts.wait_until options) "networkidle".

(** [Number(options.timeout_ms || 30000)]: the default is taken for a value
    that is falsy as it stands, and the conversion to a number comes after
    that test. *)
Definition timeoutMs_of (options : Opts.t) : Js.num :=
  match Opts.timeout_ms options with
  | Some v => if Js.value_truthy v then Number_of_value v else Js.of_Z 30000
  | None => Js.of_Z 30000
  end.

(** [options.preset || "og"]. *)
Definition presetName_of (options : Opts.t) : string :=
  Js.or_str (Opts.preset options) "og".

(** The [viewport] of [toPng]. *)
Definition viewport_of (options : Opts.t) : Viewport :=
  resolveViewport (presetName_of options) (Opts.width options)
    (Opts.height options) (Opts.clip options).

(** [options.device_scale_factor ?? 2]. *)
Definition deviceScaleFactor_of (options : Opts.t) : Js.num :=
  Js.nullish (Opts.device_scale_factor options) (Js.of_Z 2).

(** The options [toPng] hands to the driver. *)
Definition shot_of (options : Opts.t) : ShotOptions :=
  mkShotOptions (Opts.clip options) (Opts.full_page options)
    (Some (deviceScaleFactor_of options)).

(** [outputPng], [outputHtml] and [metaPath]. *)
Definition outputPng_of (r : Req.t) : string :=
  path_resolve P (Js.or_str (Req.outputPath r) "output.png").

Definition outputHtml_of (r : Req.t) : string :=
  strip_png (outputPng_of r) +:+ ".html".

Definition metaPath_of (r : Req.t) : string :=
  strip_png (outputPng_of r) +:+ ".meta.json".

(** [!inputPath && !content && !url]. *)
Definition no_input (r : Req.t) : bool :=
  negb (Js.truthy_str (Req.inputPath r)) && negb (Js.truthy_str (Req.content r))
  && negb (Js.truthy_str (Req.url r)).

(** [rawContent] and [customCss]: the input file, overridden by the inline
    content, and the style sheet. *)
Definition load_sources (r : Req.t) : M (string * option string) :=
  fromFile <- (if Js.truthy_str (Req.inputPath r)
               then readText (Js.nullish (Req.inputPath r) "")
               else ret "") ;;
  let rawContent :=
    if Js.truthy_str (Req.content r) then Js.nullish (Req.content r) ""
    else fromFile in
  customCss <- (if Js.truthy_str (Req.customCssPath r)
                then css <- readText (Js.nullish (Req.customCssPath r) "") ;;
                     ret (Some css)
                else ret None) ;;
  ret (rawContent, customCss).

(** [html]: the URL itself, or the page built from the content. *)
Definition build_html (r : Req.t) (rawContent : string)
    (customCss : option string) : M string :=
  let options := Req.options r in
  if Js.truthy_str (Req.url r) then ret (Js.nullish (Req.url r) "")
  else
    let normalized :=
      if format_is (Opts.format options) "text"
      then textToMarkdown rawContent else rawContent in
    let body :=
      if format_is (Opts.format options) "html"
      then normalized else markdownToHtml normalized in
    renderTemplate (Js.or_str (Opts.title options) "Web-to-PNG")
      (sanitizeHtml body (Js.nullish (Req.allowScripts r) false))
      (Js.nullish (Req.style r) "card-clean") customCss.

(** [rawContent || url || ""]: what the hash is taken of. *)
Definition hashed_text (r : Req.t) (rawContent : string) : string :=
  if Js.str_truthy rawContent then rawContent
  else if Js.truthy_str (Req.url r) then Js.nullish (Req.url r) "" else "".

(** The [meta] object. *)
Definition meta_of (r : Req.t) (rawContent : string) (rendered : Rendered) : Meta :=
  let options := Req.options r in
  mkMeta ("chromium:" +:+ rendered_version rendered) (Date_toISOString P)
    (presetName_of options) (vp_width (viewport_of options))
    (vp_height (viewport_of options)) (deviceScaleFactor_of options)
    (Js.nullish (Req.style r) "card-clean") (Some (rendered_mode rendered))
    (sha256_hex P (hashed_text r rawContent)).

(** The second half of [toPng], from [outputPng] on: the intermediate file,
    the render, and the metadata. *)
Definition produce (r : Req.t) (rawContent html : string) : M Result :=
  let options := Req.options r in
  let keepHtml := Js.nullish (Req.keepHtml r) true in
  let allowScripts := Js.nullish (Req.allowScripts r) false in
  let has_url := Js.truthy_str (Req.url r) in
  let outputPng := outputPng_of r in
  let outputHtml := outputHtml_of r in
  when_do (keepHtml && negb has_url) (writeFileSync outputHtml html) ;;;
  result <- (if has_url then
               renderPngWithPlaywright (Js.nullish (Req.url r) "") outputPng
                 (viewport_of options) (shot_of options) (waitUntil_of options)
                 (timeoutMs_of options) allowScripts (Req.networkWhitelist r)
             else
               writeFileSync outputHtml html ;;;
               renderPngWithPlaywright ("file://" +:+ outputHtml) outputPng
                 (viewport_of options) (shot_of options) (waitUntil_of options)
                 (timeoutMs_of options) allowScripts (Req.networkWhitelist r)) ;;
  match result with
  | None => throw CannotRender
  | Some rendered =>
      if negb (Js.str_truthy (rendered_version rendered)) then throw CannotRender
      else
        present <- existsSync outputHtml ;;
        when_do (negb keepHtml && present) (unlinkSync outputHtml) ;;;
        let meta := meta_of r rawContent rendered in
        writeFileSync (metaPath_of r) (JSON_stringify P meta) ;;;
        ret (mkResult outputPng (if keepHtml then Some outputHtml else None)
               meta (metaPath_of r))
  end.

(** [toPng({...})]. *)
Definition toPng (r : Req.t) : M Result :=
  if no_input r then throw MissingInput
  else
    sources <- load_sources r ;;
    html <- build_html r (fst sources) (snd sources) ;;
    produce r (fst sources) html.

(** What the driver is asked to load. *)
Definition target_of (r : Req.t) : string :=
  if Js.truthy_str (Req.url r) then Js.nullish (Req.url r) ""
  else "file://" +:+ outputHtml_of r.

(** The world in which the driver starts: for content, the intermediate
    file is on disk, written once or, when it is to be kept, twice. *)
Definition staged (r : Req.t) (html : string) (w : World) : World :=
  if Js.truthy_str (Req.url r) then w
  else
    written (outputHtml_of r) html
      (if Js.nullish (Req.keepHtml r) true
       then written (outputHtml_of r) html w else w).

(** The world after the intermediate file was removed, if it is not kept
    and is there. *)
Definition cleaned (r : Req.t) (w : World) : World :=
  if Js.nullish (Req.keepHtml r) true then w
  else
    match files w !! outputHtml_of r with
    | Some _ => unlinked (outputHtml_of r) w
    | None => w
    end.

(** The calls of a render that resolves. *)
Definition render_calls (r : Req.t) (screenshot : Event) : list Event :=
  let options := Req.options r in
  opening_calls (target_of r) (viewport_of options) (shot_of options)
    (waitUntil_of options) (timeoutMs_of options) (Req.networkWhitelist r)
  ++ served (target_of r) (Req.networkWhitelist r)
  ++ (if Js.nullish (Req.allowScripts r) false then []
      else [EvAddScriptTag remove_scripts])
  ++ [EvEvaluate "document.fonts && document.fonts.ready"; screenshot; EvClose].

(** The request [main] builds from the parsed arguments. *)
Definition request_of_args (args : Args.t) : Req.t :=
  Req.mk (Args.input args) (Args.content args) (Args.url args)
    (Args.output args) (Args.style args) (Args.customCss args)
    (Some (negb (Args.noHtml args))) (Some (Args.allowScripts args))
    (Some (Args.allowNet args))
    (Opts.mk (Args.format args) (Args.preset args) (Args.width args)
       (Args.height args) (Some (Args.deviceScaleFactor args))
       (Args.fullPage args) (Args.clip args) (Args.title args)
       (Args.waitUntil args) (Some (Js.VNum (Args.timeoutMs args))))
    false.

(** [main()] on [process.argv.slice(2)], with the handler of its rejection. *)
Definition main (argv : list string) (w : World) : ProcessEnd * World :=
  match parseArgs argv with
  | Done args =>
      match toPng (request_of_args args) w with
      | (Ok result, w') => (Printed result, w')
      | (Throw e, w') => (Failed e, w')
      end
  | Thrown e => (Failed e, w)
  | Exited _ => (HelpShown, w)
  end.

End Converter.

(** ** A concrete platform and engine, for running the converter *)

Module Sample.

(** Decimal digits to a number; anything else is [NaN], the empty text is
    [0].  This agrees with [Number] on unsigned integer literals. *)
Fixpoint digits (s : string) (acc : Z) : option Z :=
  match s with
  | EmptyString => Some acc
  | String c s' =>
      let n := nat_of_ascii c in
      if (48 <=? n)%nat && (n <=? 57)%nat
      then digits s' (10 * acc + Z.of_nat (n - 48))
      else None
  end.

Definition Number (s : string) : Js.num :=
  match digits s 0 with
  | Some z => Js.of_Z z
  | None => Js.NaN
  end.

Definition is_space (c : ascii) : bool :=
  let n := nat_of_ascii c in
  (n =? 32)%nat || ((9 <=? n)%nat && (n <=? 13)%nat).

Fixpoint trim_left (s : string) : string :=
  match s with
  | EmptyString => EmptyString
  | String c s' => if is_space c then trim_left s' else s
  end.

Fixpoint trim_right (s : string) : string :=
  match s with
  | EmptyString => EmptyString
  | String c s' =>
      match trim_right s' with
      | EmptyString => if is_space c then EmptyString else String c EmptyString
      | rest => String c rest
      end
  end.

Definition trim (s : string) : string := trim_right (trim_left s).

(** Replacement of a literal pattern by a text without [$]. *)
Fixpoint replace (fuel : nat) (all : bool) (pat repl s : string) : string :=
  match fuel with
  | O => s
  | S fuel' =>
      match s with
      | EmptyString => EmptyString
      | String c s' =>
          if Js.has_prefix pat s && negb (String.eqb pat "") then
            repl +:+ (if all
                      then replace fuel' all pat repl (Js.drop (String.length pat) s)
                      else Js.drop (String.length pat) s)
          else String c (replace fuel' all pat repl s')
      end
  end.

Definition platform : Platform :=
  {| Number_of_string := Number;
     String_trim := trim;
     String_replace_global := fun pat repl s => replace (String.length s) true pat repl s;
     String_replace_first := fun pat repl s => replace (String.length s) false pat repl s;
     markdown_render := fun md => "<p>" +:+ md +:+ "</p>";
     sha256_hex := fun text => "sha256(" +:+ text +:+ ")";
     path_resolve := fun p => if Js.has_prefix "/" p then p else "/work/" +:+ p;
     path_join := fun a b => a +:+ "/" +:+ b;
     TEMPLATES := "/skill/templates";
     Date_toISOString := "2026-01-01T00:00:00.000Z";
     JSON_stringify := fun m =>
       "{engine:" +:+ meta_engine m +:+ ",preset:" +:+ meta_preset m +:+ "}" |}.

(** An engine that is installed, finds the elements it is told to have, and
    rejects a navigation whose wait policy it does not know. *)
Definition known_wait (waitUntil : string) : bool :=
  existsb (String.eqb waitUntil) ["load"; "domcontentloaded"; "networkidle"; "commit"].

Definition with_elements (card container : bool) : Browser :=
{| playwright_available := true;
   browser_version := "120.0.1";
   navigation_rejects := fun _ waitUntil _ => negb (known_wait waitUntil);
   outbound_requests := fun target =>
     [target; "https://cdn.example.com/font.woff"; "https://tracker.example.net/p.gif"];
   page_has := fun selector =>
     (card && String.eqb selector ".card")
     || (container && String.eqb selector ".container") |}.

Definition browser : Browser := with_elements false true.

(** No engine installed. *)
Definition no_browser : Browser :=
  {| playwright_available := false;
     browser_version := "";
     navigation_rejects := fun _ _ _ => false;
     outbound_requests := fun _ => [];
     page_has := fun _ => false |}.

Definition template : string :=
  "<html><head><title>{{title}}</title>{{styles}}</head><body><div class=container>{{body}}</div></body></html>".

(** A disk holding the default template and one note. *)
Definition disk : World :=
  mkWorld (<["/skill/templates/card-clean.html" := template]>
            (<["/work/note.md" := "hello"]> ∅)) [].

Definition no_options : Opts.t := Opts.empty.

Definition request (content url : option string) (options : Opts.t) (safe : bool)
  : Req.t :=
  Req.mk None content url (Some "out.png") None None None None None options safe.

End Sample.

(** ** Measures used in statements *)

(** How many commas a text has. *)
Fixpoint count_commas (s : string) : nat :=
  match s with
  | EmptyString => O
  | String c s' => if Ascii.eqb c "," then S (count_commas s') else count_commas s'
  end.

(** A line feed occurs in the text. *)
Fixpoint has_newline (s : string) : bool :=
  match s with
  | EmptyString => false
  | String c s' => Ascii.eqb c newline || has_newline s'
  end.

(** * Properties *)

(** ** Numbers, strings and the world *)

Lemma positive_truthy (n : Js.num) :
  Js.positive n = true -> Js.num_truthy n = true.
Proof.
  destruct n as [q| |neg]; simpl; try done.
  intros Hpos. apply negb_true_iff. apply negb_true_iff in Hpos.
  destruct (Qeq_bool q (inject_Z 0)) eqn:Heq; [|done].
  apply Qeq_bool_iff in Heq.
  assert (Hle : Qle_bool q (inject_Z 0) = true).
  { apply Qle_bool_iff. rewrite Heq. apply Qle_refl. }
  congruence.
Qed.

Lemma between_truthy (lo hi : Z) (n : Js.num) :
  (0 < lo)%Z -> Js.between lo hi n = true -> Js.num_truthy n = true.
Proof.
  intros Hlo. destruct n as [q| |neg]; simpl; try done.
  intros Hb. apply andb_true_iff in Hb as [Hl _].
  apply Qle_bool_iff in Hl.
  apply negb_true_iff. destruct (Qeq_bool q (inject_Z 0)) eqn:Heq; [|done].
  apply Qeq_bool_iff in Heq. rewrite Heq in Hl.
  rewrite <- Zle_Qle in Hl. lia.
Qed.

Lemma has_prefix_split (p s : string) :
  Js.has_prefix p s = true <-> exists rest, s = p +:+ rest.
Proof.
  revert s. induction p as [|a p IH]; intros s.
  - split; [intros _; by exists s | done].
  - destruct s as [|b s].
    + split; [done | intros [rest Hrest]; discriminate Hrest].
    + change (Js.has_prefix (String a p) (String b s))
        with (Ascii.eqb a b && Js.has_prefix p s).
      destruct (Ascii.eqb_spec a b) as [->|Hne]; simpl.
      * rewrite IH. split; intros [rest Hrest]; exists rest.
        -- change (String b s = String b (p +:+ rest)). by rewrite Hrest.
        -- change (String b s = String b (p +:+ rest)) in Hrest. by injection Hrest.
      * split; [done | intros [rest Hrest]].
        change (String b s = String a (p +:+ rest)) in Hrest.
        injection Hrest; congruence.
Qed.

Lemma append_left_cancel (p a b : string) : p +:+ a = p +:+ b -> a = b.
Proof.
  induction p as [|c p IH]; [done|].
  intros Heq. change (String c (p +:+ a) = String c (p +:+ b)) in Heq.
  injection Heq. auto.
Qed.

Lemma record_nil (w : World) : record w [] = w.
Proof. destruct w as [f t]. unfold record. simpl. by rewrite app_nil_r. Qed.

Lemma record_record (w : World) (a b : list Event) :
  record (record w a) b = record w (a ++ b).
Proof. unfold record. simpl. by rewrite app_assoc. Qed.

Lemma emit_run (e : Event) (w : World) : emit e w = (Ok tt, record w [e]).
Proof. reflexivity. Qed.

(** ** Running a sequence of effects *)

Lemma bind_emit {A : Type} (e : Event) (k : unit -> M A) (w : World) :
  bind (emit e) k w = k tt (record w [e]).
Proof. reflexivity. Qed.

Lemma bind_ret {A C : Type} (a : A) (k : A -> M C) (w : World) :
  bind (ret a) k w = k a w.
Proof. reflexivity. Qed.

Lemma bind_throw {A C : Type} (e : Error) (k : A -> M C) (w : World) :
  bind (throw e) k w = (Throw e, w).
Proof. reflexivity. Qed.

Lemma bind_ok {A C : Type} (m : M A) (k : A -> M C) (w w' : World) (a : A) :
  m w = (Ok a, w') -> bind m k w = k a w'.
Proof. intros H. unfold bind. by rewrite H. Qed.

Lemma bind_failed {A C : Type} (m : M A) (k : A -> M C) (w w' : World) (e : Error) :
  m w = (Throw e, w') -> bind m k w = (Throw e, w').
Proof. intros H. unfold bind. by rewrite H. Qed.

Lemma bind_assoc {A C D : Type} (m : M A) (f : A -> M C) (g : C -> M D) (w : World) :
  bind (bind m f) g w = bind m (fun a => bind (f a) g) w.
Proof. unfold bind. by destruct (m w) as [[a|e] w']. Qed.

Lemma bind_when {A : Type} (b : bool) (e : Event) (k : unit -> M A) (w : World) :
  bind (when_do b (emit e)) k w = k tt (record w (if b then [e] else [])).
Proof. destruct b; simpl; [done|]. by rewrite bind_ret, record_nil. Qed.

(** ** The viewport resolver *)

Lemma preset_viewport_own (name : string) (p : Preset) :
  own_lookup name PRESETS = Some p -> preset_viewport name = viewport_of_preset p.
Proof. intros H. unfold preset_viewport, PRESETS_get. by rewrite H. Qed.

Lemma preset_viewport_unknown (name : string) :
  own_lookup name PRESETS = None ->
  existsb (String.eqb name) Object_prototype_names = false ->
  preset_viewport name = viewport_of_preset PRESETS_og.
Proof. intros H1 H2. unfold preset_viewport, PRESETS_get. by rewrite H1, H2. Qed.

Lemma resolveViewport_no_pair (preset : string) (width height : option Js.num)
    (clip : option Clip) :
  Js.truthy_num width && Js.truthy_num height = false ->
  clip_truthy clip = false ->
  resolveViewport preset width height clip = preset_viewport preset.
Proof.
  intros Hpair Hclip. unfold resolveViewport. rewrite Hpair.
  destruct clip as [c|]; [by rewrite Hclip | done].
Qed.

(** C4, as the claim has it: the table of presets does not have six entries;
    it has the five entries og, square, story, portrait and banner.  Also, a
    width of 0 given together with a height is not used: the preset is. *)
Lemma presets_table_has_five_not_six :
  map fst PRESETS = ["og"; "square"; "story"; "portrait"; "banner"] /\
  length PRESETS <> 6%nat /\
  resolveViewport "square" (Some (Js.of_Z 0)) (Some (Js.of_Z 600)) None =
    mkViewport (Some (Js.of_Z 1080)) (Some (Js.of_Z 1080)).
Proof. split; [reflexivity|]. split; [simpl; lia | reflexivity]. Qed.

(** C4, amended: [resolveViewport] takes the first of (1) an explicit width
    and height that are both given and neither 0 nor NaN, returned as they
    are; (2) a clip rectangle with positive width and height, rounded up;
    (3) with no clip, or a clip whose width or height is 0 or NaN, the entry
    of the preset name in the table of five presets, and the og preset for a
    name that is neither in the table nor a property of the object
    prototype. *)
Theorem resolveViewport_priority (preset : string) (width height : option Js.num)
    (clip : option Clip) :
  length PRESETS = 5%nat /\
  own_lookup "og" PRESETS = Some PRESETS_og /\
  (Js.truthy_num width = true -> Js.truthy_num height = true ->
   resolveViewport preset width height clip = mkViewport width height) /\
  (Js.truthy_num width && Js.truthy_num height = false ->
   forall c, clip = Some c ->
     Js.positive (clip_width c) = true -> Js.positive (clip_height c) = true ->
     resolveViewport preset width height clip =
       mkViewport (Some (Js.ceil (clip_width c))) (Some (Js.ceil (clip_height c)))) /\
  (Js.truthy_num width && Js.truthy_num height = false ->
   (clip = None \/
    exists c, clip = Some c /\
      (Js.num_truthy (clip_width c) = false \/ Js.num_truthy (clip_height c) = false)) ->
   (forall p, own_lookup preset PRESETS = Some p ->
      resolveViewport preset width height clip = viewport_of_preset p) /\
   (own_lookup preset PRESETS = None -> ~ In preset Object_prototype_names ->
      resolveViewport preset width height clip = viewport_of_preset PRESETS_og)).
Proof.
  split; [reflexivity|]. split; [reflexivity|]. split; [|split].
  - intros Hw Hh. unfold resolveViewport. by rewrite Hw, Hh.
  - intros Hpair c -> Hcw Hch. unfold resolveViewport. rewrite Hpair.
    unfold clip_truthy. by rewrite (positive_truthy _ Hcw), (positive_truthy _ Hch).
  - intros Hpair Hclip.
    assert (Hfalse : clip_truthy clip = false).
    { destruct Hclip as [->|(c & -> & [Hz|Hz])]; simpl; [done| |].
      - by rewrite Hz.
      - rewrite Hz. apply andb_false_r. }
    rewrite (resolveViewport_no_pair _ _ _ _ Hpair Hfalse). split.
    + apply preset_viewport_own.
    + intros Hnone Hnot. apply preset_viewport_unknown; [done|].
      destruct (existsb (String.eqb preset) Object_prototype_names) eqn:Hex; [|done].
      apply existsb_exists in Hex as (x & Hin & Heq).
      apply String.eqb_eq in Heq. by subst x.
Qed.

Lemma resolveViewport_priority_witness :
  resolveViewport "story" (Some (Js.of_Z 800)) (Some (Js.of_Z 600)) None =
    mkViewport (Some (Js.of_Z 800)) (Some (Js.of_Z 600)) /\
  resolveViewport "story" None None
      (Some (mkClip (Js.of_Z 10) (Js.of_Z 10) (Js.Fin (401 # 2)) (Js.of_Z 150))) =
    mkViewport (Some (Js.ceil (Js.Fin (401 # 2)))) (Some (Js.ceil (Js.of_Z 150))) /\
  resolveViewport "story" None None None = viewport_of_preset (mkPreset 1080 1920) /\
  resolveViewport "poster" None None None = viewport_of_preset PRESETS_og.
Proof.
  split; [|split; [|split]].
  - destruct (resolveViewport_priority "story" (Some (Js.of_Z 800))
                (Some (Js.of_Z 600)) None) as (_ & _ & H & _).
    apply H; reflexivity.
  - destruct (resolveViewport_priority "story" None None
                (Some (mkClip (Js.of_Z 10) (Js.of_Z 10) (Js.Fin (401 # 2)) (Js.of_Z 150))))
      as (_ & _ & _ & H & _).
    exact (H eq_refl _ eq_refl eq_refl eq_refl).
  - destruct (resolveViewport_priority "story" None None None) as (_ & _ & _ & _ & H).
    apply H; [reflexivity | by left | reflexivity].
  - destruct (resolveViewport_priority "poster" None None None) as (_ & _ & _ & _ & H).
    apply H; [reflexivity | by left | reflexivity |].
    simpl. intros Hin. repeat (destruct Hin as [Hin|Hin]; [discriminate Hin|]). exact Hin.
Defined.

(** ** The sanitizer *)

Lemma after_gt_shorter (s r : string) :
  Sanitize.after_gt s = Some r -> (String.length r < String.length s)%nat.
Proof.
  induction s as [|c s IH]; simpl; [done|].
  destruct (Ascii.eqb c ">").
  - intros [= ->]. lia.
  - intros H. apply IH in H. lia.
Qed.

Lemma drop_length (n : nat) (s : string) :
  (String.length (Js.drop n s) <= String.length s)%nat.
Proof.
  revert s. induction n as [|n IH]; intros s; simpl; [lia|].
  destruct s as [|c s]; simpl; [lia|]. specialize (IH s). lia.
Qed.

Lemma after_close_shorter (s r : string) :
  Sanitize.after_close s = Some r -> (String.length r < String.length s)%nat.
Proof.
  induction s as [|c s IH]; [done|].
  cbn [Sanitize.after_close].
  destruct (Js.prefix_ci "</script>" (String c s)) eqn:Hp.
  - intros [= <-]. pose proof (drop_length 8 s) as Hd. simpl in *. lia.
  - intros H. apply IH in H. simpl in *. lia.
Qed.

Lemma match_here_shorter (s r : string) :
  Sanitize.match_here s = Some r -> (String.length r < String.length s)%nat.
Proof.
  unfold Sanitize.match_here.
  destruct (Js.prefix_ci "<script" s); [|done].
  destruct (Sanitize.after_gt (Js.drop 7 s)) as [t|] eqn:Hgt; [|done].
  intros Hc. apply after_close_shorter in Hc. apply after_gt_shorter in Hgt.
  pose proof (drop_length 7 s). lia.
Qed.

(** The length of the text is fuel enough: more fuel changes nothing. *)
Lemma replace_all_fuel (n : nat) :
  forall (m : nat) (s : string),
    (String.length s <= n)%nat -> (String.length s <= m)%nat ->
    Sanitize.replace_all n s = Sanitize.replace_all m s.
Proof.
  induction n as [|n IH]; intros m s Hn Hm.
  - destruct s; [|simpl in Hn; lia]. destruct m; reflexivity.
  - destruct m as [|m].
    + destruct s; [reflexivity | simpl in Hm; lia].
    + simpl. destruct (Sanitize.match_here s) as [r|] eqn:Hmatch.
      * apply match_here_shorter in Hmatch. apply IH; lia.
      * destruct s as [|c s]; [done|]. simpl in Hn, Hm. f_equal. apply IH; lia.
Qed.

Lemma sanitizeHtml_allowed (html : string) : sanitizeHtml html true = html.
Proof. reflexivity. Qed.


Example sanitize_element :
  sanitizeHtml "<p>a</p><SCRIPT src=x>evil()</Script><p>b</p>" false =
    "<p>a</p><p>b</p>".
Proof. reflexivity. Qed.

Example sanitize_unclosed :
  sanitizeHtml "<p>a</p><script>evil()" false = "<p>a</p><script>evil()".
Proof. reflexivity. Qed.

Example route_decisions :
  map (route_handler [Some "https://cdn.example.com/"; Some "file://"])
    ["https://cdn.example.com/font.woff"; "https://tracker.example.net/p.gif";
     "file:///work/out.html"] = [Continued; Aborted; Continued].
Proof. reflexivity. Qed.

(** C8: with scripts permitted [sanitizeHtml] returns its input; with scripts
    not permitted, on the text below, it removes the inner script element
    and thereby leaves a complete script element in its result. *)
Theorem sanitizeHtml_reassembles_script :
  (forall html, sanitizeHtml html true = html) /\
  sanitizeHtml "<scr<script></script>ipt>alert(1)</script>" false =
    "<script>alert(1)</script>" /\
  Sanitize.has_match
    (sanitizeHtml "<scr<script></script>ipt>alert(1)</script>" false) = true.
Proof.
  split; [apply sanitizeHtml_allowed|]. split; reflexivity.
Qed.

(** ** The command line *)

(** Dimensions inside the documented ranges are in particular not 0 or NaN. *)
Lemma in_range_truthy (n : Js.num) :
  Js.between 100 5000 n = true -> Js.num_truthy n = true.
Proof. apply between_truthy. lia. Qed.

Lemma parseArgs_checks (P : Platform) (argv : list string) (args : Args.t) :
  parse_loop P argv Args.defaults = Done args ->
  parseArgs P argv = check_args args.
Proof. intros H. unfold parseArgs. by rewrite H. Qed.

(** C2, as the claim has it: width 50, height 7000 and scale 9 pass
    [parseArgs] and [resolveViewport], and the conversion succeeds with them. *)
Lemma out_of_range_dimensions_accepted :
  match
    fst (main Sample.platform Sample.browser
           ["--content"; "hi"; "--output"; "o.png"; "--width"; "50";
            "--height"; "7000"; "--device-scale-factor"; "9"] Sample.disk)
  with
  | Printed r =>
      meta_width (meta r) = Some (Js.of_Z 50) /\
      meta_height (meta r) = Some (Js.of_Z 7000) /\
      meta_deviceScaleFactor (meta r) = Js.of_Z 9
  | HelpShown => False
  | Failed _ => False
  end.
Proof. vm_compute. repeat split. Qed.

(** C2, amended: neither [parseArgs] nor [resolveViewport] checks a range.
    For every explicit width and height that are both given and neither 0
    nor NaN, inside or outside [100, 5000], and for every scale factor, the
    checks of [parseArgs] pass once an output path is given, and
    [resolveViewport] returns the pair as it is. *)
Theorem explicit_dimensions_not_range_checked (args : Args.t) (w h : Js.num)
    (preset : string) (clip : option Clip) :
  Js.num_truthy w = true -> Js.num_truthy h = true ->
  Args.width args = Some w -> Args.height args = Some h ->
  Js.truthy_str (Args.output args) = true ->
  check_args args = Done args /\
  resolveViewport preset (Some w) (Some h) clip = mkViewport (Some w) (Some h).
Proof.
  intros Hw Hh Haw Hah Hout. split.
  - unfold check_args. rewrite Hout, Haw, Hah. simpl. by rewrite Hw, Hh.
  - unfold resolveViewport. simpl. by rewrite Hw, Hh.
Qed.

Lemma explicit_dimensions_not_range_checked_witness :
  check_args
    (Args.set_output (Some "o.png")
       (Args.set_width (Some (Js.of_Z 50))
          (Args.set_height (Some (Js.of_Z 7000)) Args.defaults))) =
    Done (Args.set_output (Some "o.png")
            (Args.set_width (Some (Js.of_Z 50))
               (Args.set_height (Some (Js.of_Z 7000)) Args.defaults))) /\
  resolveViewport "og" (Some (Js.of_Z 50)) (Some (Js.of_Z 7000)) None =
    mkViewport (Some (Js.of_Z 50)) (Some (Js.of_Z 7000)).
Proof.
  apply (explicit_dimensions_not_range_checked _ (Js.of_Z 50) (Js.of_Z 7000));
    reflexivity.
Defined.

(** C7, as the claim has it: a lone [--width] without [--output] fails with
    the missing-output error; a lone [--width 0] is accepted; and [toPng]
    called with a width only succeeds with the preset's size. *)
Lemma lone_dimension_other_outcomes :
  parseArgs Sample.platform ["--width"; "200"] = Thrown MissingOutput /\
  parseArgs Sample.platform ["--output"; "o.png"; "--width"; "0"] =
    Done (Args.set_width (Some (Js.of_Z 0))
            (Args.set_output (Some "o.png") Args.defaults)) /\
  match
    fst (toPng Sample.platform Sample.browser
           (Sample.request (Some "hi") None
              (Opts.mk None None (Some (Js.of_Z 200)) None None false None None
                 None None) false)
           Sample.disk)
  with
  | Ok r =>
      meta_width (meta r) = Some (Js.of_Z 1200) /\
      meta_height (meta r) = Some (Js.of_Z 630)
  | Throw _ => False
  end.
Proof. vm_compute. repeat split. Qed.

(** C7, amended: when the loop of [parseArgs] ends normally and an output
    path was given, a width that is neither 0 nor NaN without such a height
    fails with the width-needs-height error, and the converse with the
    height-needs-width error.  [resolveViewport] itself does not reject a
    lone dimension: it resolves as if none was given. *)
Theorem lone_dimension_rejected_by_parseArgs (P : Platform) (argv : list string)
    (args : Args.t) :
  parse_loop P argv Args.defaults = Done args ->
  Js.truthy_str (Args.output args) = true ->
  (Js.truthy_num (Args.width args) = true ->
   Js.truthy_num (Args.height args) = false ->
   parseArgs P argv = Thrown WidthWithoutHeight) /\
  (Js.truthy_num (Args.width args) = false ->
   Js.truthy_num (Args.height args) = true ->
   parseArgs P argv = Thrown HeightWithoutWidth) /\
  (forall preset n clip,
     resolveViewport preset (Some n) None clip = resolveViewport preset None None clip /\
     resolveViewport preset None (Some n) clip = resolveViewport preset None None clip).
Proof.
  intros Hloop Hout. rewrite (parseArgs_checks _ _ _ Hloop).
  unfold check_args. rewrite Hout. simpl. split; [|split].
  - by intros -> ->.
  - by intros -> ->.
  - intros preset n clip. unfold resolveViewport. simpl.
    by rewrite andb_false_r.
Qed.

Lemma lone_dimension_rejected_by_parseArgs_witness :
  parseArgs Sample.platform ["--output"; "o.png"; "--width"; "200"] =
    Thrown WidthWithoutHeight /\
  parseArgs Sample.platform ["--height"; "200"; "--output"; "o.png"] =
    Thrown HeightWithoutWidth.
Proof.
  split.
  - destruct (lone_dimension_rejected_by_parseArgs Sample.platform
                ["--output"; "o.png"; "--width"; "200"]
                (Args.set_width (Some (Js.of_Z 200))
                   (Args.set_output (Some "o.png") Args.defaults))
                eq_refl eq_refl) as (H & _).
    apply H; reflexivity.
  - destruct (lone_dimension_rejected_by_parseArgs Sample.platform
                ["--height"; "200"; "--output"; "o.png"]
                (Args.set_output (Some "o.png")
                   (Args.set_height (Some (Js.of_Z 200)) Args.defaults))
                eq_refl eq_refl) as (_ & H & _).
    apply H; reflexivity.
Defined.

(** ** The render driver *)

Section Driver.

Context (B : Browser).

Lemma serve_run (handler : option (string -> Decision)) (urls : list string)
    (w : World) :
  serve handler urls w =
    (Ok tt, record w (map (fun u => EvRequest u (dispatch handler u)) urls)).
Proof.
  revert w. induction urls as [|u urls IH]; intros w; cbn [serve map].
  - unfold ret. by rewrite record_nil.
  - by rewrite bind_emit, IH, record_record.
Qed.

(** The capture always succeeds with one screenshot call. *)
Lemma capture_run (pngPath : string) (options : ShotOptions) :
  exists target clip fullPage mode,
    forall w, capture B pngPath options w =
                (Ok mode, record w [EvScreenshot target pngPath clip fullPage]).
Proof.
  unfold capture. destruct (shot_clip options) as [c|].
  { by exists OfPage, (Some c), false, ModeClip. }
  destruct (shot_fullPage options).
  { by exists OfPage, None, true, ModeFullPage. }
  destruct (page_has B ".card").
  { by exists (OfElement ".card"), None, false, ModeCard. }
  destruct (page_has B ".container").
  { by exists (OfElement ".container"), None, false, ModeContainer. }
  by exists OfPage, None, true, ModeFullPage.
Qed.

Lemma render_without_engine htmlOrUrl pngPath viewport options waitUntil
    timeoutMs allowScripts networkWhitelist w :
  playwright_available B = false ->
  renderPngWithPlaywright B htmlOrUrl pngPath viewport options waitUntil
    timeoutMs allowScripts networkWhitelist w = (Ok None, w).
Proof. intros H. unfold renderPngWithPlaywright. by rewrite H. Qed.

Lemma render_rejected htmlOrUrl pngPath viewport options waitUntil
    timeoutMs allowScripts networkWhitelist w :
  playwright_available B = true ->
  navigation_rejects B htmlOrUrl waitUntil timeoutMs = true ->
  renderPngWithPlaywright B htmlOrUrl pngPath viewport options waitUntil
    timeoutMs allowScripts networkWhitelist w =
    (Throw EngineRejected,
     record w (opening_calls htmlOrUrl viewport options waitUntil timeoutMs
                 networkWhitelist)).
Proof.
  intros Ha Hr. unfold renderPngWithPlaywright, navigate, opening_calls.
  rewrite Ha. cbn [negb]. rewrite !bind_emit, bind_when, bind_assoc, bind_emit.
  rewrite Hr, bind_throw, !record_record.
  by destruct (route_present (route_installed networkWhitelist)).
Qed.

Lemma render_resolved htmlOrUrl pngPath viewport options waitUntil
    timeoutMs allowScripts networkWhitelist :
  playwright_available B = true ->
  navigation_rejects B htmlOrUrl waitUntil timeoutMs = false ->
  exists target clip fullPage mode,
    (forall w, capture B pngPath options w =
                 (Ok mode, record w [EvScreenshot target pngPath clip fullPage])) /\
    forall w,
      renderPngWithPlaywright B htmlOrUrl pngPath viewport options waitUntil
        timeoutMs allowScripts networkWhitelist w =
        (Ok (Some (mkRendered (browser_version B) mode)),
         record w
           (opening_calls htmlOrUrl viewport options waitUntil timeoutMs
              networkWhitelist
            ++ served B htmlOrUrl networkWhitelist
            ++ (if allowScripts then [] else [EvAddScriptTag remove_scripts])
            ++ [EvEvaluate "document.fonts && document.fonts.ready";
                EvScreenshot target pngPath clip fullPage;
                EvClose])).
Proof.
  intros Ha Hr.
  destruct (capture_run pngPath options) as (target & clip & fullPage & mode & Hc).
  exists target, clip, fullPage, mode. split; [exact Hc|]. intros w.
  unfold renderPngWithPlaywright, navigate, opening_calls, served.
  rewrite Ha. cbn [negb]. rewrite !bind_emit, bind_when, bind_assoc, bind_emit.
  rewrite Hr. erewrite bind_ok; [|apply serve_run].
  rewrite bind_when, bind_emit. erewrite bind_ok; [|apply Hc].
  rewrite bind_emit. unfold ret. rewrite !record_record. do 2 f_equal.
  destruct (route_present (route_installed networkWhitelist)), allowScripts;
    simpl; by rewrite <- ?app_assoc.
Qed.

(** C5: the region captured for a PNG.  A clip rectangle is captured as it
    is, whatever elements the page has; else the full-page flag captures
    the whole page; else the [.card] element if there is one; else the
    [.container] element if there is one; else the whole page. *)
Theorem capture_precedence (pngPath : string) (options : ShotOptions) (w : World) :
  (forall c, shot_clip options = Some c ->
     capture B pngPath options w =
       (Ok ModeClip, record w [EvScreenshot OfPage pngPath (Some c) false])) /\
  (shot_clip options = None -> shot_fullPage options = true ->
     capture B pngPath options w =
       (Ok ModeFullPage, record w [EvScreenshot OfPage pngPath None true])) /\
  (shot_clip options = None -> shot_fullPage options = false ->
   page_has B ".card" = true ->
     capture B pngPath options w =
       (Ok ModeCard, record w [EvScreenshot (OfElement ".card") pngPath None false])) /\
  (shot_clip options = None -> shot_fullPage options = false ->
   page_has B ".card" = false -> page_has B ".container" = true ->
     capture B pngPath options w =
       (Ok ModeContainer,
        record w [EvScreenshot (OfElement ".container") pngPath None false])) /\
  (shot_clip options = None -> shot_fullPage options = false ->
   page_has B ".card" = false -> page_has B ".container" = false ->
     capture B pngPath options w =
       (Ok ModeFullPage, record w [EvScreenshot OfPage pngPath None true])).
Proof.
  unfold capture. repeat split.
  - by intros c ->.
  - by intros -> ->.
  - by intros -> -> ->.
  - by intros -> -> -> ->.
  - by intros -> -> -> ->.
Qed.

End Driver.

Lemma capture_precedence_witness :
  capture (Sample.with_elements true true) "o.png"
      (mkShotOptions (Some (mkClip (Js.of_Z 10) (Js.of_Z 10) (Js.of_Z 200) (Js.of_Z 150)))
         true None) Sample.disk =
    (Ok ModeClip,
     record Sample.disk
       [EvScreenshot OfPage "o.png"
          (Some (mkClip (Js.of_Z 10) (Js.of_Z 10) (Js.of_Z 200) (Js.of_Z 150))) false]) /\
  capture (Sample.with_elements true true) "o.png" (mkShotOptions None true None)
      Sample.disk =
    (Ok ModeFullPage, record Sample.disk [EvScreenshot OfPage "o.png" None true]) /\
  capture (Sample.with_elements true true) "o.png" (mkShotOptions None false None)
      Sample.disk =
    (Ok ModeCard,
     record Sample.disk [EvScreenshot (OfElement ".card") "o.png" None false]) /\
  capture (Sample.with_elements false true) "o.png" (mkShotOptions None false None)
      Sample.disk =
    (Ok ModeContainer,
     record Sample.disk [EvScreenshot (OfElement ".container") "o.png" None false]) /\
  capture (Sample.with_elements false false) "o.png" (mkShotOptions None false None)
      Sample.disk =
    (Ok ModeFullPage, record Sample.disk [EvScreenshot OfPage "o.png" None true]).
Proof.
  split; [|split; [|split; [|split]]].
  - destruct (capture_precedence (Sample.with_elements true true) "o.png"
                (mkShotOptions
                   (Some (mkClip (Js.of_Z 10) (Js.of_Z 10) (Js.of_Z 200) (Js.of_Z 150)))
                   true None) Sample.disk) as (H & _).
    exact (H _ eq_refl).
  - destruct (capture_precedence (Sample.with_elements true true) "o.png"
                (mkShotOptions None true None) Sample.disk) as (_ & H & _).
    exact (H eq_refl eq_refl).
  - destruct (capture_precedence (Sample.with_elements true true) "o.png"
                (mkShotOptions None false None) Sample.disk) as (_ & _ & H & _).
    exact (H eq_refl eq_refl eq_refl).
  - destruct (capture_precedence (Sample.with_elements false true) "o.png"
                (mkShotOptions None false None) Sample.disk) as (_ & _ & _ & H & _).
    exact (H eq_refl eq_refl eq_refl eq_refl).
  - destruct (capture_precedence (Sample.with_elements false false) "o.png"
                (mkShotOptions None false None) Sample.disk) as (_ & _ & _ & _ & H).
    exact (H eq_refl eq_refl eq_refl eq_refl).
Defined.

(** ** The allow-list *)

Lemma route_handler_continued (wl : list (option string)) (url : string) :
  route_handler wl url = Continued <->
  exists prefix, In prefix wl /\ exists rest, url = Js.nullish prefix "undefined" +:+ rest.
Proof.
  unfold route_handler.
  destruct (existsb _ wl) eqn:Hex.
  - split; [intros _|done].
    apply existsb_exists in Hex as (prefix & Hin & Hstart).
    exists prefix. split; [done|]. by apply has_prefix_split.
  - split; [done|]. intros (prefix & Hin & Hstart).
    apply has_prefix_split in Hstart.
    assert (Htrue : existsb (fun prefix => Js.startsWith url (Js.nullish prefix "undefined")) wl = true).
    { apply existsb_exists. by exists prefix. }
    congruence.
Qed.

Lemma route_handler_aborted (wl : list (option string)) (url : string) :
  route_handler wl url = Aborted <->
  ~ exists prefix, In prefix wl /\ exists rest, url = Js.nullish prefix "undefined" +:+ rest.
Proof.
  rewrite <- route_handler_continued. unfold route_handler.
  destruct (existsb _ wl); split; done.
Qed.

Lemma toPng_ignores_safe (P : Platform) (B : Browser) (b : bool) (r : Req.t) :
  toPng P B (Req.with_safe b r) = toPng P B r.
Proof. reflexivity. Qed.

Lemma request_among_calls (B : Browser) htmlOrUrl viewport options waitUntil
    timeoutMs networkWhitelist (scripts closing : list Event) (u : string)
    (d : Decision) :
  (forall e, In e scripts \/ In e closing -> forall u' d', e <> EvRequest u' d') ->
  In (EvRequest u d)
    (opening_calls htmlOrUrl viewport options waitUntil timeoutMs networkWhitelist
     ++ served B htmlOrUrl networkWhitelist ++ scripts ++ closing) <->
  In u (outbound_requests B htmlOrUrl) /\
  d = dispatch (route_installed networkWhitelist) u.
Proof.
  intros Hother. rewrite !in_app_iff. unfold opening_calls, served, navigation_call.
  rewrite in_map_iff. split.
  - intros [Hin|[Hin|Hin]].
    + exfalso. rewrite !in_app_iff in Hin. simpl in Hin.
      destruct Hin as [[Hin|[Hin|[]]]|[Hin|[Hin|[]]]]; try discriminate Hin.
      * destruct (route_present _); simpl in Hin; [destruct Hin as [Hin|[]]|destruct Hin].
        discriminate Hin.
      * destruct (_ || _); discriminate Hin.
    + destruct Hin as (u' & [= <- <-] & Hin). done.
    + exfalso. by apply (Hother _ Hin u d).
  - intros [Hin ->]. right; left. by exists u.
Qed.

(** C6: with a non-empty allow-list a route is installed and every request
    of the page load is decided by it: continued if and only if its URL
    starts with one of the prefixes of the list, aborted otherwise.  With no
    allow-list, or an empty one, no route is installed and every request
    goes out; a [safe] property on the request changes nothing. *)
Theorem allow_list_interception (P : Platform) (B : Browser)
    (htmlOrUrl pngPath : string) (viewport : Viewport) (options : ShotOptions)
    (waitUntil : string) (timeoutMs : Js.num) (allowScripts : bool) (w : World) :
  playwright_available B = true ->
  navigation_rejects B htmlOrUrl waitUntil timeoutMs = false ->
  (forall prefix more,
     exists calls,
       snd (renderPngWithPlaywright B htmlOrUrl pngPath viewport options
              waitUntil timeoutMs allowScripts (Some (prefix :: more)) w) =
         record w calls /\
       In (EvRoute "**/*") calls /\
       (forall u, In u (outbound_requests B htmlOrUrl) ->
          exists d, In (EvRequest u d) calls) /\
       (forall u d, In (EvRequest u d) calls ->
          (d = Continued /\
           exists p, In p (prefix :: more) /\
             exists rest, u = Js.nullish p "undefined" +:+ rest) \/
          (d = Aborted /\
           ~ exists p, In p (prefix :: more) /\
               exists rest, u = Js.nullish p "undefined" +:+ rest))) /\
  (forall nolist, nolist = None \/ nolist = Some [] ->
     exists calls,
       snd (renderPngWithPlaywright B htmlOrUrl pngPath viewport options
              waitUntil timeoutMs allowScripts nolist w) =
         record w calls /\
       (forall pattern, ~ In (EvRoute pattern) calls) /\
       (forall u, In u (outbound_requests B htmlOrUrl) ->
          In (EvRequest u Unrouted) calls) /\
       (forall u d, In (EvRequest u d) calls -> d = Unrouted)) /\
  (forall r b, toPng P B (Req.with_safe b r) = toPng P B r).
Proof.
  intros Ha Hr. split; [|split].
  - intros prefix more.
    destruct (render_resolved B htmlOrUrl pngPath viewport options waitUntil
                timeoutMs allowScripts (Some (prefix :: more)) Ha Hr)
      as (target & clip & fullPage & mode & _ & Hrun).
    eexists. rewrite Hrun. split; [reflexivity|].
    assert (Hreq : forall u d,
      In (EvRequest u d)
        (opening_calls htmlOrUrl viewport options waitUntil timeoutMs
           (Some (prefix :: more))
         ++ served B htmlOrUrl (Some (prefix :: more))
         ++ (if allowScripts then [] else [EvAddScriptTag remove_scripts])
         ++ [EvEvaluate "document.fonts && document.fonts.ready";
             EvScreenshot target pngPath clip fullPage; EvClose]) <->
      In u (outbound_requests B htmlOrUrl) /\
      d = route_handler (prefix :: more) u).
    { intros u d. apply request_among_calls. intros e He u' d' ->.
      destruct allowScripts; simpl in He; intuition discriminate. }
    split; [|split].
    + unfold opening_calls. simpl. auto.
    + intros u Hin. exists (route_handler (prefix :: more) u). by apply Hreq.
    + intros u d Hin. apply Hreq in Hin as [_ ->].
      destruct (route_handler (prefix :: more) u) eqn:Hd.
      * left. split; [done|]. by apply route_handler_continued.
      * right. split; [done|]. by apply route_handler_aborted.
      * unfold route_handler in Hd. by destruct (existsb _ _).
  - intros nolist Hno.
    destruct (render_resolved B htmlOrUrl pngPath viewport options waitUntil
                timeoutMs allowScripts nolist Ha Hr)
      as (target & clip & fullPage & mode & _ & Hrun).
    eexists. rewrite Hrun. split; [reflexivity|].
    assert (Hnone : route_installed nolist = None) by (by destruct Hno as [->| ->]).
    assert (Hreq : forall u d,
      In (EvRequest u d)
        (opening_calls htmlOrUrl viewport options waitUntil timeoutMs nolist
         ++ served B htmlOrUrl nolist
         ++ (if allowScripts then [] else [EvAddScriptTag remove_scripts])
         ++ [EvEvaluate "document.fonts && document.fonts.ready";
             EvScreenshot target pngPath clip fullPage; EvClose]) <->
      In u (outbound_requests B htmlOrUrl) /\ d = Unrouted).
    { intros u d. rewrite request_among_calls; [by rewrite Hnone|].
      intros e He u' d' ->.
      destruct allowScripts; simpl in He; intuition discriminate. }
    split; [|split].
    + intros pattern. unfold opening_calls, served, navigation_call.
      rewrite Hnone. simpl. rewrite in_app_iff, in_map_iff.
      intros [Hin|[Hin|[Hin|[(u & Hu & _)|Hin]]]]; try discriminate.
      * destruct (_ || _); discriminate Hin.
      * destruct allowScripts; simpl in Hin; intuition discriminate.
    + intros u Hin. by apply Hreq.
    + intros u d Hin. by apply Hreq in Hin as [_ ->].
  - intros r b. apply toPng_ignores_safe.
Qed.

Lemma allow_list_interception_witness :
  (exists calls,
     snd (renderPngWithPlaywright Sample.browser "https://example.com" "/work/o.png"
            (viewport_of Opts.empty) (shot_of Opts.empty) "networkidle"
            (Js.of_Z 30000) false (Some [Some "https://cdn.example.com/"])
            Sample.disk) = record Sample.disk calls /\
     In (EvRoute "**/*") calls) /\
  (exists calls,
     snd (renderPngWithPlaywright Sample.browser "https://example.com" "/work/o.png"
            (viewport_of Opts.empty) (shot_of Opts.empty) "networkidle"
            (Js.of_Z 30000) false None Sample.disk) = record Sample.disk calls /\
     forall pattern, ~ In (EvRoute pattern) calls).
Proof.
  destruct (allow_list_interception Sample.platform Sample.browser
              "https://example.com" "/work/o.png" (viewport_of Opts.empty)
              (shot_of Opts.empty) "networkidle" (Js.of_Z 30000) false Sample.disk
              eq_refl eq_refl) as (Hlist & Hnone & _).
  split.
  - destruct (Hlist (Some "https://cdn.example.com/") [])
      as (calls & Hrun & Hroute & _).
    by exists calls.
  - destruct (Hnone None (or_introl eq_refl)) as (calls & Hrun & Hroute & _).
    by exists calls.
Defined.

(** ** The pipeline of [toPng] *)

Lemma bind_write {A : Type} (path text : string) (k : unit -> M A) (w : World) :
  bind (writeFileSync path text) k w = k tt (written path text w).
Proof. reflexivity. Qed.

Lemma bind_when_write {A : Type} (b : bool) (path text : string)
    (k : unit -> M A) (w : World) :
  bind (when_do b (writeFileSync path text)) k w =
    k tt (if b then written path text w else w).
Proof. by destruct b. Qed.

Lemma readText_pure (path : string) (w w' : World) (out : Outcome string) :
  readText path w = (out, w') -> w' = w.
Proof. unfold readText. destruct (files w !! path); by intros [= _ <-]. Qed.

Lemma load_sources_pure (r : Req.t) (w w' : World)
    (out : Outcome (string * option string)) :
  load_sources r w = (out, w') -> w' = w.
Proof.
  unfold load_sources, bind, ret.
  destruct (Js.truthy_str (Req.inputPath r)).
  - destruct (readText _ w) as [[text|e] w1] eqn:Hread;
      apply readText_pure in Hread as ->; [|by intros [= _ <-]].
    destruct (Js.truthy_str (Req.customCssPath r)); [|by intros [= _ <-]].
    destruct (readText _ w) as [[css|e] w1] eqn:Hcss;
      apply readText_pure in Hcss as ->; by intros [= _ <-].
  - destruct (Js.truthy_str (Req.customCssPath r)); [|by intros [= _ <-]].
    destruct (readText _ w) as [[css|e] w1] eqn:Hcss;
      apply readText_pure in Hcss as ->; by intros [= _ <-].
Qed.

Section Pipeline.

Context (P : Platform) (B : Browser).

Lemma build_html_pure (r : Req.t) (raw : string) (css : option string)
    (w w' : World) (out : Outcome string) :
  build_html P r raw css w = (out, w') -> w' = w.
Proof.
  unfold build_html, renderTemplate, bind, ret.
  destruct (Js.truthy_str (Req.url r)); [by intros [= _ <-]|].
  destruct (readText _ w) as [[text|e] w1] eqn:Hread;
    apply readText_pure in Hread as ->; [|by intros [= _ <-]].
  destruct (Js.includes _ _); [by intros [= _ <-]|].
  destruct (Js.truthy_str css); by intros [= _ <-].
Qed.

(** A request with a URL needs no template: its page is the URL. *)
Lemma build_html_url (r : Req.t) (raw : string) (css : option string) (w : World) :
  Js.truthy_str (Req.url r) = true ->
  build_html P r raw css w = (Ok (Js.nullish (Req.url r) ""), w).
Proof. intros H. unfold build_html. by rewrite H. Qed.

Lemma toPng_missing (r : Req.t) (w : World) :
  no_input r = true -> toPng P B r w = (Throw MissingInput, w).
Proof. intros H. unfold toPng. by rewrite H. Qed.

Lemma toPng_produce (r : Req.t) (w : World) (raw : string) (css : option string)
    (html : string) :
  no_input r = false ->
  load_sources r w = (Ok (raw, css), w) ->
  build_html P r raw css w = (Ok html, w) ->
  toPng P B r w = produce P B r raw html w.
Proof.
  intros Hin Hload Hbuild. unfold toPng. rewrite Hin.
  erewrite bind_ok; [|exact Hload]. simpl. erewrite bind_ok; [|exact Hbuild]. done.
Qed.

(** The driver is started on the staged world, with the target of the
    request. *)
Lemma produce_start (r : Req.t) (raw html : string) (w : World) :
  produce P B r raw html w =
    bind (renderPngWithPlaywright B (target_of P r) (outputPng_of P r)
            (viewport_of (Req.options r)) (shot_of (Req.options r))
            (waitUntil_of (Req.options r)) (timeoutMs_of P (Req.options r))
            (Js.nullish (Req.allowScripts r) false) (Req.networkWhitelist r))
      (fun result =>
         match result with
         | None => throw CannotRender
         | Some rendered =>
             if negb (Js.str_truthy (rendered_version rendered))
             then throw CannotRender
             else
               present <- existsSync (outputHtml_of P r) ;;
               when_do (negb (Js.nullish (Req.keepHtml r) true) && present)
                 (unlinkSync (outputHtml_of P r)) ;;;
               writeFileSync (metaPath_of P r)
                 (JSON_stringify P (meta_of P r raw rendered)) ;;;
               ret (mkResult (outputPng_of P r)
                      (if Js.nullish (Req.keepHtml r) true
                       then Some (outputHtml_of P r) else None)
                      (meta_of P r raw rendered) (metaPath_of P r))
         end)
      (staged P r html w).
Proof.
  unfold produce, staged, target_of. rewrite bind_when_write.
  destruct (Js.truthy_str (Req.url r)).
  - by rewrite andb_false_r.
  - rewrite andb_true_r, bind_assoc, bind_write. done.
Qed.

Lemma produce_without_engine (r : Req.t) (raw html : string) (w : World) :
  playwright_available B = false ->
  produce P B r raw html w = (Throw CannotRender, staged P r html w).
Proof.
  intros Ha. rewrite produce_start.
  erewrite bind_ok; [|by apply render_without_engine]. done.
Qed.

Lemma produce_rejected (r : Req.t) (raw html : string) (w : World) :
  playwright_available B = true ->
  navigation_rejects B (target_of P r) (waitUntil_of (Req.options r))
    (timeoutMs_of P (Req.options r)) = true ->
  produce P B r raw html w =
    (Throw EngineRejected,
     record (staged P r html w)
       (opening_calls (target_of P r) (viewport_of (Req.options r))
          (shot_of (Req.options r)) (waitUntil_of (Req.options r))
          (timeoutMs_of P (Req.options r)) (Req.networkWhitelist r))).
Proof.
  intros Ha Hr. rewrite produce_start.
  erewrite bind_failed; [|by apply render_rejected]. done.
Qed.

Lemma finish_cleaning {A : Type} (r : Req.t) (k : unit -> M A) (w : World) :
  bind (existsSync (outputHtml_of P r))
    (fun present =>
       bind (when_do (negb (Js.nullish (Req.keepHtml r) true) && present)
               (unlinkSync (outputHtml_of P r))) k) w =
    k tt (cleaned P r w).
Proof.
  unfold bind, existsSync, cleaned, unlinkSync, when_do.
  destruct (files w !! outputHtml_of P r) eqn:Hfile;
    destruct (Js.nullish (Req.keepHtml r) true); simpl; try done.
  by rewrite Hfile.
Qed.

Lemma produce_resolved (r : Req.t) (raw html : string) :
  playwright_available B = true ->
  navigation_rejects B (target_of P r) (waitUntil_of (Req.options r))
    (timeoutMs_of P (Req.options r)) = false ->
  exists target clip fullPage mode,
    (forall w, capture B (outputPng_of P r) (shot_of (Req.options r)) w =
       (Ok mode,
        record w [EvScreenshot target (outputPng_of P r) clip fullPage])) /\
    forall w,
      let calls :=
        render_calls P B r (EvScreenshot target (outputPng_of P r) clip fullPage) in
      let rendered := mkRendered (browser_version B) mode in
      produce P B r raw html w =
        if Js.str_truthy (browser_version B) then
          (Ok (mkResult (outputPng_of P r)
                 (if Js.nullish (Req.keepHtml r) true
                  then Some (outputHtml_of P r) else None)
                 (meta_of P r raw rendered) (metaPath_of P r)),
           written (metaPath_of P r) (JSON_stringify P (meta_of P r raw rendered))
             (cleaned P r (record (staged P r html w) calls)))
        else (Throw CannotRender, record (staged P r html w) calls).
Proof.
  intros Ha Hr.
  destruct (render_resolved B (target_of P r) (outputPng_of P r)
              (viewport_of (Req.options r)) (shot_of (Req.options r))
              (waitUntil_of (Req.options r)) (timeoutMs_of P (Req.options r))
              (Js.nullish (Req.allowScripts r) false) (Req.networkWhitelist r) Ha Hr)
    as (target & clip & fullPage & mode & Hc & Hrun).
  exists target, clip, fullPage, mode. split; [exact Hc|]. intros w calls rendered.
  rewrite produce_start. erewrite bind_ok; [|apply Hrun]. cbn [rendered_version].
  destruct (Js.str_truthy (browser_version B)); cbn [negb]; [|done].
  rewrite finish_cleaning, bind_write. done.
Qed.

End Pipeline.

(** ** What [toPng] does with a request *)

Lemma is_http_truthy (u : string) : is_http_url u = true -> Js.str_truthy u = true.
Proof. by destruct u. Qed.

Lemma navigation_call_http (u waitUntil : string) (timeoutMs : Js.num) :
  is_http_url u = true ->
  navigation_call u waitUntil timeoutMs = EvGoto u waitUntil timeoutMs.
Proof. intros H. unfold navigation_call. by rewrite H. Qed.

Lemma navigation_call_file (path waitUntil : string) (timeoutMs : Js.num) :
  navigation_call ("file://" +:+ path) waitUntil timeoutMs =
    EvGoto ("file://" +:+ path) waitUntil timeoutMs.
Proof.
  unfold navigation_call.
  assert (H : is_file_url ("file://" +:+ path) = true) by reflexivity.
  by rewrite H, orb_true_r.
Qed.

Lemma opening_calls_navigation target viewport shot waitUntil timeoutMs allow :
  In (navigation_call target waitUntil timeoutMs)
    (opening_calls target viewport shot waitUntil timeoutMs allow).
Proof. unfold opening_calls. rewrite !in_app_iff. right. right. by left. Qed.

Lemma opening_calls_engine target viewport shot waitUntil timeoutMs allow :
  Forall (fun e => is_engine_call e = true)
    (opening_calls target viewport shot waitUntil timeoutMs allow).
Proof.
  unfold opening_calls, navigation_call.
  apply Forall_app; split; [by repeat constructor|].
  apply Forall_app; split.
  - destruct (route_present _); by repeat constructor.
  - constructor; [by destruct (_ || _) | constructor].
Qed.

Section Requests.

Context (P : Platform) (B : Browser).

Lemma render_calls_engine (r : Req.t) target path clip fullPage :
  Forall (fun e => is_engine_call e = true)
    (render_calls P B r (EvScreenshot target path clip fullPage)).
Proof.
  unfold render_calls, served.
  apply Forall_app; split; [apply opening_calls_engine|].
  apply Forall_app; split; [by apply Forall_map, Forall_forall|].
  apply Forall_app; split; [destruct (Js.nullish _ _)|]; by repeat constructor.
Qed.

Lemma render_calls_navigation (r : Req.t) (screenshot : Event) :
  In (navigation_call (target_of P r) (waitUntil_of (Req.options r))
        (timeoutMs_of P (Req.options r)))
    (render_calls P B r screenshot).
Proof.
  unfold render_calls. apply in_app_iff. left. apply opening_calls_navigation.
Qed.

Lemma trace_cleaned (r : Req.t) (w : World) :
  trace (cleaned P r w) =
    trace w ++
    (if Js.nullish (Req.keepHtml r) true then []
     else match files w !! outputHtml_of P r with
          | Some _ => [EvUnlink (outputHtml_of P r)]
          | None => []
          end).
Proof.
  unfold cleaned. destruct (Js.nullish (Req.keepHtml r) true);
    [by rewrite app_nil_r|].
  destruct (files w !! outputHtml_of P r); [done | by rewrite app_nil_r].
Qed.

(** A successful run, taken apart. *)
Lemma toPng_ok_inv (r : Req.t) (w w' : World) (res : Result) :
  toPng P B r w = (Ok res, w') ->
  exists raw css html target clip fullPage mode,
    load_sources r w = (Ok (raw, css), w) /\
    build_html P r raw css w = (Ok html, w) /\
    playwright_available B = true /\
    Js.str_truthy (browser_version B) = true /\
    (forall w0, capture B (outputPng_of P r) (shot_of (Req.options r)) w0 =
       (Ok mode, record w0 [EvScreenshot target (outputPng_of P r) clip fullPage])) /\
    res = mkResult (outputPng_of P r)
            (if Js.nullish (Req.keepHtml r) true
             then Some (outputHtml_of P r) else None)
            (meta_of P r raw (mkRendered (browser_version B) mode))
            (metaPath_of P r) /\
    w' = written (metaPath_of P r)
           (JSON_stringify P (meta_of P r raw (mkRendered (browser_version B) mode)))
           (cleaned P r
              (record (staged P r html w)
                 (render_calls P B r
                    (EvScreenshot target (outputPng_of P r) clip fullPage)))).
Proof.
  intros Hrun.
  destruct (no_input r) eqn:Hin.
  { rewrite toPng_missing in Hrun; [discriminate|done]. }
  destruct (load_sources r w) as [[[raw css]|e] w1] eqn:Hload;
    pose proof (load_sources_pure _ _ _ _ Hload) as ->.
  2:{ unfold toPng in Hrun. rewrite Hin in Hrun.
      erewrite bind_failed in Hrun; [discriminate|exact Hload]. }
  destruct (build_html P r raw css w) as [[html|e] w1] eqn:Hbuild;
    pose proof (build_html_pure _ _ _ _ _ _ _ Hbuild) as ->.
  2:{ unfold toPng in Hrun. rewrite Hin in Hrun.
      erewrite bind_ok in Hrun; [|exact Hload].
      erewrite bind_failed in Hrun; [discriminate|exact Hbuild]. }
  rewrite (toPng_produce P B r w raw css html Hin Hload Hbuild) in Hrun.
  destruct (playwright_available B) eqn:Ha.
  2:{ rewrite produce_without_engine in Hrun; [discriminate|done]. }
  destruct (navigation_rejects B (target_of P r) (waitUntil_of (Req.options r))
              (timeoutMs_of P (Req.options r))) eqn:Hr.
  { rewrite produce_rejected in Hrun; [discriminate|done..]. }
  destruct (produce_resolved P B r raw html Ha Hr)
    as (target & clip & fullPage & mode & Hc & Hp).
  rewrite Hp in Hrun.
  destruct (Js.str_truthy (browser_version B)) eqn:Hv; [|discriminate].
  injection Hrun as <- <-.
  by exists raw, css, html, target, clip, fullPage, mode.
Qed.

(** The load of the page is always called with the wait policy and the
    timeout of the request, once the sources are read and the engine is
    there. *)
Lemma toPng_navigation_call (r : Req.t) (w : World) (raw : string)
    (css : option string) (html : string) :
  no_input r = false ->
  load_sources r w = (Ok (raw, css), w) ->
  build_html P r raw css w = (Ok html, w) ->
  playwright_available B = true ->
  In (navigation_call (target_of P r) (waitUntil_of (Req.options r))
        (timeoutMs_of P (Req.options r)))
    (trace (snd (toPng P B r w))) /\
  (forall e, fst (toPng P B r w) = Throw e -> e = EngineRejected \/ e = CannotRender).
Proof.
  intros Hin Hload Hbuild Ha.
  rewrite (toPng_produce P B r w raw css html Hin Hload Hbuild).
  destruct (navigation_rejects B (target_of P r) (waitUntil_of (Req.options r))
              (timeoutMs_of P (Req.options r))) eqn:Hr.
  - rewrite produce_rejected by done. simpl. split.
    + apply in_app_iff. right. apply opening_calls_navigation.
    + intros e [= <-]. by left.
  - destruct (produce_resolved P B r raw html Ha Hr)
      as (target & clip & fullPage & mode & _ & Hp).
    rewrite Hp. destruct (Js.str_truthy (browser_version B)); simpl.
    + split; [|done]. rewrite trace_cleaned. simpl.
      rewrite !in_app_iff. left. left. right. apply render_calls_navigation.
    + split; [|intros e [= <-]; by right].
      apply in_app_iff. right. apply render_calls_navigation.
Qed.

End Requests.

(** ** Safe mode and remote URLs *)

(** C1, as the claim has it: a request that carries [safe] and a remote URL
    is not rejected; the engine is launched and [page.goto] is called on the
    URL, and the conversion succeeds. *)
Lemma safe_request_still_navigates :
  Req.safe (Sample.request None (Some "https://example.com") Opts.empty true) = true /\
  is_http_url "https://example.com" = true /\
  match
    fst (toPng Sample.platform Sample.browser
           (Sample.request None (Some "https://example.com") Opts.empty true)
           Sample.disk)
  with
  | Ok res => pngPath res = "/work/out.png"
  | Throw _ => False
  end /\
  trace (snd (toPng Sample.platform Sample.browser
                (Sample.request None (Some "https://example.com") Opts.empty true)
                Sample.disk)) =
    [EvLaunch;
     EvNewPage (mkViewport (Some (Js.of_Z 1200)) (Some (Js.of_Z 630))) (Js.of_Z 2);
     EvGoto "https://example.com" "networkidle" (Js.of_Z 30000);
     EvRequest "https://example.com" Unrouted;
     EvRequest "https://cdn.example.com/font.woff" Unrouted;
     EvRequest "https://tracker.example.net/p.gif" Unrouted;
     EvAddScriptTag remove_scripts;
     EvEvaluate "document.fonts && document.fonts.ready";
     EvScreenshot (OfElement ".container") "/work/out.png" None false;
     EvClose;
     EvWriteFile "/work/out.meta.json" "{engine:chromium:120.0.1,preset:og}"].
Proof. vm_compute. repeat split. Qed.

(** C1, amended: [toPng] has no safe mode.  A [safe] property on the request
    changes nothing, and a request with a remote URL is never rejected for
    it: once its input files are read and the engine is there, [page.goto]
    is called on the URL, and the only failures left are those of the
    engine. *)
Theorem remote_url_is_navigated (P : Platform) (B : Browser) (r : Req.t)
    (u : string) (w : World) (raw : string) (css : option string) :
  Req.url r = Some u -> is_http_url u = true ->
  load_sources r w = (Ok (raw, css), w) ->
  playwright_available B = true ->
  (forall b, toPng P B (Req.with_safe b r) w = toPng P B r w) /\
  In (EvGoto u (waitUntil_of (Req.options r)) (timeoutMs_of P (Req.options r)))
    (trace (snd (toPng P B r w))) /\
  (forall e, fst (toPng P B r w) = Throw e -> e = EngineRejected \/ e = CannotRender).
Proof.
  intros Hurl Hhttp Hload Ha.
  assert (Htruthy : Js.truthy_str (Req.url r) = true).
  { rewrite Hurl. simpl. by apply is_http_truthy. }
  assert (Hin : no_input r = false).
  { unfold no_input. rewrite Htruthy. apply andb_false_r. }
  assert (Htarget : target_of P r = u).
  { unfold target_of. by rewrite Htruthy, Hurl. }
  destruct (toPng_navigation_call P B r w raw css (Js.nullish (Req.url r) "")
              Hin Hload (build_html_url P r raw css w Htruthy) Ha) as [Hnav Herr].
  rewrite Htarget, (navigation_call_http _ _ _ Hhttp) in Hnav.
  split; [|split]; [|done..].
  intros b. by rewrite toPng_ignores_safe.
Qed.

Lemma remote_url_is_navigated_witness :
  In (EvGoto "https://example.com" "networkidle" (Js.of_Z 30000))
    (trace (snd (toPng Sample.platform Sample.browser
                   (Sample.request None (Some "https://example.com") Opts.empty true)
                   Sample.disk))).
Proof.
  destruct (remote_url_is_navigated Sample.platform Sample.browser
              (Sample.request None (Some "https://example.com") Opts.empty true)
              "https://example.com" Sample.disk "" None
              eq_refl eq_refl eq_refl eq_refl) as (_ & H & _).
  exact H.
Defined.

(** ** The wait policy and the timeout *)

(** C3, as the claim has it: the wait policy [commit] is none of the three
    named ones, and the conversion succeeds with it; the unknown policy
    [bogus] is not checked by the converter either: the page is written, the
    engine is launched and [page.goto] is called with it, and the failure is
    the engine's. *)
Lemma unrecognized_wait_policy_reaches_navigation :
  match
    fst (toPng Sample.platform Sample.browser
           (Sample.request (Some "hi") None
              (Opts.mk None None None None None false None None (Some "commit") None)
              false)
           Sample.disk)
  with
  | Ok res => pngPath res = "/work/out.png"
  | Throw _ => False
  end /\
  In (EvGoto "file:///work/out.html" "commit" (Js.of_Z 30000))
    (trace (snd (toPng Sample.platform Sample.browser
                   (Sample.request (Some "hi") None
                      (Opts.mk None None None None None false None None
                         (Some "commit") None)
                      false)
                   Sample.disk))) /\
  fst (toPng Sample.platform Sample.browser
         (Sample.request (Some "hi") None
            (Opts.mk None None None None None false None None (Some "bogus") None)
            false)
         Sample.disk) = Throw EngineRejected /\
  exists html,
    trace (snd (toPng Sample.platform Sample.browser
                  (Sample.request (Some "hi") None
                     (Opts.mk None None None None None false None None
                        (Some "bogus") None)
                     false)
                  Sample.disk)) =
      [EvWriteFile "/work/out.html" html;
       EvWriteFile "/work/out.html" html;
       EvLaunch;
       EvNewPage (mkViewport (Some (Js.of_Z 1200)) (Some (Js.of_Z 630))) (Js.of_Z 2);
       EvGoto "file:///work/out.html" "bogus" (Js.of_Z 30000)].
Proof.
  split; [vm_compute; reflexivity|]. split; [vm_compute; tauto|].
  split; [vm_compute; reflexivity|]. eexists. vm_compute. reflexivity.
Qed.

(** C3, amended: the wait policy defaults to networkidle and the timeout to
    30000 milliseconds.  Any other wait policy, recognized or not, is not
    checked by the converter: once the sources are read, the page is built
    and the engine is there, the load of the page is called with the policy
    and the timeout of the request as they are: a numeric timeout that is
    neither 0 nor NaN as it stands, and for any other truthy value, such as
    a non-empty text, its conversion by [Number]. *)
Theorem wait_policy_is_passed_on (P : Platform) (B : Browser) (r : Req.t)
    (w : World) (raw : string) (css : option string) (html : string) :
  no_input r = false ->
  load_sources r w = (Ok (raw, css), w) ->
  build_html P r raw css w = (Ok html, w) ->
  playwright_available B = true ->
  In (navigation_call (target_of P r) (waitUntil_of (Req.options r))
        (timeoutMs_of P (Req.options r)))
    (trace (snd (toPng P B r w))) /\
  (Opts.wait_until (Req.options r) = None ->
   waitUntil_of (Req.options r) = "networkidle") /\
  (forall v, Opts.wait_until (Req.options r) = Some v -> v <> "" ->
   waitUntil_of (Req.options r) = v) /\
  (Opts.timeout_ms (Req.options r) = None ->
   timeoutMs_of P (Req.options r) = Js.of_Z 30000) /\
  (forall t, Opts.timeout_ms (Req.options r) = Some (Js.VNum t) ->
   Js.num_truthy t = true ->
   timeoutMs_of P (Req.options r) = t) /\
  (forall v, Opts.timeout_ms (Req.options r) = Some v ->
   Js.value_truthy v = true ->
   timeoutMs_of P (Req.options r) = Number_of_value P v).
Proof.
  intros Hin Hload Hbuild Ha.
  split; [by apply (toPng_navigation_call P B r w raw css html)|].
  unfold waitUntil_of, timeoutMs_of. repeat split.
  - by intros ->.
  - intros v -> Hv. simpl. unfold Js.str_truthy.
    destruct (String.eqb_spec v ""); [done|reflexivity].
  - by intros ->.
  - intros t -> Ht. simpl. by rewrite Ht.
  - intros v -> Hv. by rewrite Hv.
Qed.

Lemma wait_policy_is_passed_on_witness :
  In (EvGoto "file:///work/out.html" "bogus" (Js.of_Z 1500))
    (trace (snd (toPng Sample.platform Sample.browser
                   (Sample.request (Some "hi") None
                      (Opts.mk None None None None None false None None
                         (Some "bogus") (Some (Js.VNum (Js.of_Z 1500))))
                      false)
                   Sample.disk))) /\
  waitUntil_of Opts.empty = "networkidle" /\
  timeoutMs_of Sample.platform Opts.empty = Js.of_Z 30000.
Proof.
  destruct (wait_policy_is_passed_on Sample.platform Sample.browser
              (Sample.request (Some "hi") None
                 (Opts.mk None None None None None false None None
                    (Some "bogus") (Some (Js.VNum (Js.of_Z 1500))))
                 false)
              Sample.disk "hi" None
              (Sample.replace 200 false "{{styles}}" ""
                 (Sample.replace 200 true "{{body}}" "<p>hi</p>"
                    (Sample.replace 200 true "{{title}}" "Web-to-PNG" Sample.template)))
              eq_refl eq_refl eq_refl eq_refl) as (H & _).
  destruct (wait_policy_is_passed_on Sample.platform Sample.browser
              (Sample.request None (Some "https://example.com") Opts.empty false)
              Sample.disk "" None "https://example.com"
              eq_refl eq_refl eq_refl eq_refl) as (_ & Hw & _ & Ht & _).
  split; [exact H|]. split; [exact (Hw eq_refl) | exact (Ht eq_refl)].
Defined.

(** ** The metadata sidecar *)

Lemma load_sources_raw (r : Req.t) (w w' : World) (raw : string)
    (css : option string) :
  load_sources r w = (Ok (raw, css), w') ->
  (Js.truthy_str (Req.content r) = true -> Req.content r = Some raw) /\
  (Js.truthy_str (Req.content r) = false ->
   Js.truthy_str (Req.inputPath r) = true ->
   exists path, Req.inputPath r = Some path /\ files w !! path = Some raw) /\
  (Js.truthy_str (Req.content r) = false ->
   Js.truthy_str (Req.inputPath r) = false -> raw = "").
Proof.
  unfold load_sources, bind, ret.
  assert (Hcontent : forall text,
    Js.truthy_str (Req.content r) = true ->
    (if Js.truthy_str (Req.content r) then Js.nullish (Req.content r) "" else text) = raw ->
    Req.content r = Some raw).
  { intros text Ht. rewrite Ht.
    destruct (Req.content r) as [c|]; simpl in *; [by intros <- | done]. }
  assert (Hcases : forall text,
    (if Js.truthy_str (Req.content r) then Js.nullish (Req.content r) "" else text) = raw ->
    (Js.truthy_str (Req.content r) = true -> Req.content r = Some raw) /\
    (Js.truthy_str (Req.content r) = false -> text = raw)).
  { intros text Hraw. split; [intros Ht; by apply (Hcontent text)|].
    intros Hf. by rewrite Hf in Hraw. }
  destruct (Js.truthy_str (Req.inputPath r)) eqn:Hpath.
  - unfold readText at 1.
    destruct (Req.inputPath r) as [path|] eqn:Hp; [|done]. simpl.
    destruct (files w !! path) as [text|] eqn:Hfile; [|done].
    assert (Hgoal : (if Js.truthy_str (Req.content r)
                     then Js.nullish (Req.content r) "" else text) = raw ->
      (Js.truthy_str (Req.content r) = true -> Req.content r = Some raw) /\
      (Js.truthy_str (Req.content r) = false -> true = true ->
       exists path0, Some path = Some path0 /\ files w !! path0 = Some raw) /\
      (Js.truthy_str (Req.content r) = false -> true = false -> raw = "")).
    { intros Hraw. destruct (Hcases text Hraw) as [H1 H2].
      split; [done|]. split; [|done]. intros Hf _. exists path.
      by rewrite <- (H2 Hf). }
    destruct (Js.truthy_str (Req.customCssPath r)).
    + destruct (readText _ w) as [[c|e] w1]; [|done].
      intros [= Hraw _ _]. by apply Hgoal.
    + intros [= Hraw _ _]. by apply Hgoal.
  - assert (Hgoal : (if Js.truthy_str (Req.content r)
                     then Js.nullish (Req.content r) "" else "") = raw ->
      (Js.truthy_str (Req.content r) = true -> Req.content r = Some raw) /\
      (Js.truthy_str (Req.content r) = false -> false = true ->
       exists path, Req.inputPath r = Some path /\ files w !! path = Some raw) /\
      (Js.truthy_str (Req.content r) = false -> false = false -> raw = "")).
    { intros Hraw. destruct (Hcases "" Hraw) as [H1 H2].
      split; [done|]. split; [done|]. intros Hf _. by rewrite <- (H2 Hf). }
    destruct (Js.truthy_str (Req.customCssPath r)).
    + destruct (readText _ w) as [[c|e] w1]; [|done].
      intros [= Hraw _ _]. by apply Hgoal.
    + intros [= Hraw _ _]. by apply Hgoal.
Qed.

Lemma hashed_text_or (r : Req.t) (raw : string) :
  hashed_text r raw =
    if Js.str_truthy raw then raw else Js.or_str (Req.url r) "".
Proof. unfold hashed_text. destruct (Req.url r) as [u|]; [|done]. simpl.
  by destruct (Js.str_truthy u). Qed.

Lemma mode_name_known (m : ScreenshotMode) :
  In (mode_name m) ["clip"; "fullPage"; "card"; "container"].
Proof. destruct m; simpl; tauto. Qed.

(** What a capture that ends well has reported and photographed, by the
    options it was given and the elements of the page. *)
Lemma capture_cases (B : Browser) (png : string) (o : ShotOptions)
    (mode : ScreenshotMode) (shot : Event) :
  (forall w0, capture B png o w0 = (Ok mode, record w0 [shot])) ->
  match shot_clip o with
  | Some c => mode = ModeClip /\ shot = EvScreenshot OfPage png (Some c) false
  | None =>
      if shot_fullPage o
      then mode = ModeFullPage /\ shot = EvScreenshot OfPage png None true
      else if page_has B ".card"
      then mode = ModeCard /\ shot = EvScreenshot (OfElement ".card") png None false
      else if page_has B ".container"
      then mode = ModeContainer /\
           shot = EvScreenshot (OfElement ".container") png None false
      else mode = ModeFullPage /\ shot = EvScreenshot OfPage png None true
  end.
Proof.
  intros H. specialize (H (mkWorld ∅ [])). unfold capture in H.
  destruct (shot_clip o) as [c|].
  { rewrite bind_emit in H. injection H as <- <-. done. }
  destruct (shot_fullPage o).
  { rewrite bind_emit in H. injection H as <- <-. done. }
  destruct (page_has B ".card").
  { rewrite bind_emit in H. injection H as <- <-. done. }
  destruct (page_has B ".container");
    rewrite bind_emit in H; injection H as <- <-; done.
Qed.

(** The screenshot of a render that resolves is among the calls of the
    run. *)
Lemma screenshot_in_trace (P : Platform) (B : Browser) (r : Req.t)
    (html path text : string) (w : World) (shot : Event) :
  In shot
    (trace (written path text
              (cleaned P r (record (staged P r html w) (render_calls P B r shot))))).
Proof.
  unfold written. simpl. apply in_app_iff. left.
  rewrite trace_cleaned. apply in_app_iff. left.
  unfold record. simpl. apply in_app_iff. right.
  unfold render_calls. rewrite !in_app_iff. right. right. right.
  simpl. tauto.
Qed.

(** C9: every successful conversion leaves, next to the image, a JSON file
    with the engine and its version, the time of generation, the preset
    name, the resolved width and height, the device scale factor, the style,
    the capture mode (clip, fullPage, card or container) and the SHA-256
    digest of the source content, or of the URL when there is no content.
    The capture mode in the file is the one the capture of this run has
    reported, and it names the screenshot that was taken: clip for a clip
    region, else fullPage for a full-page request, else card for the card
    element, else container for the container element, else fullPage. *)
Theorem meta_sidecar_written (P : Platform) (B : Browser) (r : Req.t)
    (w w' : World) (res : Result) :
  toPng P B r w = (Ok res, w') ->
  pngPath res = path_resolve P (Js.or_str (Req.outputPath r) "output.png") /\
  metaPath res = strip_png (pngPath res) +:+ ".meta.json" /\
  files w' !! metaPath res = Some (JSON_stringify P (meta res)) /\
  meta_engine (meta res) = "chromium:" +:+ browser_version B /\
  meta_generatedAt (meta res) = Date_toISOString P /\
  meta_preset (meta res) = Js.or_str (Opts.preset (Req.options r)) "og" /\
  mkViewport (meta_width (meta res)) (meta_height (meta res)) =
    resolveViewport (Js.or_str (Opts.preset (Req.options r)) "og")
      (Opts.width (Req.options r)) (Opts.height (Req.options r))
      (Opts.clip (Req.options r)) /\
  meta_deviceScaleFactor (meta res) =
    Js.nullish (Opts.device_scale_factor (Req.options r)) (Js.of_Z 2) /\
  meta_style (meta res) = Js.nullish (Req.style r) "card-clean" /\
  (exists mode, meta_screenshotMode (meta res) = Some mode /\
     In (mode_name mode) ["clip"; "fullPage"; "card"; "container"] /\
     (forall w0,
        fst (capture B (pngPath res) (shot_of (Req.options r)) w0) = Ok mode) /\
     (forall c, Opts.clip (Req.options r) = Some c ->
        mode = ModeClip /\
        In (EvScreenshot OfPage (pngPath res) (Some c) false) (trace w')) /\
     (Opts.clip (Req.options r) = None ->
      Opts.full_page (Req.options r) = true ->
        mode = ModeFullPage /\
        In (EvScreenshot OfPage (pngPath res) None true) (trace w')) /\
     (Opts.clip (Req.options r) = None ->
      Opts.full_page (Req.options r) = false ->
      page_has B ".card" = true ->
        mode = ModeCard /\
        In (EvScreenshot (OfElement ".card") (pngPath res) None false)
          (trace w')) /\
     (Opts.clip (Req.options r) = None ->
      Opts.full_page (Req.options r) = false ->
      page_has B ".card" = false ->
      page_has B ".container" = true ->
        mode = ModeContainer /\
        In (EvScreenshot (OfElement ".container") (pngPath res) None false)
          (trace w')) /\
     (Opts.clip (Req.options r) = None ->
      Opts.full_page (Req.options r) = false ->
      page_has B ".card" = false ->
      page_has B ".container" = false ->
        mode = ModeFullPage /\
        In (EvScreenshot OfPage (pngPath res) None true) (trace w'))) /\
  exists raw,
    (Js.truthy_str (Req.content r) = true -> Req.content r = Some raw) /\
    (Js.truthy_str (Req.content r) = false ->
     Js.truthy_str (Req.inputPath r) = true ->
     exists path, Req.inputPath r = Some path /\ files w !! path = Some raw) /\
    (Js.truthy_str (Req.content r) = false ->
     Js.truthy_str (Req.inputPath r) = false -> raw = "") /\
    meta_inputHash (meta res) =
      sha256_hex P (if Js.str_truthy raw then raw else Js.or_str (Req.url r) "").
Proof.
  intros Hrun.
  destruct (toPng_ok_inv P B r w w' res Hrun)
    as (raw & css & html & target & clip & fullPage & mode
        & Hload & _ & _ & _ & Hc & -> & ->).
  pose proof (screenshot_in_trace P B r html (metaPath_of P r)
                (JSON_stringify P
                   (meta_of P r raw (mkRendered (browser_version B) mode)))
                w (EvScreenshot target (outputPng_of P r) clip fullPage)) as Hshot.
  pose proof (capture_cases B _ _ _ _ Hc) as Hcases.
  cbn [shot_of shot_clip shot_fullPage] in Hcases.
  cbn [pngPath metaPath meta meta_of meta_engine meta_generatedAt meta_preset
       meta_width meta_height meta_deviceScaleFactor meta_style
       meta_screenshotMode meta_inputHash rendered_version rendered_mode].
  split; [done|]. split; [done|].
  split; [unfold written; simpl; apply lookup_insert_eq|].
  split; [done|]. split; [done|]. split; [done|].
  split; [unfold viewport_of, presetName_of; by destruct (resolveViewport _ _ _ _)|].
  split; [done|]. split; [done|].
  split.
  - exists mode. split; [done|]. split; [apply mode_name_known|].
    split; [intros w0; by rewrite Hc|].
    split; [intros c Hclip; rewrite Hclip in Hcases;
            destruct Hcases as [-> Heq]; by rewrite <- Heq|].
    split; [intros Hclip Hfull; rewrite Hclip, Hfull in Hcases;
            destruct Hcases as [-> Heq]; by rewrite <- Heq|].
    split; [intros Hclip Hfull Hcard; rewrite Hclip, Hfull, Hcard in Hcases;
            destruct Hcases as [-> Heq]; by rewrite <- Heq|].
    split; intros Hclip Hfull Hcard Hcont;
      rewrite Hclip, Hfull, Hcard, Hcont in Hcases;
      destruct Hcases as [-> Heq]; by rewrite <- Heq.
  - exists raw. destruct (load_sources_raw r w w raw css Hload) as (H1 & H2 & H3).
    repeat split; try done. by rewrite hashed_text_or.
Qed.

Lemma meta_sidecar_written_witness :
  files (snd (toPng Sample.platform Sample.browser
                (Sample.request (Some "# Hello") None Opts.empty false) Sample.disk))
    !! "/work/out.meta.json" =
    Some "{engine:chromium:120.0.1,preset:og}" /\
  match fst (toPng Sample.platform Sample.browser
               (Sample.request (Some "# Hello") None Opts.empty false) Sample.disk)
  with
  | Ok res => meta_screenshotMode (meta res) = Some ModeContainer
  | Throw _ => False
  end /\
  In (EvScreenshot (OfElement ".container") "/work/out.png" None false)
    (trace (snd (toPng Sample.platform Sample.browser
                   (Sample.request (Some "# Hello") None Opts.empty false)
                   Sample.disk))).
Proof.
  destruct (toPng Sample.platform Sample.browser
              (Sample.request (Some "# Hello") None Opts.empty false) Sample.disk)
    as [out w'] eqn:Hrun.
  assert (Hok : exists res, out = Ok res /\ metaPath res = "/work/out.meta.json"
                  /\ JSON_stringify Sample.platform (meta res) =
                       "{engine:chromium:120.0.1,preset:og}"
                  /\ pngPath res = "/work/out.png").
  { apply (f_equal fst) in Hrun. vm_compute in Hrun. subst out. eexists.
    split; [reflexivity|]. split; [reflexivity|]. split; reflexivity. }
  destruct Hok as (res & -> & Hpath & Hjson & Hpng).
  destruct (meta_sidecar_written Sample.platform Sample.browser _ _ _ _ Hrun)
    as (_ & _ & H & _ & _ & _ & _ & _ & _ & (mode & Hm & _ & _ & _ & _ & _ & Hc & _) & _).
  destruct (Hc eq_refl eq_refl eq_refl eq_refl) as [-> Hin].
  simpl. split; [by rewrite <- Hpath, <- Hjson|].
  split; [exact Hm | by rewrite <- Hpng].
Defined.

(** ** The intermediate HTML file *)

Section Intermediate.

Context (P : Platform) (B : Browser).

Lemma metaPath_not_html (r : Req.t) : metaPath_of P r <> outputHtml_of P r.
Proof.
  unfold metaPath_of, outputHtml_of. intros H.
  apply append_left_cancel in H. discriminate H.
Qed.

Lemma target_of_content (r : Req.t) :
  Js.truthy_str (Req.url r) = false ->
  target_of P r = "file://" +:+ outputHtml_of P r.
Proof. intros H. unfold target_of. by rewrite H. Qed.

Lemma staged_content (r : Req.t) (html : string) (w : World) :
  Js.truthy_str (Req.url r) = false ->
  trace (staged P r html w) =
    trace w
    ++ (if Js.nullish (Req.keepHtml r) true
        then [EvWriteFile (outputHtml_of P r) html] else [])
    ++ [EvWriteFile (outputHtml_of P r) html] /\
  files (staged P r html w) !! outputHtml_of P r = Some html.
Proof.
  intros H. unfold staged. rewrite H. split.
  - destruct (Js.nullish (Req.keepHtml r) true); simpl; by rewrite <- ?app_assoc.
  - simpl. apply lookup_insert_eq.
Qed.

(** C10: for content that is not a URL, [toPng] writes the intermediate HTML
    file before the engine is started, also when the file is not to be kept;
    the engine runs on a disk that holds the file and makes no file call;
    the file is removed only after a render that succeeded, and is still
    there after one that failed. *)
Theorem intermediate_html_on_disk (r : Req.t) (w : World) (raw : string)
    (css : option string) (html : string) :
  Js.truthy_str (Req.url r) = false ->
  no_input r = false ->
  load_sources r w = (Ok (raw, css), w) ->
  build_html P r raw css w = (Ok html, w) ->
  exists out calls,
    renderPngWithPlaywright B ("file://" +:+ outputHtml_of P r) (outputPng_of P r)
      (viewport_of (Req.options r)) (shot_of (Req.options r))
      (waitUntil_of (Req.options r)) (timeoutMs_of P (Req.options r))
      (Js.nullish (Req.allowScripts r) false) (Req.networkWhitelist r)
      (staged P r html w) = (out, record (staged P r html w) calls) /\
    Forall (fun e => is_engine_call e = true) calls /\
    trace (staged P r html w) =
      trace w
      ++ (if Js.nullish (Req.keepHtml r) true
          then [EvWriteFile (outputHtml_of P r) html] else [])
      ++ [EvWriteFile (outputHtml_of P r) html] /\
    files (staged P r html w) !! outputHtml_of P r = Some html /\
    ((exists rendered,
        out = Ok (Some rendered) /\
        Js.str_truthy (rendered_version rendered) = true /\
        exists res w',
          toPng P B r w = (Ok res, w') /\
          trace w' =
            trace (staged P r html w) ++ calls
            ++ (if Js.nullish (Req.keepHtml r) true then []
                else [EvUnlink (outputHtml_of P r)])
            ++ [EvWriteFile (metaPath_of P r) (JSON_stringify P (meta res))] /\
          files w' !! outputHtml_of P r =
            (if Js.nullish (Req.keepHtml r) true then Some html else None)) \/
     ((forall rendered, out = Ok (Some rendered) ->
         Js.str_truthy (rendered_version rendered) = false) /\
      exists e,
        toPng P B r w = (Throw e, record (staged P r html w) calls) /\
        files (record (staged P r html w) calls) !! outputHtml_of P r = Some html)).
Proof.
  intros Hurl Hin Hload Hbuild.
  destruct (staged_content r html w Hurl) as [Htrace Hfile].
  rewrite (toPng_produce P B r w raw css html Hin Hload Hbuild).
  rewrite <- (target_of_content r Hurl).
  destruct (playwright_available B) eqn:Ha.
  2:{ exists (Ok None), []. rewrite render_without_engine, record_nil by done.
      repeat split; try done. right. split; [intros rendered Heq; discriminate Heq|].
      exists CannotRender. rewrite produce_without_engine by done. by split. }
  destruct (navigation_rejects B (target_of P r) (waitUntil_of (Req.options r))
              (timeoutMs_of P (Req.options r))) eqn:Hr.
  { eexists (Throw EngineRejected), _. rewrite render_rejected by done.
    split; [reflexivity|]. split; [apply opening_calls_engine|].
    repeat split; try done. right. split; [intros rendered Heq; discriminate Heq|].
    exists EngineRejected. rewrite produce_rejected by done. by split. }
  destruct (produce_resolved P B r raw html Ha Hr)
    as (target & clip & fullPage & mode & Hc & Hp).
  destruct (render_resolved B (target_of P r) (outputPng_of P r)
              (viewport_of (Req.options r)) (shot_of (Req.options r))
              (waitUntil_of (Req.options r)) (timeoutMs_of P (Req.options r))
              (Js.nullish (Req.allowScripts r) false) (Req.networkWhitelist r) Ha Hr)
    as (target' & clip' & fullPage' & mode' & Hc' & Hrun).
  assert (Hsame : mode' = mode /\
                  EvScreenshot target' (outputPng_of P r) clip' fullPage' =
                  EvScreenshot target (outputPng_of P r) clip fullPage).
  { pose proof (Hc w) as H1. rewrite (Hc' w) in H1.
    injection H1 as Hm Ht. apply app_inv_head in Ht. by injection Ht as -> -> ->. }
  destruct Hsame as [-> Hshot].
  exists (Ok (Some (mkRendered (browser_version B) mode))),
         (render_calls P B r (EvScreenshot target (outputPng_of P r) clip fullPage)).
  split; [rewrite Hrun, Hshot; reflexivity|].
  split; [apply render_calls_engine|]. split; [done|]. split; [done|].
  rewrite Hp. destruct (Js.str_truthy (browser_version B)) eqn:Hv.
  - left. eexists. split; [reflexivity|]. split; [exact Hv|].
    eexists _, _. split; [reflexivity|]. cbn [meta].
    generalize (render_calls P B r (EvScreenshot target (outputPng_of P r) clip fullPage)).
    intros calls. split.
    + simpl. rewrite trace_cleaned. simpl. rewrite Hfile.
      destruct (Js.nullish (Req.keepHtml r) true); by rewrite <- !app_assoc.
    + simpl. rewrite lookup_insert_ne by apply metaPath_not_html.
      unfold cleaned. destruct (Js.nullish (Req.keepHtml r) true); [done|].
      simpl. rewrite Hfile. simpl. apply lookup_delete_eq.
  - right. split; [intros rendered Heq; by injection Heq as <-|].
    exists CannotRender. by split.
Qed.

End Intermediate.

Lemma intermediate_html_on_disk_witness :
  files
    (staged Sample.platform
       (Req.mk None (Some "hi") None (Some "out.png") None None (Some false)
          None None Opts.empty false)
       (Sample.replace 200 false "{{styles}}" ""
          (Sample.replace 200 true "{{body}}" "<p>hi</p>"
             (Sample.replace 200 true "{{title}}" "Web-to-PNG" Sample.template)))
       Sample.disk)
    !! "/work/out.html" =
  Some (Sample.replace 200 false "{{styles}}" ""
          (Sample.replace 200 true "{{body}}" "<p>hi</p>"
             (Sample.replace 200 true "{{title}}" "Web-to-PNG" Sample.template))).
Proof.
  destruct (intermediate_html_on_disk Sample.platform Sample.no_browser
              (Req.mk None (Some "hi") None (Some "out.png") None None (Some false)
                 None None Opts.empty false)
              Sample.disk "hi" None
              (Sample.replace 200 false "{{styles}}" ""
                 (Sample.replace 200 true "{{body}}" "<p>hi</p>"
                    (Sample.replace 200 true "{{title}}" "Web-to-PNG" Sample.template)))
              eq_refl eq_refl eq_refl eq_refl)
    as (out & calls & _ & _ & _ & Hfile & _).
  exact Hfile.
Defined.

(** * Further properties of the converter *)

(** ** Output paths *)

Lemma append_cons (c : ascii) (a b : string) :
  String c a +:+ b = String c (a +:+ b).
Proof. reflexivity. Qed.

Lemma append_length (a b : string) :
  String.length (a +:+ b) = (String.length a + String.length b)%nat.
Proof.
  induction a as [|c a IH]; [done|].
  rewrite append_cons. simpl. by rewrite IH.
Qed.

Lemma strip_png_split (s : string) :
  exists ext,
    s = strip_png s +:+ ext /\
    (ext = "" \/ (String.length ext = 4%nat /\ Js.prefix_ci ".png" ext = true)).
Proof.
  induction s as [|c s IH].
  - exists "". by split; [|left].
  - cbn [strip_png].
    destruct (Js.prefix_ci ".png" (String c s)
              && (String.length (String c s) =? 4)%nat) eqn:Hend.
    + exists (String c s). split; [done|]. right.
      apply andb_true_iff in Hend as [Hp Hl]. by apply Nat.eqb_eq in Hl.
    + destruct IH as (ext & Hs & Hext). exists ext. split; [|done].
      rewrite append_cons. by rewrite <- Hs.
Qed.

Lemma strip_png_ending (base ext : string) :
  String.length ext = 4%nat -> Js.prefix_ci ".png" ext = true ->
  strip_png (base +:+ ext) = base.
Proof.
  intros Hl Hp. induction base as [|c base IH].
  - change ("" +:+ ext) with ext. destruct ext as [|c ext]; [done|].
    cbn [strip_png]. rewrite Hp, Hl. done.
  - rewrite append_cons. cbn [strip_png].
    assert (Hlen : (String.length (String c (base +:+ ext)) =? 4)%nat = false).
    { apply Nat.eqb_neq. simpl. rewrite append_length. lia. }
    rewrite Hlen, andb_false_r. by rewrite IH.
Qed.

(** X1: the replacement of a trailing [.png] removes exactly an ending of four
    characters that reads [.png] in any letter case, and nothing else: the
    path is its result followed by such an ending or by nothing, and a path
    with such an ending loses it. *)
Theorem strip_png_removes_only_the_ending :
  (forall s, exists ext,
     s = strip_png s +:+ ext /\
     (ext = "" \/ (String.length ext = 4%nat /\ Js.prefix_ci ".png" ext = true))) /\
  (forall base ext,
     String.length ext = 4%nat -> Js.prefix_ci ".png" ext = true ->
     strip_png (base +:+ ext) = base).
Proof. split; [apply strip_png_split | apply strip_png_ending]. Qed.

Lemma strip_png_removes_only_the_ending_witness :
  strip_png ("/work/shot.png.bak/Card" +:+ ".PnG") = "/work/shot.png.bak/Card".
Proof.
  destruct strip_png_removes_only_the_ending as [_ H].
  apply H; reflexivity.
Defined.

Section OutputPaths.

Context (P : Platform).

Lemma suffix_not_png (r : Req.t) (suffix : string) :
  (4 < String.length suffix)%nat ->
  strip_png (outputPng_of P r) +:+ suffix <> outputPng_of P r.
Proof.
  intros Hlen Heq.
  destruct (strip_png_split (outputPng_of P r)) as (ext & Hs & Hext).
  rewrite Hs in Heq at 2. apply append_left_cancel in Heq. subst ext.
  destruct Hext as [->|[Hl _]]; simpl in *; lia.
Qed.

(** X2: the image, the intermediate HTML file and the metadata file of a
    request are three different paths, whatever the output path is: neither
    of the two text files can replace the image or each other. *)
Theorem output_paths_distinct (r : Req.t) :
  outputHtml_of P r <> outputPng_of P r /\
  metaPath_of P r <> outputPng_of P r /\
  metaPath_of P r <> outputHtml_of P r.
Proof.
  split; [|split].
  - apply suffix_not_png. simpl. lia.
  - apply suffix_not_png. simpl. lia.
  - unfold metaPath_of, outputHtml_of. intros H.
    apply append_left_cancel in H. discriminate H.
Qed.

End OutputPaths.

(** ** Failures of [toPng] *)

Lemma readText_throws (path : string) (w w' : World) (e : Error) :
  readText path w = (Throw e, w') -> e = FileNotFound path.
Proof. unfold readText. destruct (files w !! path); [done | by intros [= <- _]]. Qed.

Lemma load_sources_throws (r : Req.t) (w w' : World) (e : Error) :
  load_sources r w = (Throw e, w') -> exists path, e = FileNotFound path.
Proof.
  unfold load_sources, bind, ret.
  destruct (Js.truthy_str (Req.inputPath r)).
  - destruct (readText _ w) as [[text|e1] w1] eqn:Hread.
    + apply readText_pure in Hread as ->.
      destruct (Js.truthy_str (Req.customCssPath r)); [|done].
      destruct (readText _ w) as [[css|e2] w2] eqn:Hcss; [done|].
      intros [= <- _]. apply readText_throws in Hcss. eauto.
    + intros [= <- _]. apply readText_throws in Hread. eauto.
  - destruct (Js.truthy_str (Req.customCssPath r)); [|done].
    destruct (readText _ w) as [[css|e2] w2] eqn:Hcss; [done|].
    intros [= <- _]. apply readText_throws in Hcss. eauto.
Qed.

Section Failures.

Context (P : Platform) (B : Browser).

Lemma build_html_throws (r : Req.t) (raw : string) (css : option string)
    (w w' : World) (e : Error) :
  build_html P r raw css w = (Throw e, w') -> exists path, e = FileNotFound path.
Proof.
  unfold build_html, renderTemplate, bind, ret.
  destruct (Js.truthy_str (Req.url r)); [done|].
  destruct (readText _ w) as [[text|e1] w1] eqn:Hread.
  - destruct (Js.includes _ _); [done|]. by destruct (Js.truthy_str css).
  - intros [= <- _]. apply readText_throws in Hread. eauto.
Qed.

(** A failed run, taken apart: either nothing has happened, or the engine
    stage was reached on the staged world. *)
Lemma toPng_throw_inv (r : Req.t) (w w' : World) (e : Error) :
  toPng P B r w = (Throw e, w') ->
  ((e = MissingInput \/ exists path, e = FileNotFound path) /\ w' = w) \/
  ((e = CannotRender \/ e = EngineRejected) /\
   exists html calls,
     Forall (fun c => is_engine_call c = true) calls /\
     w' = record (staged P r html w) calls).
Proof.
  intros Hrun.
  destruct (no_input r) eqn:Hin.
  { rewrite toPng_missing in Hrun by done. injection Hrun as <- <-. left. auto. }
  destruct (load_sources r w) as [[[raw css]|e1] w1] eqn:Hload;
    pose proof (load_sources_pure _ _ _ _ Hload) as ->.
  2:{ unfold toPng in Hrun. rewrite Hin in Hrun.
      erewrite bind_failed in Hrun by exact Hload. injection Hrun as <- <-.
      left. split; [|done]. right. by apply load_sources_throws in Hload. }
  destruct (build_html P r raw css w) as [[html|e1] w1] eqn:Hbuild;
    pose proof (build_html_pure _ _ _ _ _ _ _ Hbuild) as ->.
  2:{ unfold toPng in Hrun. rewrite Hin in Hrun.
      erewrite bind_ok in Hrun by exact Hload.
      erewrite bind_failed in Hrun by exact Hbuild. injection Hrun as <- <-.
      left. split; [|done]. right. by apply build_html_throws in Hbuild. }
  rewrite (toPng_produce P B r w raw css html Hin Hload Hbuild) in Hrun.
  right. destruct (playwright_available B) eqn:Ha.
  2:{ rewrite produce_without_engine in Hrun by done. injection Hrun as <- <-.
      split; [by left|]. exists html, []. by rewrite record_nil. }
  destruct (navigation_rejects B (target_of P r) (waitUntil_of (Req.options r))
              (timeoutMs_of P (Req.options r))) eqn:Hr.
  { rewrite produce_rejected in Hrun by done. injection Hrun as <- <-.
    split; [by right|]. eexists html, _. split; [apply opening_calls_engine|done]. }
  destruct (produce_resolved P B r raw html Ha Hr)
    as (target & clip & fullPage & mode & _ & Hp).
  rewrite Hp in Hrun.
  destruct (Js.str_truthy (browser_version B)); [discriminate|].
  injection Hrun as <- <-. split; [by left|].
  eexists html, _. split; [apply render_calls_engine|done].
Qed.

(** Where a run can leave the world. *)
Lemma toPng_world (r : Req.t) (w w' : World) (out : Outcome Result) :
  toPng P B r w = (out, w') ->
  w' = w \/
  exists html calls,
    Forall (fun c => is_engine_call c = true) calls /\
    (w' = record (staged P r html w) calls \/
     exists json,
       w' = written (metaPath_of P r) json
              (cleaned P r (record (staged P r html w) calls))).
Proof.
  intros Hrun. destruct out as [res|e].
  - destruct (toPng_ok_inv P B r w w' res Hrun)
      as (raw & css & html & target & clip & fullPage & mode
          & _ & _ & _ & _ & _ & _ & ->).
    right. eexists html, _. split; [apply render_calls_engine|]. right. by eexists.
  - destruct (toPng_throw_inv r w w' e Hrun) as [[_ ->]|[_ (html & calls & Hc & ->)]];
      [by left|].
    right. exists html, calls. split; [done | by left].
Qed.

Lemma files_staged_other (r : Req.t) (html path : string) (w : World) :
  path <> outputHtml_of P r ->
  files (staged P r html w) !! path = files w !! path.
Proof.
  intros Hne. unfold staged. destruct (Js.truthy_str (Req.url r)); [done|].
  simpl. rewrite lookup_insert_ne by done.
  destruct (Js.nullish (Req.keepHtml r) true); [|done].
  simpl. by rewrite lookup_insert_ne.
Qed.

Lemma files_cleaned_other (r : Req.t) (path : string) (w : World) :
  path <> outputHtml_of P r ->
  files (cleaned P r w) !! path = files w !! path.
Proof.
  intros Hne. unfold cleaned. destruct (Js.nullish (Req.keepHtml r) true); [done|].
  destruct (files w !! outputHtml_of P r); [|done].
  simpl. by rewrite lookup_delete_ne.
Qed.

(** X3: when [toPng] fails with one of its own two errors of preparation,
    no input or a file that is not there, nothing has happened: no file was
    written or removed and the engine was not started.  Both errors are
    raised before the first write. *)
Theorem preparation_failure_changes_nothing (r : Req.t) (w w' : World) (e : Error) :
  toPng P B r w = (Throw e, w') ->
  e = MissingInput \/ (exists path, e = FileNotFound path) ->
  w' = w /\ files w' = files w /\ trace w' = trace w.
Proof.
  intros Hrun Hprep.
  destruct (toPng_throw_inv r w w' e Hrun) as [[He ->]|[He _]]; [done|].
  destruct Hprep as [->|[path ->]]; destruct He; discriminate.
Qed.

(** X4: an input path whose file is not there makes [toPng] fail with the
    file-not-found error for that path, with nothing done, also when inline
    content or a URL is given that would replace the file's text. *)
Theorem missing_input_file_fails (r : Req.t) (w : World) (path : string) :
  Req.inputPath r = Some path -> path <> "" ->
  files w !! path = None ->
  toPng P B r w = (Throw (FileNotFound path), w).
Proof.
  intros Hp Hne Hfile.
  assert (Ht : Js.truthy_str (Req.inputPath r) = true).
  { rewrite Hp. simpl. unfold Js.str_truthy.
    by destruct (String.eqb_spec path ""). }
  unfold toPng, no_input. rewrite Ht. cbn [negb andb].
  apply bind_failed. unfold load_sources. apply bind_failed.
  rewrite Ht, Hp. simpl. unfold readText. by rewrite Hfile.
Qed.

(** X5: content whose style has no template file fails with the
    file-not-found error for [<templates>/<style>.html], with nothing done. *)
Theorem missing_template_fails (r : Req.t) (w : World) (raw : string)
    (css : option string) :
  Js.truthy_str (Req.url r) = false ->
  no_input r = false ->
  load_sources r w = (Ok (raw, css), w) ->
  files w !! path_join P (TEMPLATES P)
               (Js.nullish (Req.style r) "card-clean" +:+ ".html") = None ->
  toPng P B r w =
    (Throw (FileNotFound
              (path_join P (TEMPLATES P)
                 (Js.nullish (Req.style r) "card-clean" +:+ ".html"))), w).
Proof.
  intros Hurl Hin Hload Hfile. unfold toPng. rewrite Hin.
  erewrite bind_ok by exact Hload. apply bind_failed.
  unfold build_html. rewrite Hurl. unfold renderTemplate. apply bind_failed.
  unfold readText. by rewrite Hfile.
Qed.

(** X6: when a request with a URL fails, the converter has made no file call
    of its own: the files it keeps track of are as before, and whatever was
    called was a call to the engine. *)
Theorem failed_url_request_keeps_files (r : Req.t) (w w' : World) (e : Error) :
  Js.truthy_str (Req.url r) = true ->
  toPng P B r w = (Throw e, w') ->
  files w' = files w /\
  exists calls,
    trace w' = trace w ++ calls /\
    Forall (fun c => is_engine_call c = true) calls.
Proof.
  intros Hurl Hrun.
  destruct (toPng_throw_inv r w w' e Hrun) as [[_ ->]|[_ (html & calls & Hc & ->)]].
  - split; [done|]. exists []. by rewrite app_nil_r.
  - unfold staged. rewrite Hurl. split; [done|]. by exists calls.
Qed.

(** X7: apart from the image, which the engine writes, [toPng] writes and
    removes no file but the intermediate HTML file and the metadata file:
    every path other than these three holds after the run what it held
    before, whether the run succeeds or fails. *)
Theorem toPng_touches_two_paths (r : Req.t) (w w' : World) (out : Outcome Result)
    (path : string) :
  toPng P B r w = (out, w') ->
  path <> outputPng_of P r ->
  path <> outputHtml_of P r -> path <> metaPath_of P r ->
  files w' !! path = files w !! path.
Proof.
  intros Hrun _ Hh Hm.
  destruct (toPng_world r w w' out Hrun)
    as [->|(html & calls & _ & [->|(json & ->)])]; [done| |].
  - simpl. by apply files_staged_other.
  - simpl. rewrite lookup_insert_ne by done.
    rewrite files_cleaned_other by done. simpl. by apply files_staged_other.
Qed.

(** X8: for a request with a URL that succeeds, the HTML path is never
    written.  When the file is to be kept, the path is returned all the same
    and holds what it held before; when it is not to be kept, a file that
    was at that path before the run is removed. *)
Theorem url_run_and_the_html_path (r : Req.t) (w w' : World) (res : Result) :
  Js.truthy_str (Req.url r) = true ->
  toPng P B r w = (Ok res, w') ->
  (Js.nullish (Req.keepHtml r) true = true ->
   htmlPath res = Some (outputHtml_of P r) /\
   files w' !! outputHtml_of P r = files w !! outputHtml_of P r) /\
  (Js.nullish (Req.keepHtml r) true = false ->
   htmlPath res = None /\ files w' !! outputHtml_of P r = None) /\
  (forall html, ~ In (EvWriteFile (outputHtml_of P r) html)
                  (drop (length (trace w)) (trace w'))).
Proof.
  intros Hurl Hrun.
  destruct (toPng_ok_inv P B r w w' res Hrun)
    as (raw & css & html & target & clip & fullPage & mode
        & _ & _ & _ & _ & _ & -> & ->).
  assert (Hst : staged P r html w = w) by (unfold staged; by rewrite Hurl).
  rewrite Hst. cbn [htmlPath]. split; [|split].
  - intros Hk. rewrite Hk. split; [done|]. simpl.
    rewrite lookup_insert_ne by apply metaPath_not_html.
    unfold cleaned. by rewrite Hk.
  - intros Hk. rewrite Hk. split; [done|]. simpl.
    rewrite lookup_insert_ne by apply metaPath_not_html.
    unfold cleaned. rewrite Hk. simpl.
    destruct (files w !! outputHtml_of P r) eqn:Hf; simpl;
      [apply lookup_delete_eq | done].
  - intros html'. simpl. rewrite trace_cleaned. simpl.
    rewrite <- !app_assoc, drop_app_length.
    pose proof (render_calls_engine P B r target (outputPng_of P r) clip fullPage)
      as Heng.
    rewrite !in_app_iff. intros [Hin|[Hin|Hin]].
    + rewrite Forall_forall in Heng. apply list_elem_of_In in Hin.
      by apply Heng in Hin.
    + destruct (Js.nullish (Req.keepHtml r) true); [done|].
      destruct (files w !! outputHtml_of P r); simpl in Hin; intuition discriminate.
    + simpl in Hin. destruct Hin as [Hin|[]]. injection Hin as Hpath _.
      by apply (metaPath_not_html P r).
Qed.

End Failures.

Lemma preparation_failure_changes_nothing_witness :
  snd (toPng Sample.platform Sample.browser
         (Req.mk (Some "") None None (Some "out.png") None None None None None
            Opts.empty false)
         Sample.disk) = Sample.disk.
Proof.
  destruct (preparation_failure_changes_nothing Sample.platform Sample.browser
              (Req.mk (Some "") None None (Some "out.png") None None None None None
                 Opts.empty false)
              Sample.disk
              (snd (toPng Sample.platform Sample.browser
                      (Req.mk (Some "") None None (Some "out.png") None None None
                         None None Opts.empty false)
                      Sample.disk))
              MissingInput eq_refl (or_introl eq_refl)) as [H _].
  exact H.
Defined.

Lemma missing_input_file_fails_witness :
  toPng Sample.platform Sample.browser
    (Req.mk (Some "/work/gone.md") (Some "inline text") None (Some "out.png")
       None None None None None Opts.empty false)
    Sample.disk = (Throw (FileNotFound "/work/gone.md"), Sample.disk).
Proof.
  apply (missing_input_file_fails Sample.platform Sample.browser _ _ "/work/gone.md");
    [reflexivity | discriminate | reflexivity].
Defined.

Lemma missing_template_fails_witness :
  toPng Sample.platform Sample.browser
    (Req.mk None (Some "hi") None (Some "out.png") (Some "poster") None None
       None None Opts.empty false)
    Sample.disk =
    (Throw (FileNotFound "/skill/templates/poster.html"), Sample.disk).
Proof.
  exact (missing_template_fails Sample.platform Sample.browser
           (Req.mk None (Some "hi") None (Some "out.png") (Some "poster") None None
              None None Opts.empty false)
           Sample.disk "hi" None eq_refl eq_refl eq_refl eq_refl).
Defined.

Lemma failed_url_request_keeps_files_witness :
  files (snd (toPng Sample.platform Sample.browser
                (Sample.request None (Some "https://example.com")
                   (Opts.mk None None None None None false None None
                      (Some "bogus") None)
                   false)
                Sample.disk)) = files Sample.disk.
Proof.
  eapply proj1.
  apply (failed_url_request_keeps_files Sample.platform Sample.browser
           (Sample.request None (Some "https://example.com")
              (Opts.mk None None None None None false None None (Some "bogus") None)
              false)
           Sample.disk _ EngineRejected eq_refl).
  vm_compute. reflexivity.
Defined.

Lemma toPng_touches_two_paths_witness :
  files (snd (toPng Sample.platform Sample.browser
                (Sample.request (Some "hi") None Opts.empty false) Sample.disk))
    !! "/work/note.md" = Some "hello".
Proof.
  rewrite (toPng_touches_two_paths Sample.platform Sample.browser
             (Sample.request (Some "hi") None Opts.empty false) Sample.disk
             (snd (toPng Sample.platform Sample.browser
                     (Sample.request (Some "hi") None Opts.empty false) Sample.disk))
             (fst (toPng Sample.platform Sample.browser
                     (Sample.request (Some "hi") None Opts.empty false) Sample.disk))
             "/work/note.md").
  - reflexivity.
  - apply surjective_pairing.
  - intros H. vm_compute in H. discriminate H.
  - intros H. vm_compute in H. discriminate H.
  - intros H. vm_compute in H. discriminate H.
Defined.

Lemma url_run_and_the_html_path_witness :
  files (mkWorld (<["/work/out.html" := "an older page"]> (files Sample.disk)) [])
    !! "/work/out.html" = Some "an older page" /\
  files (snd (toPng Sample.platform Sample.browser
                (Req.mk None None (Some "https://example.com") (Some "out.png")
                   None None (Some false) None None Opts.empty false)
                (mkWorld (<["/work/out.html" := "an older page"]> (files Sample.disk))
                   [])))
    !! "/work/out.html" = None.
Proof.
  split; [reflexivity|].
  destruct (toPng Sample.platform Sample.browser
              (Req.mk None None (Some "https://example.com") (Some "out.png")
                 None None (Some false) None None Opts.empty false)
              (mkWorld (<["/work/out.html" := "an older page"]> (files Sample.disk)) []))
    as [out w'] eqn:Hrun.
  assert (Hok : exists res, out = Ok res).
  { apply (f_equal fst) in Hrun. vm_compute in Hrun. subst out. by eexists. }
  destruct Hok as [res ->].
  destruct (url_run_and_the_html_path Sample.platform Sample.browser
              (Req.mk None None (Some "https://example.com") (Some "out.png")
                 None None (Some false) None None Opts.empty false)
              _ _ _ eq_refl Hrun) as (_ & H & _).
  exact (proj2 (H eq_refl)).
Defined.

(** ** The life of the browser *)

Section Lifecycle.

Context (B : Browser).

Lemma opening_calls_kinds target viewport shot waitUntil timeoutMs allow (e : Event) :
  In e (opening_calls target viewport shot waitUntil timeoutMs allow) ->
  e = EvLaunch \/
  e = EvNewPage viewport (Js.nullish (shot_deviceScaleFactor shot) (Js.of_Z 2)) \/
  e = EvRoute "**/*" \/
  e = EvGoto target waitUntil timeoutMs \/
  e = EvSetContent target waitUntil timeoutMs.
Proof.
  unfold opening_calls, navigation_call. rewrite !in_app_iff. simpl.
  intros [[<-|[<-|[]]]|[Hin|[<-|[]]]]; auto.
  - destruct (route_present _); simpl in Hin; [|done].
    destruct Hin as [<-|[]]. auto.
  - destruct (_ || _); auto.
Qed.

Lemma opening_calls_first target viewport shot waitUntil timeoutMs allow :
  exists rest,
    opening_calls target viewport shot waitUntil timeoutMs allow = EvLaunch :: rest.
Proof. unfold opening_calls. simpl. by eexists. Qed.

Lemma served_kinds target allow (e : Event) :
  In e (served B target allow) -> exists u d, e = EvRequest u d.
Proof.
  unfold served. rewrite in_map_iff. intros (u & <- & _). by eexists _, _.
Qed.

(** X9: once the engine is there, the driver starts by launching a browser.
    If the load of the page is rejected, the driver fails without having
    closed that browser or taken a screenshot.  If the load resolves, the
    driver ends with one screenshot followed by the closing of the browser,
    and neither occurs earlier. *)
Theorem browser_closed_only_after_capture (htmlOrUrl pngPath : string)
    (viewport : Viewport) (options : ShotOptions) (waitUntil : string)
    (timeoutMs : Js.num) (allowScripts : bool)
    (allow : option (list (option string))) (w : World) :
  playwright_available B = true ->
  exists calls,
    snd (renderPngWithPlaywright B htmlOrUrl pngPath viewport options waitUntil
           timeoutMs allowScripts allow w) = record w calls /\
    (exists rest, calls = EvLaunch :: rest) /\
    (navigation_rejects B htmlOrUrl waitUntil timeoutMs = true ->
       fst (renderPngWithPlaywright B htmlOrUrl pngPath viewport options
              waitUntil timeoutMs allowScripts allow w) = Throw EngineRejected /\
       ~ In EvClose calls /\
       forall t p c f, ~ In (EvScreenshot t p c f) calls) /\
    (navigation_rejects B htmlOrUrl waitUntil timeoutMs = false ->
       exists before t c f,
         calls = before ++ [EvScreenshot t pngPath c f; EvClose] /\
         ~ In EvClose before /\
         forall t' p' c' f', ~ In (EvScreenshot t' p' c' f') before).
Proof.
  intros Ha.
  destruct (navigation_rejects B htmlOrUrl waitUntil timeoutMs) eqn:Hr.
  - rewrite render_rejected by done. eexists. split; [reflexivity|].
    split; [apply opening_calls_first|]. split; [|done]. intros _.
    split; [done|]. split.
    + intros Hin. apply opening_calls_kinds in Hin. intuition discriminate.
    + intros t p c f Hin. apply opening_calls_kinds in Hin. intuition discriminate.
  - destruct (render_resolved B htmlOrUrl pngPath viewport options waitUntil
                timeoutMs allowScripts allow Ha Hr)
      as (t & c & f & mode & _ & Hrun).
    rewrite Hrun. eexists. split; [reflexivity|]. split.
    { destruct (opening_calls_first htmlOrUrl viewport options waitUntil
                  timeoutMs allow) as [rest ->]. by eexists. }
    split; [done|]. intros _.
    exists (opening_calls htmlOrUrl viewport options waitUntil timeoutMs allow
            ++ served B htmlOrUrl allow
            ++ (if allowScripts then [] else [EvAddScriptTag remove_scripts])
            ++ [EvEvaluate "document.fonts && document.fonts.ready"]), t, c, f.
    split; [by rewrite <- !app_assoc|].
    assert (Hkinds : forall e,
      In e (opening_calls htmlOrUrl viewport options waitUntil timeoutMs allow
            ++ served B htmlOrUrl allow
            ++ (if allowScripts then [] else [EvAddScriptTag remove_scripts])
            ++ [EvEvaluate "document.fonts && document.fonts.ready"]) ->
      e <> EvClose /\ forall t' p' c' f', e <> EvScreenshot t' p' c' f').
    { intros e. rewrite !in_app_iff. intros [Hin|[Hin|[Hin|Hin]]].
      - apply opening_calls_kinds in Hin. split; [|intros t' p' c' f'];
          intuition (subst; discriminate).
      - apply served_kinds in Hin as (u & d & ->). by split.
      - destruct allowScripts; simpl in Hin; [done|].
        destruct Hin as [<-|[]]. by split.
      - simpl in Hin. destruct Hin as [<-|[]]. by split. }
    split.
    + intros Hin. by apply Hkinds in Hin as [Hne _].
    + intros t' p' c' f' Hin. apply Hkinds in Hin as [_ Hne]. by apply (Hne t' p' c' f').
Qed.


End Lifecycle.

Lemma browser_closed_only_after_capture_witness :
  exists calls,
    snd (renderPngWithPlaywright Sample.browser "file:///work/out.html"
           "/work/out.png" (viewport_of Opts.empty) (shot_of Opts.empty) "bogus"
           (Js.of_Z 30000) false None Sample.disk) = record Sample.disk calls /\
    ~ In EvClose calls.
Proof.
  destruct (browser_closed_only_after_capture Sample.browser
              "file:///work/out.html" "/work/out.png" (viewport_of Opts.empty)
              (shot_of Opts.empty) "bogus" (Js.of_Z 30000) false None Sample.disk
              eq_refl) as (calls & Hrun & _ & Hrej & _).
  exists calls. split; [exact Hrun|]. by destruct (Hrej eq_refl) as (_ & H & _).
Defined.


(** ** The command line, further *)

Lemma behind_value_length (rest : list string) :
  length (behind_value rest) <= length rest.
Proof. destruct rest; simpl; lia. Qed.

Lemma behind_value_in (x : string) (rest : list string) :
  In x (behind_value rest) -> In x rest.
Proof. destruct rest; simpl; auto. Qed.

(** One round of the loop, for a field that the flag at hand does not set. *)
Ltac loop_round IH Hrun Hlen Hnot :=
  first
    [ discriminate Hrun
    | exfalso; apply Hnot; left; assumption
    | apply IH in Hrun;
      [ exact Hrun
      | simpl in Hlen;
        first [ lia
              | match goal with
                | |- length (behind_value ?l) <= _ =>
                    pose proof (behind_value_length l); lia
                end ]
      | intros Hin; apply Hnot; right;
        first [ exact Hin | by apply behind_value_in ] ] ].

Ltac loop_rounds IH Hrun Hlen Hnot a :=
  repeat match type of Hrun with
         | (if String.eqb a ?f then _ else _) = _ =>
             destruct (String.eqb_spec a f);
             [ first
                 [ loop_round IH Hrun Hlen Hnot
                 | match type of Hrun with
                   | match parseClip ?P ?v with _ => _ end = _ =>
                       destruct (parseClip P v);
                       [loop_round IH Hrun Hlen Hnot | discriminate Hrun]
                   end ]
             | ]
         | (if _ || _ then _ else _) = _ =>
             destruct (_ || _); [discriminate Hrun|]
         end;
  try loop_round IH Hrun Hlen Hnot.

Ltac keeps_field :=
  let IH := fresh "IH" in
  let n := fresh "n" in
  intros n; induction n as [|n IH]; intros argv args res Hlen Hnot Hrun;
  [ destruct argv; [|simpl in Hlen; lia]; simpl in Hrun; by injection Hrun as <-
  | destruct argv as [|a rest]; [simpl in Hrun; by injection Hrun as <-|];
    cbn [parse_loop] in Hrun; cbv zeta in Hrun;
    loop_rounds IH Hrun Hlen Hnot a ].

Section Flags.

Context (P : Platform).

Lemma loop_keeps_allowScripts :
  forall n argv args res,
    length argv <= n -> ~ In "--allow-scripts" argv ->
    parse_loop P argv args = Done res ->
    Args.allowScripts res = Args.allowScripts args.
Proof. keeps_field. Qed.

Lemma loop_keeps_noHtml :
  forall n argv args res,
    length argv <= n -> ~ In "--no-html" argv ->
    parse_loop P argv args = Done res ->
    Args.noHtml res = Args.noHtml args.
Proof. keeps_field. Qed.

Lemma loop_keeps_fullPage :
  forall n argv args res,
    length argv <= n -> ~ In "--full-page" argv ->
    parse_loop P argv args = Done res ->
    Args.fullPage res = Args.fullPage args.
Proof. keeps_field. Qed.

Lemma loop_keeps_allowNet :
  forall n argv args res,
    length argv <= n -> ~ In "--allow-net" argv ->
    parse_loop P argv args = Done res ->
    Args.allowNet res = Args.allowNet args.
Proof. keeps_field. Qed.

Lemma loop_keeps_clip :
  forall n argv args res,
    length argv <= n -> ~ In "--clip" argv ->
    parse_loop P argv args = Done res ->
    Args.clip res = Args.clip args.
Proof. keeps_field. Qed.

Lemma loop_keeps_url :
  forall n argv args res,
    length argv <= n -> ~ In "--url" argv ->
    parse_loop P argv args = Done res ->
    Args.url res = Args.url args.
Proof. keeps_field. Qed.

Lemma parseArgs_done (argv : list string) (args : Args.t) :
  parseArgs P argv = Done args ->
  parse_loop P argv Args.defaults = Done args /\
  Js.truthy_str (Args.output args) = true /\
  Js.truthy_num (Args.width args) = Js.truthy_num (Args.height args).
Proof.
  unfold parseArgs. destruct (parse_loop P argv Args.defaults) as [a|e|code]; try done.
  unfold check_args.
  destruct (Js.truthy_str (Args.output a)) eqn:Hout; [|done].
  destruct (Js.truthy_num (Args.width a)) eqn:Hw;
    destruct (Js.truthy_num (Args.height a)) eqn:Hh; simpl; try done;
    intros [= <-]; by rewrite Hout, Hw, Hh.
Qed.

(** X11: whatever [parseArgs] returns has an output path that is not empty,
    and a width and a height that are either both usable (given, not 0, not
    NaN) or both not. *)
Theorem parseArgs_returns_complete_arguments (argv : list string) (args : Args.t) :
  parseArgs P argv = Done args ->
  Js.truthy_str (Args.output args) = true /\
  Js.truthy_num (Args.width args) = Js.truthy_num (Args.height args).
Proof. intros H. by apply parseArgs_done in H as (_ & H1 & H2). Qed.

Lemma allow_net_default (argv : list string) (args : Args.t) :
  parseArgs P argv = Done args -> ~ In "--allow-net" argv ->
  Args.allowNet args = [].
Proof.
  intros H Hnot. apply parseArgs_done in H as (Hloop & _).
  by apply (loop_keeps_allowNet (length argv) argv Args.defaults).
Qed.

(** X12: a switch is off, and an option is empty, unless its flag occurs on
    the command line: without [--allow-scripts] scripts are not permitted,
    without [--no-html] the HTML file is kept, without [--full-page] the
    full-page capture is not forced, without [--allow-net] the allow-list is
    empty, without [--clip] there is no clip and without [--url] no URL. *)
Theorem unmentioned_flags_keep_defaults (argv : list string) (args : Args.t) :
  parseArgs P argv = Done args ->
  (~ In "--allow-scripts" argv -> Args.allowScripts args = false) /\
  (~ In "--no-html" argv -> Args.noHtml args = false) /\
  (~ In "--full-page" argv -> Args.fullPage args = false) /\
  (~ In "--allow-net" argv -> Args.allowNet args = []) /\
  (~ In "--clip" argv -> Args.clip args = None) /\
  (~ In "--url" argv -> Args.url args = None).
Proof.
  intros H. apply parseArgs_done in H as (Hloop & _).
  repeat split; intros Hnot.
  - by apply (loop_keeps_allowScripts (length argv) argv Args.defaults).
  - by apply (loop_keeps_noHtml (length argv) argv Args.defaults).
  - by apply (loop_keeps_fullPage (length argv) argv Args.defaults).
  - by apply (loop_keeps_allowNet (length argv) argv Args.defaults).
  - by apply (loop_keeps_clip (length argv) argv Args.defaults).
  - by apply (loop_keeps_url (length argv) argv Args.defaults).
Qed.

End Flags.

Lemma parseArgs_returns_complete_arguments_witness :
  Js.truthy_num
    (Args.width
       (Args.set_height (Some (Js.of_Z 600))
          (Args.set_width (Some (Js.of_Z 800))
             (Args.set_output (Some "o.png") Args.defaults)))) =
  Js.truthy_num
    (Args.height
       (Args.set_height (Some (Js.of_Z 600))
          (Args.set_width (Some (Js.of_Z 800))
             (Args.set_output (Some "o.png") Args.defaults)))).
Proof.
  destruct (parseArgs_returns_complete_arguments Sample.platform
              ["--output"; "o.png"; "--width"; "800"; "--height"; "600"]
              (Args.set_height (Some (Js.of_Z 600))
                 (Args.set_width (Some (Js.of_Z 800))
                    (Args.set_output (Some "o.png") Args.defaults)))
              eq_refl) as [_ H].
  exact H.
Defined.

Lemma unmentioned_flags_keep_defaults_witness :
  Args.allowScripts
    (Args.set_title (Some "--full-page")
       (Args.set_output (Some "o.png") Args.defaults)) = false /\
  Args.allowNet
    (Args.set_title (Some "--full-page")
       (Args.set_output (Some "o.png") Args.defaults)) = [].
Proof.
  destruct (unmentioned_flags_keep_defaults Sample.platform
              ["--output"; "o.png"; "--title"; "--full-page"]
              (Args.set_title (Some "--full-page")
                 (Args.set_output (Some "o.png") Args.defaults))
              eq_refl) as (Hs & _ & _ & Hn & _).
  split; [apply Hs | apply Hn]; simpl; intuition discriminate.
Defined.

(** ** The calls of a whole run *)

Section Runs.

Context (P : Platform) (B : Browser).

Lemma trace_staged (r : Req.t) (html : string) (w : World) :
  exists writes,
    trace (staged P r html w) = trace w ++ writes /\
    Forall (fun e => is_engine_call e = false) writes.
Proof.
  unfold staged. destruct (Js.truthy_str (Req.url r)).
  - exists []. by rewrite app_nil_r.
  - destruct (Js.nullish (Req.keepHtml r) true); simpl.
    + eexists [_; _]. rewrite <- app_assoc. split; [done|]. by repeat constructor.
    + eexists [_]. split; [done|]. by repeat constructor.
Qed.

Lemma opening_in_render_calls (r : Req.t) (shot e : Event) :
  In e (opening_calls (target_of P r) (viewport_of (Req.options r))
          (shot_of (Req.options r)) (waitUntil_of (Req.options r))
          (timeoutMs_of P (Req.options r)) (Req.networkWhitelist r)) ->
  In e (render_calls P B r shot).
Proof. intros H. unfold render_calls. apply in_app_iff. by left. Qed.

(** The calls a run adds: file calls, and calls of the driver. *)
Lemma toPng_new_calls (r : Req.t) (w w' : World) (out : Outcome Result) :
  toPng P B r w = (out, w') ->
  exists calls,
    trace w' = trace w ++ calls /\
    forall e, In e calls ->
      is_engine_call e = false \/
      exists t c f,
        In e (render_calls P B r (EvScreenshot t (outputPng_of P r) c f)).
Proof.
  intros Hrun.
  destruct (no_input r) eqn:Hin.
  { rewrite toPng_missing in Hrun by done. injection Hrun as _ <-.
    exists []. by rewrite app_nil_r. }
  destruct (load_sources r w) as [[[raw css]|e1] w1] eqn:Hload;
    pose proof (load_sources_pure _ _ _ _ Hload) as ->.
  2:{ unfold toPng in Hrun. rewrite Hin in Hrun.
      erewrite bind_failed in Hrun by exact Hload. injection Hrun as _ <-.
      exists []. by rewrite app_nil_r. }
  destruct (build_html P r raw css w) as [[html|e1] w1] eqn:Hbuild;
    pose proof (build_html_pure _ _ _ _ _ _ _ Hbuild) as ->.
  2:{ unfold toPng in Hrun. rewrite Hin in Hrun.
      erewrite bind_ok in Hrun by exact Hload.
      erewrite bind_failed in Hrun by exact Hbuild. injection Hrun as _ <-.
      exists []. by rewrite app_nil_r. }
  rewrite (toPng_produce P B r w raw css html Hin Hload Hbuild) in Hrun.
  destruct (trace_staged r html w) as (writes & Hst & Hwrites).
  rewrite Forall_forall in Hwrites.
  assert (Hw : forall e, In e writes -> is_engine_call e = false).
  { intros e He. apply Hwrites. by apply list_elem_of_In. }
  destruct (playwright_available B) eqn:Ha.
  2:{ rewrite produce_without_engine in Hrun by done. injection Hrun as _ <-.
      exists writes. split; [done|]. intros e He. left. by apply Hw. }
  destruct (navigation_rejects B (target_of P r) (waitUntil_of (Req.options r))
              (timeoutMs_of P (Req.options r))) eqn:Hr.
  { rewrite produce_rejected in Hrun by done. injection Hrun as _ <-.
    simpl. rewrite Hst, <- app_assoc. eexists. split; [reflexivity|].
    intros e He. apply in_app_iff in He as [He|He]; [left; by apply Hw|].
    right. exists OfPage, None, false. by apply opening_in_render_calls. }
  destruct (produce_resolved P B r raw html Ha Hr)
    as (target & clip & fullPage & mode & _ & Hp).
  rewrite Hp in Hrun.
  destruct (Js.str_truthy (browser_version B)).
  - injection Hrun as _ <-. simpl. rewrite trace_cleaned. simpl. rewrite Hst.
    rewrite <- !app_assoc. eexists. split; [reflexivity|].
    intros e He. rewrite !in_app_iff in He. destruct He as [He|[He|[He|He]]].
    + left. by apply Hw.
    + right. by exists target, clip, fullPage.
    + left. destruct (Js.nullish (Req.keepHtml r) true); [done|].
      destruct (files _ !! _); simpl in He; [|done]. by destruct He as [<-|[]].
    + left. simpl in He. by destruct He as [<-|[]].
  - injection Hrun as _ <-. simpl. rewrite Hst, <- app_assoc.
    eexists. split; [reflexivity|].
    intros e He. apply in_app_iff in He as [He|He]; [left; by apply Hw|].
    right. by exists target, clip, fullPage.
Qed.

Lemma render_calls_route (r : Req.t) (t : ShotTarget) (path : string)
    (c : option Clip) (f : bool) (pattern : string) :
  In (EvRoute pattern) (render_calls P B r (EvScreenshot t path c f)) ->
  route_installed (Req.networkWhitelist r) <> None.
Proof.
  unfold render_calls, opening_calls, navigation_call.
  rewrite !in_app_iff. intros [[Hin|[Hin|Hin]]|[Hin|[Hin|Hin]]].
  - simpl in Hin. intuition discriminate.
  - intros Hnone. rewrite Hnone in Hin. by simpl in Hin.
  - simpl in Hin. destruct (_ || _); intuition discriminate.
  - apply served_kinds in Hin as (u & d & Hin). discriminate Hin.
  - destruct (Js.nullish _ _); simpl in Hin; intuition discriminate.
  - simpl in Hin. intuition discriminate.
Qed.

(** X13: a command line on which [--allow-net] does not occur never installs
    a request interception: whatever else it holds and however the run ends,
    no route is set among the calls the run makes. *)
Theorem no_allow_net_no_route (argv : list string) (w : World) :
  ~ In "--allow-net" argv ->
  exists calls,
    trace (snd (main P B argv w)) = trace w ++ calls /\
    forall pattern, ~ In (EvRoute pattern) calls.
Proof.
  intros Hnot. unfold main.
  destruct (parseArgs P argv) as [args|e|code] eqn:Hparse.
  2,3: exists []; simpl; split; [by rewrite app_nil_r | by intros pattern []].
  pose proof (allow_net_default P argv args Hparse Hnot) as Hnet.
  destruct (toPng P B (request_of_args args) w) as [out w'] eqn:Hrun.
  destruct (toPng_new_calls _ _ _ _ Hrun) as (calls & Htrace & Hcalls).
  exists calls. split; [by destruct out|].
  intros pattern Hin. apply Hcalls in Hin as [Hin|(t & c & f & Hin)]; [done|].
  apply render_calls_route in Hin. apply Hin.
  unfold request_of_args. simpl. by rewrite Hnet.
Qed.

(** X14: a run of the program that ends with the help text, or with any
    failure other than those of the engine stage, has done nothing: the
    files and the list of calls are as before. *)
Theorem early_end_changes_nothing (argv : list string) (w : World) :
  (fst (main P B argv w) = HelpShown \/
   exists e, fst (main P B argv w) = Failed e /\
             e <> CannotRender /\ e <> EngineRejected) ->
  snd (main P B argv w) = w.
Proof.
  unfold main. destruct (parseArgs P argv) as [args|e|code]; [|done..].
  destruct (toPng P B (request_of_args args) w) as [[res|e] w'] eqn:Hrun; simpl.
  - intros [H|(e & H & _)]; discriminate H.
  - intros [H|(e' & [= <-] & Hc & Hr)]; [discriminate H|].
    destruct (toPng_throw_inv P B _ _ _ _ Hrun) as [[_ ->]|[[->| ->] _]]; done.
Qed.

End Runs.

Lemma no_allow_net_no_route_witness :
  exists calls,
    trace (snd (main Sample.platform Sample.browser
                  ["--content"; "hi"; "--output"; "out.png"; "--allow-scripts"]
                  Sample.disk)) = trace Sample.disk ++ calls /\
    forall pattern, ~ In (EvRoute pattern) calls.
Proof.
  apply (no_allow_net_no_route Sample.platform Sample.browser).
  simpl. intuition discriminate.
Defined.

Lemma early_end_changes_nothing_witness :
  snd (main Sample.platform Sample.browser ["--output"; "out.png"] Sample.disk) =
    Sample.disk.
Proof.
  apply (early_end_changes_nothing Sample.platform Sample.browser).
  right. exists MissingInput. repeat split; discriminate.
Defined.

(** ** The clip argument *)

Lemma split_commas_length (s cur : string) :
  length (split_commas s cur) = S (count_commas s).
Proof.
  revert cur. induction s as [|c s IH]; intros cur; simpl; [done|].
  destruct (Ascii.eqb c ","); simpl; by rewrite IH.
Qed.

Lemma str_truthy_nonempty (v : string) : v <> "" -> Js.str_truthy v = true.
Proof. intros H. unfold Js.str_truthy. by destruct (String.eqb_spec v ""). Qed.

Section ClipArgument.

Context (P : Platform).

(** X15: [parseClip] gives no clip for a value that is absent or empty.  Any
    other value gives a clip only if it has exactly three commas and each of
    its four parts is a number; a value with another number of commas fails
    with the clip-format error, and a clip that is returned has no NaN
    among its four fields. *)
Theorem parseClip_needs_four_numbers :
  parseClip P None = Ok None /\
  parseClip P (Some "") = Ok None /\
  (forall v, v <> "" -> count_commas v <> 3%nat ->
     parseClip P (Some v) = Throw ClipFormat) /\
  (forall v, v <> "" -> parseClip P (Some v) <> Ok None) /\
  (forall v c, parseClip P (Some v) = Ok (Some c) ->
     count_commas v = 3%nat /\
     Js.is_nan (clip_x c) = false /\ Js.is_nan (clip_y c) = false /\
     Js.is_nan (clip_width c) = false /\ Js.is_nan (clip_height c) = false).
Proof.
  split; [done|]. split; [done|]. split; [|split].
  - intros v Hne Hcount. unfold parseClip. simpl.
    rewrite (str_truthy_nonempty v Hne). simpl.
    pose proof (split_commas_length v "") as Hl.
    destruct (split_commas v "") as [|a [|b [|c [|d [|e l]]]]]; simpl in *; try done.
    exfalso. apply Hcount. lia.
  - intros v Hne. unfold parseClip. simpl.
    rewrite (str_truthy_nonempty v Hne). simpl.
    destruct (split_commas v "") as [|a [|b [|c [|d [|e l]]]]]; simpl; try done.
    by destruct (_ || _).
  - intros v c. unfold parseClip. simpl.
    destruct (Js.str_truthy v); simpl; [|done].
    pose proof (split_commas_length v "") as Hl.
    destruct (split_commas v "") as [|a [|b [|c' [|d [|e l]]]]]; simpl in *; try done.
    destruct (Js.is_nan (Number_of_string P (String_trim P a))) eqn:H1; [done|].
    destruct (Js.is_nan (Number_of_string P (String_trim P b))) eqn:H2; [done|].
    destruct (Js.is_nan (Number_of_string P (String_trim P c'))) eqn:H3; [done|].
    destruct (Js.is_nan (Number_of_string P (String_trim P d))) eqn:H4; [done|].
    simpl. intros [= <-]. simpl. repeat split; try done. lia.
Qed.

End ClipArgument.

Lemma parseClip_needs_four_numbers_witness :
  parseClip Sample.platform (Some "10,10,200") = Throw ClipFormat /\
  count_commas "10, 10, 200, 150" = 3%nat.
Proof.
  destruct (parseClip_needs_four_numbers Sample.platform)
    as (_ & _ & Hwrong & _ & Hok).
  split.
  - apply Hwrong; [discriminate | simpl; lia].
  - apply (Hok "10, 10, 200, 150"
             (mkClip (Js.of_Z 10) (Js.of_Z 10) (Js.of_Z 200) (Js.of_Z 150))).
    reflexivity.
Defined.

(** ** Plain text to Markdown *)

Lemma newlines_to_spaces_clean (s : string) :
  has_newline (newlines_to_spaces s) = false.
Proof.
  induction s as [|c s IH]; [done|]. simpl.
  destruct (Ascii.eqb c newline) eqn:Hc; simpl; [done|]. by rewrite Hc.
Qed.

Lemma trim_left_clean (s : string) :
  has_newline s = false -> has_newline (Sample.trim_left s) = false.
Proof.
  induction s as [|c s IH]; [done|]. simpl. intros H.
  apply orb_false_iff in H as [Hc Hs].
  destruct (Sample.is_space c); [by apply IH|]. simpl. by rewrite Hc, Hs.
Qed.

Lemma trim_right_clean (s : string) :
  has_newline s = false -> has_newline (Sample.trim_right s) = false.
Proof.
  induction s as [|c s IH]; [done|]. simpl. intros H.
  apply orb_false_iff in H as [Hc Hs]. specialize (IH Hs).
  destruct (Sample.trim_right s) as [|d rest].
  - destruct (Sample.is_space c); [done|]. simpl. by rewrite Hc.
  - simpl. rewrite Hc. exact IH.
Qed.

Section PlainText.

Context (P : Platform).

(** X16: if trimming does not bring a line feed into a text that has none,
    the Markdown made from plain text is a list of paragraphs joined by one
    blank line each, where no paragraph is empty and no paragraph holds a
    line feed. *)
Theorem textToMarkdown_paragraphs (text : string) :
  (forall s, has_newline s = false -> has_newline (String_trim P s) = false) ->
  exists blocks,
    textToMarkdown P text = join_blank_lines blocks /\
    Forall (fun b => b <> "" /\ has_newline b = false) blocks.
Proof.
  intros Htrim. unfold textToMarkdown. eexists. split; [reflexivity|].
  apply Forall_forall. intros b Hb.
  apply list_elem_of_filter in Hb as [Htruthy Hb].
  apply list_elem_of_In, in_map_iff in Hb as (block & <- & _). split.
  - intros Hempty. rewrite Hempty in Htruthy. discriminate Htruthy.
  - apply Htrim, newlines_to_spaces_clean.
Qed.

End PlainText.

Lemma textToMarkdown_paragraphs_witness :
  exists blocks,
    textToMarkdown Sample.platform "one two" = join_blank_lines blocks /\
    Forall (fun b => b <> "" /\ has_newline b = false) blocks.
Proof.
  apply (textToMarkdown_paragraphs Sample.platform).
  intros s Hs. simpl. unfold Sample.trim.
  by apply trim_right_clean, trim_left_clean.
Defined.

(** ** The sanitizer, further *)





(** ** The settings of the load *)

(** X18: the wait policy handed to the engine is never empty, and an empty
    one in the request is replaced by networkidle.  The timeout of the
    request is replaced by 30000 when it is falsy as it stands (0, NaN, the
    empty text, false); a numeric timeout, and the timeout of every request
    that [main] builds from the command line, therefore reaches the engine
    as a number that is neither 0 nor NaN.  A non-empty text is truthy
    whatever it spells, and is handed over as [Number] of the text: the
    default does not protect a caller of [toPng] that gives the timeout as
    a text. *)
Theorem load_settings_defaults (P : Platform) (options : Opts.t) :
  waitUntil_of options <> "" /\
  (Opts.wait_until options = Some "" -> waitUntil_of options = "networkidle") /\
  (forall v, Opts.timeout_ms options = Some v -> Js.value_truthy v = false ->
     timeoutMs_of P options = Js.of_Z 30000) /\
  (Opts.timeout_ms options = None ->
     Js.num_truthy (timeoutMs_of P options) = true) /\
  (forall t, Opts.timeout_ms options = Some (Js.VNum t) ->
     Js.num_truthy (timeoutMs_of P options) = true) /\
  (forall args,
     Js.num_truthy (timeoutMs_of P (Req.options (request_of_args args))) = true) /\
  (forall s, Opts.timeout_ms options = Some (Js.VStr s) -> s <> "" ->
     timeoutMs_of P options = Number_of_string P s).
Proof.
  assert (Hnum : forall t o, Opts.timeout_ms o = Some (Js.VNum t) ->
                 Js.num_truthy (timeoutMs_of P o) = true).
  { intros t o Ht. unfold timeoutMs_of. rewrite Ht. simpl.
    destruct (Js.num_truthy t) eqn:Hn; [exact Hn | reflexivity]. }
  unfold waitUntil_of. repeat split.
  - destruct (Opts.wait_until options) as [v|]; simpl; [|done].
    unfold Js.str_truthy. destruct (String.eqb_spec v ""); simpl; done.
  - by intros ->.
  - intros v Hv Hf. unfold timeoutMs_of. by rewrite Hv, Hf.
  - intros Hv. unfold timeoutMs_of. by rewrite Hv.
  - intros t Ht. by apply (Hnum t).
  - intros args. by apply (Hnum (Args.timeoutMs args)).
  - intros s Hs Hne. unfold timeoutMs_of. rewrite Hs. simpl.
    unfold Js.str_truthy. destruct (String.eqb_spec s ""); [done|reflexivity].
Qed.

Lemma load_settings_defaults_witness :
  timeoutMs_of Sample.platform
    (Opts.mk None None None None None false None None (Some "")
       (Some (Js.VNum (Js.of_Z 0)))) = Js.of_Z 30000 /\
  waitUntil_of (Opts.mk None None None None None false None None (Some "")
                  (Some (Js.VNum (Js.of_Z 0)))) = "networkidle" /\
  timeoutMs_of Sample.platform
    (Opts.mk None None None None None false None None None
       (Some (Js.VStr "0"))) = Js.of_Z 0 /\
  timeoutMs_of Sample.platform
    (Opts.mk None None None None None false None None None
       (Some (Js.VStr "abc"))) = Js.NaN.
Proof.
  destruct (load_settings_defaults Sample.platform
              (Opts.mk None None None None None false None None (Some "")
                 (Some (Js.VNum (Js.of_Z 0))))) as (_ & Hw & Ht & _).
  destruct (load_settings_defaults Sample.platform
              (Opts.mk None None None None None false None None None
                 (Some (Js.VStr "0")))) as (_ & _ & _ & _ & _ & _ & H0).
  destruct (load_settings_defaults Sample.platform
              (Opts.mk None None None None None false None None None
                 (Some (Js.VStr "abc")))) as (_ & _ & _ & _ & _ & _ & Habc).
  split; [by apply (Ht (Js.VNum (Js.of_Z 0)))|].
  split; [by apply Hw|].
  split; [by apply (H0 "0") | by apply (Habc "abc")].
Defined.

(** ** The allow-list, further *)

(** X19: the decision of the route handler only grows with the list: a
    request that is continued stays continued when prefixes are added on
    either side.  An empty prefix in the list lets every request through. *)
Theorem allow_list_grows (wl more : list (option string)) (u : string) :
  (route_handler wl u = Continued ->
   route_handler (wl ++ more) u = Continued /\
   route_handler (more ++ wl) u = Continued) /\
  (In (Some "") wl -> route_handler wl u = Continued).
Proof.
  split.
  - intros H. apply route_handler_continued in H as (p & Hin & Hstart).
    split; apply route_handler_continued; exists p;
      (split; [apply in_app_iff; auto | done]).
  - intros Hin. apply route_handler_continued. exists (Some "").
    split; [done|]. by exists u.
Qed.

Lemma allow_list_grows_witness :
  route_handler ([Some "https://cdn.example.com/"] ++ [Some "file://"])
    "https://cdn.example.com/a.css" = Continued /\
  route_handler [Some "file://"; Some ""] "https://anywhere.example/" = Continued.
Proof.
  split.
  - destruct (allow_list_grows [Some "https://cdn.example.com/"] [Some "file://"]
                "https://cdn.example.com/a.css") as [H _].
    by apply H.
  - destruct (allow_list_grows [Some "file://"; Some ""] []
                "https://anywhere.example/") as [_ H].
    apply H. simpl. auto.
Defined.

(** ** The viewport, further *)

Lemma positive_rational_truthy (q : Q) :
  (0 < q)%Q -> Js.num_truthy (Js.Fin q) = true.
Proof.
  intros Hq. simpl. apply negb_true_iff.
  destruct (Qeq_bool q (inject_Z 0)) eqn:Heq; [|done].
  apply Qeq_bool_iff in Heq. rewrite Heq in Hq. by apply Qlt_irrefl in Hq.
Qed.

Lemma ceiling_positive (q : Q) : (0 < q)%Q -> (0 < Qceiling q)%Z.
Proof.
  intros Hq. rewrite Zlt_Qlt. eapply Qlt_le_trans; [exact Hq | apply Qle_ceiling].
Qed.

(** X20: when the viewport is taken from a clip rectangle of positive finite
    width and height, it is the smallest whole-number size that covers the
    rectangle: each side is a positive integer, at least the clip's side and
    less than one above it. *)
Theorem clip_viewport_covers_clip (preset : string) (width height : option Js.num)
    (clip : Clip) (qw qh : Q) :
  Js.truthy_num width && Js.truthy_num height = false ->
  clip_width clip = Js.Fin qw -> clip_height clip = Js.Fin qh ->
  (0 < qw)%Q -> (0 < qh)%Q ->
  exists zw zh,
    resolveViewport preset width height (Some clip) =
      mkViewport (Some (Js.of_Z zw)) (Some (Js.of_Z zh)) /\
    (0 < zw)%Z /\ (0 < zh)%Z /\
    (qw <= inject_Z zw)%Q /\ (inject_Z (zw - 1) < qw)%Q /\
    (qh <= inject_Z zh)%Q /\ (inject_Z (zh - 1) < qh)%Q.
Proof.
  intros Hpair Hw Hh Hqw Hqh. exists (Qceiling qw), (Qceiling qh). split.
  - unfold resolveViewport, clip_truthy. rewrite Hpair, Hw, Hh.
    by rewrite !positive_rational_truthy.
  - repeat split; auto using ceiling_positive, Qle_ceiling, Qceiling_lt.
Qed.

Lemma clip_viewport_covers_clip_witness :
  exists zw zh,
    resolveViewport "og" None None
      (Some (mkClip (Js.of_Z 10) (Js.of_Z 10) (Js.Fin (401 # 2)) (Js.Fin (150 # 1)))) =
      mkViewport (Some (Js.of_Z zw)) (Some (Js.of_Z zh)) /\
    (0 < zw)%Z /\ (0 < zh)%Z.
Proof.
  destruct (clip_viewport_covers_clip "og" None None
              (mkClip (Js.of_Z 10) (Js.of_Z 10) (Js.Fin (401 # 2)) (Js.Fin (150 # 1)))
              (401 # 2) (150 # 1) eq_refl eq_refl eq_refl eq_refl eq_refl)
    as (zw & zh & H & Hw & Hh & _).
  by exists zw, zh.
Defined.

Lemma own_lookup_in (name : string) (table : list (string * Preset)) (p : Preset) :
  own_lookup name table = Some p -> exists k, In (k, p) table.
Proof.
  induction table as [|[k q] table IH]; [done|]. cbn [own_lookup].
  destruct (String.eqb k name).
  - intros [= ->]. exists k. by left.
  - intros H. destruct (IH H) as [k' Hin]. exists k'. by right.
Qed.

Lemma presets_bounded (k : string) (p : Preset) :
  In (k, p) PRESETS ->
  (100 <= preset_width p <= 5000)%Z /\ (100 <= preset_height p <= 5000)%Z.
Proof.
  unfold PRESETS. simpl.
  intros [H|[H|[H|[H|[H|[]]]]]]; injection H as _ <-; simpl; lia.
Qed.

(** X21: without explicit dimensions and without a clip, every preset name
    that is not a property of the object prototype, known or unknown,
    resolves to a viewport of whole numbers between 100 and 5000 on each
    side. *)
Theorem preset_viewport_within_bounds (preset : string) :
  ~ In preset Object_prototype_names ->
  exists zw zh,
    resolveViewport preset None None None =
      mkViewport (Some (Js.of_Z zw)) (Some (Js.of_Z zh)) /\
    (100 <= zw <= 5000)%Z /\ (100 <= zh <= 5000)%Z.
Proof.
  intros Hnot. change (resolveViewport preset None None None)
    with (preset_viewport preset).
  unfold preset_viewport, PRESETS_get.
  destruct (own_lookup preset PRESETS) as [p|] eqn:Hown.
  - apply own_lookup_in in Hown as [k Hin]. apply presets_bounded in Hin.
    by exists (preset_width p), (preset_height p).
  - destruct (existsb (String.eqb preset) Object_prototype_names) eqn:Hex.
    + exfalso. apply Hnot. apply existsb_exists in Hex as (x & Hin & Heq).
      apply String.eqb_eq in Heq. by subst x.
    + exists 1200%Z, 630%Z. split; [reflexivity | lia].
Qed.

Lemma preset_viewport_within_bounds_witness :
  exists zw zh,
    resolveViewport "infographic" None None None =
      mkViewport (Some (Js.of_Z zw)) (Some (Js.of_Z zh)) /\
    (100 <= zw <= 5000)%Z /\ (100 <= zh <= 5000)%Z.
Proof.
  apply preset_viewport_within_bounds.
  simpl. intuition discriminate.
Defined.

(** ** When [toPng] succeeds *)

Section Success.

Context (P : Platform) (B : Browser).

(** X22: what a success of [toPng] needs: there is some input, the input
    file and the style sheet (if named) and, for content, the template have
    been read, the engine is there, the load of the page was not rejected
    and the browser has reported a version. *)
Theorem toPng_success_needs (r : Req.t) (w w' : World) (res : Result) :
  toPng P B r w = (Ok res, w') ->
  no_input r = false /\
  playwright_available B = true /\
  navigation_rejects B (target_of P r) (waitUntil_of (Req.options r))
    (timeoutMs_of P (Req.options r)) = false /\
  Js.str_truthy (browser_version B) = true /\
  exists raw css html,
    load_sources r w = (Ok (raw, css), w) /\
    build_html P r raw css w = (Ok html, w).
Proof.
  intros Hrun.
  destruct (no_input r) eqn:Hin.
  { rewrite toPng_missing in Hrun by done. discriminate Hrun. }
  destruct (toPng_ok_inv P B r w w' res Hrun)
    as (raw & css & html & _ & _ & _ & _ & Hload & Hbuild & Ha & Hv & _).
  split; [done|]. split; [done|]. split; [|split; [done | by exists raw, css, html]].
  destruct (navigation_rejects B (target_of P r) (waitUntil_of (Req.options r))
              (timeoutMs_of P (Req.options r))) eqn:Hr; [|done].
  rewrite (toPng_produce P B r w raw css html Hin Hload Hbuild) in Hrun.
  rewrite produce_rejected in Hrun by done. discriminate Hrun.
Qed.

End Success.

Lemma toPng_success_needs_witness :
  navigation_rejects Sample.browser "https://example.com" "networkidle"
    (Js.of_Z 30000) = false /\
  exists raw css,
    load_sources (Sample.request None (Some "https://example.com") Opts.empty false)
      Sample.disk = (Ok (raw, css), Sample.disk).
Proof.
  destruct (toPng Sample.platform Sample.browser
              (Sample.request None (Some "https://example.com") Opts.empty false)
              Sample.disk) as [out w'] eqn:Hrun.
  assert (Hok : exists res, out = Ok res).
  { apply (f_equal fst) in Hrun. vm_compute in Hrun. subst out. by eexists. }
  destruct Hok as (res & ->).
  destruct (toPng_success_needs Sample.platform Sample.browser _ _ _ _ Hrun)
    as (_ & _ & Hr & _ & raw & css & html & Hload & _).
  split; [exact Hr | by exists raw, css].
Defined.

(** ** Plain text, further *)

Lemma append_nil_r (s : string) : s +:+ "" = s.
Proof.
  induction s as [|c s IH]; [done|]. rewrite append_cons. by rewrite IH.
Qed.

Lemma append_snoc (cur : string) (c : ascii) (s : string) :
  (cur +:+ String c "") +:+ s = cur +:+ String c s.
Proof.
  induction cur as [|d cur IH]; [done|]. rewrite !append_cons. by rewrite IH.
Qed.

Lemma split_line (s cur : string) :
  has_newline s = false ->
  split_blank_lines s false cur = [cur +:+ s].
Proof.
  revert cur. induction s as [|c s IH]; intros cur H.
  - simpl. by rewrite append_nil_r.
  - simpl in H. apply orb_false_iff in H as [Hc Hs].
    cbn [split_blank_lines andb Js.has_prefix].
    rewrite (Ascii.eqb_sym newline c), Hc. cbn [andb].
    rewrite IH by done. by rewrite append_snoc.
Qed.

Lemma skip_then_line (s : string) :
  has_newline s = false ->
  split_blank_lines s true "" = [s].
Proof.
  intros H. destruct s as [|c s]; [done|].
  simpl in H. apply orb_false_iff in H as [Hc Hs].
  cbn [split_blank_lines andb Js.has_prefix].
  rewrite (Ascii.eqb_sym newline c), Hc. cbn [andb].
  by rewrite split_line.
Qed.

Lemma newlines_to_spaces_line (s : string) :
  has_newline s = false -> newlines_to_spaces s = s.
Proof.
  induction s as [|c s IH]; [done|]. simpl. intros H.
  apply orb_false_iff in H as [Hc Hs]. by rewrite Hc, IH.
Qed.

Lemma newlines_to_spaces_app (a b : string) :
  newlines_to_spaces (a +:+ b) = newlines_to_spaces a +:+ newlines_to_spaces b.
Proof.
  induction a as [|c a IH]; [done|]. rewrite append_cons. simpl.
  rewrite append_cons. by rewrite IH.
Qed.

Lemma split_single_break (a b cur : string) :
  has_newline a = false -> has_newline b = false ->
  split_blank_lines (a +:+ String newline b) false cur =
    [cur +:+ a +:+ String newline b].
Proof.
  revert cur. induction a as [|c a IH]; intros cur Ha Hb.
  - change ("" +:+ String newline b) with (String newline b).
    cbn [split_blank_lines andb Js.has_prefix].
    assert (Hp : match b with
                 | "" => false
                 | String d _ => Ascii.eqb newline d && true
                 end = false).
    { destruct b as [|d b]; [done|]. simpl in Hb.
      apply orb_false_iff in Hb as [Hd _].
      by rewrite (Ascii.eqb_sym newline d), Hd. }
    rewrite Hp, andb_false_r. rewrite split_line by done.
    by rewrite append_snoc.
  - simpl in Ha. apply orb_false_iff in Ha as [Hc Ha].
    rewrite append_cons. cbn [split_blank_lines andb Js.has_prefix].
    rewrite (Ascii.eqb_sym newline c), Hc. cbn [andb].
    rewrite IH by done. by rewrite append_snoc.
Qed.

Lemma split_blank_run (a b cur : string) (extra : bool) :
  has_newline a = false -> has_newline b = false ->
  split_blank_lines
    (a +:+ String newline (String newline (if extra then String newline b else b)))
    false cur = [cur +:+ a; b].
Proof.
  revert cur. induction a as [|c a IH]; intros cur Ha Hb.
  - change ("" +:+ ?s) with s.
    cbn [split_blank_lines andb Js.has_prefix]. rewrite !Ascii.eqb_refl. cbn [andb].
    f_equal; [by rewrite append_nil_r|]. destruct extra.
    + cbn [split_blank_lines]. rewrite !Ascii.eqb_refl. cbn [andb].
      by apply skip_then_line.
    + by apply skip_then_line.
  - simpl in Ha. apply orb_false_iff in Ha as [Hc Ha].
    rewrite append_cons. cbn [split_blank_lines andb Js.has_prefix].
    rewrite (Ascii.eqb_sym newline c), Hc. cbn [andb].
    rewrite IH by done. by rewrite append_snoc.
Qed.

Lemma str_truthy_false (s : string) : Js.str_truthy s = false -> s = "".
Proof.
  unfold Js.str_truthy. destruct (String.eqb_spec s ""); [done | discriminate].
Qed.

Lemma join_filter_one (x : string) :
  join_blank_lines (filter (fun block => Js.str_truthy block = true) [x]) = x.
Proof.
  rewrite filter_cons, filter_nil.
  destruct (decide (Js.str_truthy x = true)) as [H|H]; [done|].
  apply not_true_is_false, str_truthy_false in H. by subst x.
Qed.

Lemma join_filter_two (x y : string) :
  join_blank_lines (filter (fun block => Js.str_truthy block = true) [x; y]) =
    if Js.str_truthy x
    then if Js.str_truthy y
         then x +:+ String newline (String newline "") +:+ y
         else x
    else y.
Proof.
  rewrite !filter_cons, filter_nil.
  destruct (decide (Js.str_truthy x = true)) as [Hx|Hx];
    destruct (decide (Js.str_truthy y = true)) as [Hy|Hy].
  - by rewrite Hx, Hy.
  - rewrite Hx. apply not_true_is_false in Hy. by rewrite Hy.
  - apply not_true_is_false in Hx. by rewrite Hx.
  - apply not_true_is_false in Hx. rewrite Hx.
    apply not_true_is_false, str_truthy_false in Hy. by subst y.
Qed.

Section PlainTextShapes.

Context (P : Platform).

(** X23: on plain text, a text without line feed comes out trimmed; a single
    line feed between two such texts is turned into a space; a run of two or
    three line feeds between them separates two paragraphs, each trimmed,
    joined by exactly one blank line, and a paragraph that trims to nothing
    is dropped. *)
Theorem textToMarkdown_breaks (a b : string) :
  has_newline a = false -> has_newline b = false ->
  textToMarkdown P a = String_trim P a /\
  textToMarkdown P (a +:+ String newline b) = String_trim P (a +:+ String " " b) /\
  forall extra : bool,
    textToMarkdown P
      (a +:+ String newline (String newline (if extra then String newline b else b))) =
      if Js.str_truthy (String_trim P a)
      then if Js.str_truthy (String_trim P b)
           then String_trim P a +:+ String newline (String newline "")
                +:+ String_trim P b
           else String_trim P a
      else String_trim P b.
Proof.
  intros Ha Hb. unfold textToMarkdown. split; [|split].
  - rewrite (split_line a "" Ha). cbn [map].
    change ("" +:+ a) with a. rewrite (newlines_to_spaces_line a Ha).
    apply join_filter_one.
  - rewrite (split_single_break a b "" Ha Hb). cbn [map].
    change ("" +:+ a +:+ String newline b) with (a +:+ String newline b).
    rewrite newlines_to_spaces_app. cbn [newlines_to_spaces].
    rewrite Ascii.eqb_refl.
    rewrite (newlines_to_spaces_line a Ha), (newlines_to_spaces_line b Hb).
    apply join_filter_one.
  - intros extra. rewrite (split_blank_run a b "" extra Ha Hb). cbn [map].
    change ("" +:+ a) with a.
    rewrite (newlines_to_spaces_line a Ha), (newlines_to_spaces_line b Hb).
    apply join_filter_two.
Qed.

End PlainTextShapes.

Lemma textToMarkdown_breaks_witness :
  textToMarkdown Sample.platform
    (" first line" +:+ String newline "second line ") = "first line second line" /\
  textToMarkdown Sample.platform
    ("one " +:+ String newline (String newline (String newline " two"))) =
    "one" +:+ String newline (String newline "") +:+ "two".
Proof.
  destruct (textToMarkdown_breaks Sample.platform " first line" "second line "
              eq_refl eq_refl) as (_ & H1 & _).
  destruct (textToMarkdown_breaks Sample.platform "one " " two" eq_refl eq_refl)
    as (_ & _ & H2).
  split; [exact H1 | exact (H2 true)].
Defined.

(** ** How [parseArgs] ends *)

Section Endings.

Context (P : Platform).

Lemma loop_exit (n : nat) :
  forall argv args code,
    length argv <= n -> parse_loop P argv args = Exited code ->
    code = 0%Z /\ (In "--help" argv \/ In "-h" argv).
Proof.
  induction n as [|n IH]; intros argv args code Hlen Hrun.
  - destruct argv; [discriminate Hrun | simpl in Hlen; lia].
  - destruct argv as [|a rest]; [discriminate Hrun|].
    assert (Hrest : forall rest' args',
      length rest' <= n -> (forall x, In x rest' -> In x rest) ->
      parse_loop P rest' args' = Exited code ->
      code = 0%Z /\ (In "--help" (a :: rest) \/ In "-h" (a :: rest))).
    { intros rest' args' Hl Hsub Hr. destruct (IH rest' args' code Hl Hr) as [Hc Hin].
      split; [done|]. destruct Hin as [Hin|Hin]; [left|right]; right; by apply Hsub. }
    assert (Hb : length (behind_value rest) <= n).
    { pose proof (behind_value_length rest). simpl in Hlen. lia. }
    assert (Hr : length rest <= n) by (simpl in Hlen; lia).
    cbn [parse_loop] in Hrun. cbv zeta in Hrun.
    repeat match type of Hrun with
           | (if String.eqb a ?f then _ else _) = _ =>
               destruct (String.eqb a f);
               [ first
                   [ by apply (Hrest _ _ Hb (fun x => behind_value_in x rest)) in Hrun
                   | by apply (Hrest _ _ Hr (fun x H => H)) in Hrun
                   | match type of Hrun with
                     | match parseClip ?Q ?v with _ => _ end = _ =>
                         destruct (parseClip Q v); [|discriminate Hrun];
                         by apply (Hrest _ _ Hb (fun x => behind_value_in x rest)) in Hrun
                     end ]
               | ]
           end.
    destruct (String.eqb a "--help" || String.eqb a "-h") eqn:Hhelp.
    + injection Hrun as <-. split; [done|].
      apply orb_true_iff in Hhelp as [H|H]; apply String.eqb_eq in H;
        [left|right]; by left.
    + by apply (Hrest _ _ Hr (fun x H => H)) in Hrun.
Qed.

Lemma parseClip_throws (v : option string) (e : Error) :
  parseClip P v = Throw e -> e = ClipFormat.
Proof.
  unfold parseClip. destruct (negb (Js.truthy_str v)); [done|].
  destruct (map _ _) as [|x [|y [|z [|t [|u l]]]]]; try by intros [= <-].
  destruct (existsb _ _); [by intros [= <-] | done].
Qed.

Lemma loop_throw (n : nat) :
  forall argv args e,
    length argv <= n -> parse_loop P argv args = Thrown e ->
    e = ClipFormat /\ In "--clip" argv.
Proof.
  induction n as [|n IH]; intros argv args e Hlen Hrun.
  - destruct argv; [discriminate Hrun | simpl in Hlen; lia].
  - destruct argv as [|a rest]; [discriminate Hrun|].
    assert (Hrest : forall rest' args',
      length rest' <= n -> (forall x, In x rest' -> In x rest) ->
      parse_loop P rest' args' = Thrown e ->
      e = ClipFormat /\ In "--clip" (a :: rest)).
    { intros rest' args' Hl Hsub Hr. destruct (IH rest' args' e Hl Hr) as [Hc Hin].
      split; [done|]. right. by apply Hsub. }
    assert (Hb : length (behind_value rest) <= n).
    { pose proof (behind_value_length rest). simpl in Hlen. lia. }
    assert (Hr : length rest <= n) by (simpl in Hlen; lia).
    cbn [parse_loop] in Hrun. cbv zeta in Hrun.
    repeat match type of Hrun with
           | (if String.eqb a ?f then _ else _) = _ =>
               destruct (String.eqb_spec a f);
               [ first
                   [ by apply (Hrest _ _ Hb (fun x => behind_value_in x rest)) in Hrun
                   | by apply (Hrest _ _ Hr (fun x H => H)) in Hrun
                   | match type of Hrun with
                     | match parseClip ?Q ?v with _ => _ end = _ =>
                         destruct (parseClip Q v) eqn:Hclip;
                         [ by apply (Hrest _ _ Hb (fun x => behind_value_in x rest))
                             in Hrun
                         | injection Hrun as <-; apply parseClip_throws in Hclip;
                           split; [done | by left] ]
                     end ]
               | ]
           end.
    destruct (String.eqb a "--help" || String.eqb a "-h"); [discriminate Hrun|].
    by apply (Hrest _ _ Hr (fun x H => H)) in Hrun.
Qed.

(** X24: [parseArgs] leaves the process only with status 0 and only when
    [--help] or [-h] occurs on the command line.  It throws the clip-format
    error only when [--clip] occurs, and otherwise only the missing-output
    error or one of the two errors of an incomplete pair of dimensions. *)
Theorem parseArgs_endings (argv : list string) :
  (forall code, parseArgs P argv = Exited code ->
     code = 0%Z /\ (In "--help" argv \/ In "-h" argv)) /\
  (forall e, parseArgs P argv = Thrown e ->
     (e = ClipFormat /\ In "--clip" argv) \/
     e = MissingOutput \/ e = WidthWithoutHeight \/ e = HeightWithoutWidth).
Proof.
  unfold parseArgs. split.
  - intros code. destruct (parse_loop P argv Args.defaults) as [args|e|c] eqn:Hloop.
    + unfold check_args. destruct (negb _); [done|].
      destruct (_ && _); [done|]. by destruct (_ && _).
    + done.
    + intros [= <-]. by apply (loop_exit (length argv) argv Args.defaults).
  - intros e. destruct (parse_loop P argv Args.defaults) as [args|e'|c] eqn:Hloop.
    + unfold check_args.
      destruct (negb _); [intros [= <-]; auto|].
      destruct (_ && _); [intros [= <-]; auto|].
      destruct (_ && _); [intros [= <-]; auto | done].
    + intros [= <-]. left. by apply (loop_throw (length argv) argv Args.defaults).
    + done.
Qed.

End Endings.

Lemma parseArgs_endings_witness :
  In "-h" ["--output"; "o.png"; "-h"; "--clip"; "oops"] /\
  In "--clip" ["--clip"; "1,2,3"; "-h"].
Proof.
  destruct (parseArgs_endings Sample.platform
              ["--output"; "o.png"; "-h"; "--clip"; "oops"]) as [Hexit _].
  destruct (parseArgs_endings Sample.platform ["--clip"; "1,2,3"; "-h"]) as [_ Hthrow].
  split.
  - destruct (Hexit 0%Z eq_refl) as [_ [H|H]]; [|exact H].
    simpl in H. intuition discriminate.
  - destruct (Hthrow ClipFormat eq_refl) as [[_ H]|[H|[H|H]]];
      [exact H | discriminate H..].
Defined.
